(** * web-scrapping/app.py: the Lambda handler of the scraping pipeline

    A shallow embedding of [src/base/web-scrapping/app.py] and the proofs of
    the properties its specification states about it.

    - Python [str] values are sequences of Unicode code points, [list N].
    - Values that come out of [json.loads] are [pyval]s.
    - The two outbound services (the scraping client and the chat-completion
      client) are functions on an abstract world state; every call they
      receive is appended, with its outcome, to a trace.
    - Python exceptions are values threaded through a state-and-error monad;
      [lambda_handler] is the [try: ... except Exception] around it. *)

From Stdlib Require Import ZArith NArith Ascii String DecimalString Floats.SpecFloat.
From stdpp Require Import base tactics option numbers list.

Open Scope Z_scope.
Open Scope list_scope.

#[local] Set Warnings "-register-all".

(** ** Python strings *)

Abbreviation pychar := N (only parsing).
Abbreviation pystr := (list N) (only parsing).

(** [lit s] is the Python string literal with the characters of [s]. *)
Fixpoint lit (s : string) : pystr :=
  match s with
  | EmptyString => []
  | String a s' => N_of_ascii a :: lit s'
  end.

(** The characters a string literal of this file cannot spell. *)
Definition nl : pystr := [10%N].        (* "\n" *)
Definition dq : pystr := [34%N].        (* the double quote *)
Definition bs : pystr := [92%N].        (* the backslash *)

(** [prefix.startswith]: [str.startswith(prefix)], a character-by-character
    comparison from the left. *)
Fixpoint str_startswith (s prefix : pystr) : bool :=
  match prefix, s with
  | [], _ => true
  | _ :: _, [] => false
  | p :: prefix', c :: s' => (N.eqb c p) && str_startswith s' prefix'
  end.

(** [Py_UNICODE_ISSPACE]: the code points [str.strip()] removes. *)
Definition isspace (c : pychar) : bool :=
  ((9 <=? c) && (c <=? 13) || (28 <=? c) && (c <=? 32)
   || (c =? 133) || (c =? 160) || (c =? 5760)
   || (8192 <=? c) && (c <=? 8202)
   || (c =? 8232) || (c =? 8233) || (c =? 8239) || (c =? 8287)
   || (c =? 12288))%N.

Fixpoint str_lstrip (s : pystr) : pystr :=
  match s with
  | [] => []
  | c :: s' => if isspace c then str_lstrip s' else s
  end.

Fixpoint str_rstrip (s : pystr) : pystr :=
  match s with
  | [] => []
  | c :: s' =>
      match str_rstrip s' with
      | [] => if isspace c then [] else [c]
      | t => c :: t
      end
  end.

(** [s.strip()] *)
Definition str_strip (s : pystr) : pystr := str_rstrip (str_lstrip s).

(** ** Python values and exceptions *)

(** The values [json.loads] produces; the keys of an object are strings and
    a [dict] keeps its items in insertion order. *)
Inductive pyval :=
| PNone
| PBool (b : bool)
| PInt (z : Z)
| PFloat (f : spec_float)
| PStr (s : pystr)
| PList (xs : list pyval)
| PDict (items : list (pystr * pyval)).

(** [type(v).__name__] *)
Definition type_name (v : pyval) : pystr :=
  match v with
  | PNone => lit "NoneType"
  | PBool _ => lit "bool"
  | PInt _ => lit "int"
  | PFloat _ => lit "float"
  | PStr _ => lit "str"
  | PList _ => lit "list"
  | PDict _ => lit "dict"
  end.

(** [bool(v)]: what [not website] tests. *)
Definition truthy (v : pyval) : bool :=
  match v with
  | PNone => false
  | PBool b => b
  | PInt z => negb (z =? 0)
  | PFloat f => match f with S754_zero _ => false | _ => true end
  | PStr s => match s with [] => false | _ => true end
  | PList xs => match xs with [] => false | _ => true end
  | PDict items => match items with [] => false | _ => true end
  end.

(** An exception instance: its class and what [str(e)] returns. Only
    subclasses of [Exception] are modelled, the ones [except Exception]
    catches. *)
Record exn := Exn { exc_class : pystr; exc_str : pystr }.

Definition AttributeError (obj : pystr) (attr : string) : exn :=
  Exn (lit "AttributeError")
      (lit "'" ++ obj ++ lit "' object has no attribute '" ++ lit attr ++ lit "'").

Definition TypeError (msg : pystr) : exn := Exn (lit "TypeError") msg.

Definition IndexError (msg : pystr) : exn := Exn (lit "IndexError") msg.

(** The outcome of evaluating an expression: an exception or a value. *)
Abbreviation result A := (exn + A)%type (only parsing).

(** The value a dict has for [key], if it has the key. *)
Fixpoint dict_lookup (items : list (pystr * pyval)) (key : pystr) : option pyval :=
  match items with
  | [] => None
  | (k, v) :: items' => if decide (k = key) then Some v else dict_lookup items' key
  end.

(** [d.get(key, default)] on the items of a dict. *)
Definition dict_get (items : list (pystr * pyval)) (key : pystr) (default : pyval) : pyval :=
  match dict_lookup items key with
  | Some v => v
  | None => default
  end.

(** [obj.get(key, default)]: only a dict has the method. *)
Definition py_get (obj : pyval) (key : pystr) (default : pyval) : result pyval :=
  match obj with
  | PDict items => inr (dict_get items key default)
  | _ => inl (AttributeError (type_name obj) "get")
  end.

(** [link.startswith(website)] for a string [link]: the argument has to be a
    string (or a tuple of strings, which no JSON value is). *)
Definition py_startswith (link : pystr) (arg : pyval) : result bool :=
  match arg with
  | PStr prefix => inr (str_startswith link prefix)
  | _ => inl (TypeError (lit "startswith first arg must be str or a tuple of str, not "
                           ++ type_name arg))
  end.

(** ** json.dumps of a flat object *)

Definition hex_digit (n : N) : pychar :=
  (if n <? 10 then 48 + n else 87 + n)%N.

(** ['{0:04x}'.format(n)] *)
Definition hex4 (n : N) : pystr :=
  [hex_digit (N.shiftr n 12 mod 16); hex_digit (N.shiftr n 8 mod 16);
   hex_digit (N.shiftr n 4 mod 16); hex_digit (n mod 16)]%N.

(** The replacement [json.encoder.py_encode_basestring_ascii] makes for one
    character: [ESCAPE_DCT], then [\uXXXX], then a surrogate pair. *)
Definition escape_ascii (c : pychar) : pystr :=
  (if c =? 92 then bs ++ bs
   else if c =? 34 then bs ++ dq
   else if c =? 8 then bs ++ lit "b"
   else if c =? 12 then bs ++ lit "f"
   else if c =? 10 then bs ++ lit "n"
   else if c =? 13 then bs ++ lit "r"
   else if c =? 9 then bs ++ lit "t"
   else if (32 <=? c) && (c <=? 126) then [c]
   else if c <? 65536 then bs ++ lit "u" ++ hex4 c
   else
     let n := c - 65536 in
     let s1 := N.lor 55296 (N.land (N.shiftr n 10) 1023) in
     let s2 := N.lor 56320 (N.land n 1023) in
     bs ++ lit "u" ++ hex4 s1 ++ bs ++ lit "u" ++ hex4 s2)%N.

Definition encode_basestring_ascii (s : pystr) : pystr :=
  dq ++ concat (map escape_ascii s) ++ dq.

(** [json.dumps({key: value})] for strings [key] and [value], with the
    default separators and [ensure_ascii]. *)
Definition json_dumps_object1 (key value : pystr) : pystr :=
  lit "{" ++ encode_basestring_ascii key ++ lit ": "
          ++ encode_basestring_ascii value ++ lit "}".

(** ** The outbound services *)

(** The request and response types of the scraping client, as far as the
    handler builds and reads them. The parameters carry the two scrape
    options next to the URL; [result.data] is optional, and so are the
    [links] and the [markdown] of the data. The field [url] holds the Python
    value the constructor of the parameters let through, which is a string:
    see [StartScrapeJobParams_init]. *)
Inductive scrape_format := FormatLinks | FormatMarkdown.

Record StartScrapeJobParams := {
  url : pyval;
  formats : list scrape_format;
  only_main_content : bool
}.

Record ScrapeJobData := {
  links : option (list pystr);
  markdown : option pystr
}.

Record ScrapeJobResponse := { data : option ScrapeJobData }.

(** One message of a chat request, [{"role": ..., "content": ...}]. *)
Record ChatMessage := { role : pystr; content : pystr }.

(** The chat response, as far as the handler reads it:
    [response.choices[0].message.content]. *)
Record ChatCompletionOutput := {
  choices : list (option pystr)   (* the [message.content] of each choice *)
}.

(** What the handler sends out, with what came back. *)
Inductive io_event :=
| ScrapeEvent (p : StartScrapeJobParams) (r : result ScrapeJobResponse)
| ChatEvent (model : pystr) (messages : list ChatMessage) (r : result ChatCompletionOutput).

Definition is_chat (ev : io_event) : bool :=
  match ev with ChatEvent _ _ _ => true | ScrapeEvent _ _ => false end.

(** The exception an outbound call raised, if it raised one. *)
Definition raised (ev : io_event) : option exn :=
  match ev with
  | ScrapeEvent _ (inl e) | ChatEvent _ _ (inl e) => Some e
  | _ => None
  end.

(** The HTTP-style response dict of the handler. *)
Record Response := {
  statusCode : Z;
  headers : list (pystr * pystr);
  body : pystr
}.

Definition json_headers : list (pystr * pystr) :=
  [(lit "Content-Type", lit "application/json")].

(** The fixed parts of the three prompts. *)
Definition headings : pystr :=
  lit "Objective:" ++ nl ++
  lit "Mission:" ++ nl ++
  lit "Vision:" ++ nl ++
  lit "Business Concept:" ++ nl ++
  lit "Target Market:" ++ nl ++
  lit "Value Proposition:" ++ nl ++
  lit "Business Name:" ++ nl ++
  lit "Products or Services they offer:" ++ nl ++
  lit "Who they currently sell to:" ++ nl ++
  lit "Top Business Goals:" ++ nl ++
  lit "Challenges:" ++ nl.

Definition prompt_structuring (all_content : pystr) : pystr :=
  lit "You are an expert information architect." ++ nl ++
  lit "Convert the unstructured data below into structured information." ++ nl ++
  lit "Do not remove any information, just present it in a structured format." ++ nl ++ nl ++
  all_content.

Definition prompt_relevancy (structured_info : pystr) : pystr :=
  lit "You are an expert business and marketing analyst specializing in B2B strategy." ++ nl ++
  lit "Review the following structured company information:" ++ nl ++ structured_info ++ nl ++ nl ++
  lit "Extract only the information that is highly relevant for developing a B2B marketing strategy." ++ nl ++
  lit "Discard irrelevant or redundant details." ++ nl ++ nl ++
  lit "Return the answer in the exact format below:" ++ nl ++ nl ++
  headings.

Definition prompt_finalized (relevant_info : pystr) : pystr :=
  lit "You are a professional business document formatter." ++ nl ++
  lit "Take the following input data:" ++ nl ++ relevant_info ++ nl ++ nl ++
  lit "Remove any content between <think> and </think>." ++ nl ++
  lit "Present the information in a clean, professional document format." ++ nl ++ nl ++
  lit "Required headings (exactly as written, in this order):" ++ nl ++
  headings ++ nl ++
  lit "Notes:" ++ nl ++
  lit "- Include only these headings and their corresponding information." ++ nl ++
  lit "- If no information is available for a heading, write 'Not specified'." ++ nl ++
  lit "- Do not use symbols like #, **, or bullet points." ++ nl ++
  lit "- Do not add any extra commentary outside the headings." ++ nl ++
  lit "- Maintain proper spacing and readability.".

(** The piece the content loop appends for one page:
    [f"\n\n--- Page: {link} ---\n{page_content}"]. *)
Definition page_segment (link page_content : pystr) : pystr :=
  nl ++ nl ++ lit "--- Page: " ++ link ++ lit " ---" ++ nl ++ page_content.

Definition model_id : pystr := lit "openai/gpt-oss-120b".

Definition response_missing_website : Response :=
  {| statusCode := 400;
     headers := json_headers;
     body := json_dumps_object1 (lit "error") (lit "Missing 'website' in request body") |}.

Definition response_success (finalized_output : pystr) : Response :=
  {| statusCode := 200;
     headers := json_headers;
     body := json_dumps_object1 (lit "structured_info") finalized_output |}.

Definition response_error (e : exn) : Response :=
  {| statusCode := 500;
     headers := json_headers;
     body := json_dumps_object1 (lit "error") (exc_str e) |}.

(** ** The state-and-error monad of the handler's body *)

Definition M (S A : Type) : Type := S -> result A * S.

Definition ret {S A} (a : A) : M S A := fun s => (inr a, s).

Definition lift {S A} (r : result A) : M S A := fun s => (r, s).

Definition bind {S A B} (m : M S A) (k : A -> M S B) : M S B :=
  fun s =>
    match m s with
    | (inl e, s') => (inl e, s')
    | (inr a, s') => k a s'
    end.

(** [try: m except Exception as e: return handler(e)] *)
Definition try_except {S A} (m : M S A) (handler : exn -> A) : S -> A * S :=
  fun s =>
    match m s with
    | (inl e, s') => (handler e, s')
    | (inr a, s') => (a, s')
    end.

(** The state the handler runs in: the outside world and the outbound calls
    made so far, oldest first. *)
Record state (W : Type) := { world : W; trace : list io_event }.
Arguments world {W} _.
Arguments trace {W} _.

Declare Scope py_scope.
Delimit Scope py_scope with py.
Notation "x <- c1 ;; c2" := (bind c1 (fun x => c2))
  (at level 100, c1 at next level, right associativity) : py_scope.

(** ** The handler *)

(** What the module calls and does not define: the decoder behind
    [json.loads] on a string, and the two client libraries. The clients
    created at module scope act on the state [W] of the outside world. The
    scraping library declares [StartScrapeJobParams] as a validated model
    with [url: str]; [invalid_url v] is the validation error its constructor
    raises for a [url] that is the value [v] and no string. The text of that
    error names the value and the version of the library, and is left to the
    library. *)
Class JsonDecoder := json_decode : pystr -> result pyval.

Class Services (W : Type) := {
  start_and_wait : StartScrapeJobParams -> W -> result ScrapeJobResponse * W;
  chat_completions_create :
    pystr -> list ChatMessage -> W -> result ChatCompletionOutput * W;
  invalid_url : pyval -> exn
}.

Section Handler.

Context {decoder : JsonDecoder} {W : Type} {services : Services W}.

(** [StartScrapeJobParams(url=url, scrape_options=ScrapeOptions(formats=...,
    only_main_content=True))]: the constructor validates its arguments, and
    accepts for [url] a string and no other JSON value. It runs before the
    call, so that a [url] it refuses reaches no service. *)
Definition StartScrapeJobParams_init (url : pyval) (formats : list scrape_format)
  : result StartScrapeJobParams :=
  match url with
  | PStr _ => inr {| url := url; formats := formats; only_main_content := true |}
  | _ => inl (invalid_url url)
  end.

(** [client_scraper.scrape.start_and_wait(params)] *)
Definition scrape_call (p : StartScrapeJobParams) : M (state W) ScrapeJobResponse :=
  fun st =>
    let (r, w) := start_and_wait p (world st) in
    (r, {| world := w; trace := trace st ++ [ScrapeEvent p r] |}).

(** [client.chat.completions.create(model=..., messages=...)] *)
Definition chat_call (model : pystr) (messages : list ChatMessage)
  : M (state W) ChatCompletionOutput :=
  fun st =>
    let (r, w) := chat_completions_create model messages (world st) in
    (r, {| world := w; trace := trace st ++ [ChatEvent model messages r] |}).

(** [json.loads(s)] *)
Definition json_loads (s : pyval) : result pyval :=
  match s with
  | PStr doc => json_decode doc
  | _ => inl (TypeError (lit "the JSON object must be str, bytes or bytearray, not "
                           ++ type_name s))
  end.

(** [result.data.<attr>]: the attribute access on [result.data]. *)
Definition data_attr {A} (r : ScrapeJobResponse) (attr : string)
    (get : ScrapeJobData -> A) : result A :=
  match data r with
  | Some d => inr (get d)
  | None => inl (AttributeError (lit "NoneType") attr)
  end.

(** [scrape_links(url)]: the parameters are built first, then the call is
    made, then [result.data.links] is read. *)
Definition scrape_links (url : pyval) : M (state W) (option (list pystr)) :=
  (params <- lift (StartScrapeJobParams_init url [FormatLinks]) ;;
   result <- scrape_call params ;;
   lift (data_attr result "links" links))%py.

(** [markdown or ""] *)
Definition or_empty (markdown : option pystr) : pystr :=
  match markdown with
  | Some (c :: s) => c :: s
  | Some [] | None => []
  end.

(** [scrape_page_content(url)], for the links the handler calls it with,
    which are strings. *)
Definition scrape_page_content (url : pystr) : M (state W) pystr :=
  (params <- lift (StartScrapeJobParams_init (PStr url) [FormatMarkdown]) ;;
   result <- scrape_call params ;;
   markdown <- lift (data_attr result "markdown" markdown) ;;
   ret (or_empty markdown))%py.

(** [response.choices[0].message.content.strip()] *)
Definition first_content_stripped (response : ChatCompletionOutput) : result pystr :=
  match choices response with
  | [] => inl (IndexError (lit "list index out of range"))
  | None :: _ => inl (AttributeError (lit "NoneType") "strip")
  | Some text :: _ => inr (str_strip text)
  end.

Definition llm_calling (prompt : pystr) : M (state W) pystr :=
  (response <- chat_call model_id [{| role := lit "user"; content := prompt |}] ;;
   lift (first_content_stripped response))%py.

(** [[link for link in links if link.startswith(website)]] over the items
    of a list, appending to the result as the comprehension does. *)
Fixpoint filter_loop (links : list pystr) (website : pyval) (kept : list pystr)
  : result (list pystr) :=
  match links with
  | [] => inr kept
  | link :: rest =>
      match py_startswith link website with
      | inl e => inl e
      | inr true => filter_loop rest website (kept ++ [link])
      | inr false => filter_loop rest website kept
      end
  end.

(** The comprehension on what [scrape_links] returned: [None] cannot be
    iterated. *)
Definition filter_links (links : option (list pystr)) (website : pyval)
  : result (list pystr) :=
  match links with
  | Some links => filter_loop links website []
  | None => inl (TypeError (lit "'NoneType' object is not iterable"))
  end.

(** [for link in links: ...; all_content += f"..."] *)
Fixpoint content_loop (links : list pystr) (all_content : pystr) : M (state W) pystr :=
  match links with
  | [] => ret all_content
  | link :: rest =>
      (page_content <- scrape_page_content link ;;
       content_loop rest (all_content ++ page_segment link page_content))%py
  end.

(** Steps 1 to 5 of the handler: what the [try] runs once the request has
    a website. *)
Definition run_pipeline (website : pyval) : M (state W) Response :=
  (links <- scrape_links website ;;
   links <- lift (filter_links links website) ;;
   all_content <- content_loop links [] ;;
   structured_info <- llm_calling (prompt_structuring all_content) ;;
   relevant_info <- llm_calling (prompt_relevancy structured_info) ;;
   finalized_output <- llm_calling (prompt_finalized relevant_info) ;;
   ret (response_success finalized_output))%py.

(** [body.get("website")] of [json.loads(event.get("body", "{}"))]. *)
Definition request_website (event : pyval) : result pyval :=
  match py_get event (lit "body") (PStr (lit "{}")) with
  | inl e => inl e
  | inr raw =>
      match json_loads raw with
      | inl e => inl e
      | inr body => py_get body (lit "website") PNone
      end
  end.

(** The body of the [try] in [lambda_handler]. *)
Definition handler_body (event : pyval) : M (state W) Response :=
  (website <- lift (request_website event) ;;
   if negb (truthy website) then ret response_missing_website
   else run_pipeline website)%py.

Definition lambda_handler (event context : pyval) : state W -> Response * state W :=
  try_except (handler_body event) response_error.

End Handler.

(** ** A reference decoder for [json.loads] on a string

    The theorems on the handler hold for every decoder. The closed examples
    run this one, which follows CPython 3.11's [json.decoder] and [_json.c]
    scanner: the same grammar, the same values and the same
    [JSONDecodeError] messages and positions. It has no limit on the nesting
    depth: CPython's scanner raises a RecursionError on a document nested
    deeper than the recursion limit of the interpreter allows at the time of
    the call, which depends on the depth of the call stack and is not
    modelled. The properties below use this decoder on flat objects. *)

Module Json.

Inductive scan_error :=
| StopIteration (idx : N)
| DecodeError (msg : string) (pos : N)
| ValueError (msg : pystr)
| OutOfFuel.

(** A scanned value, the rest of the document and the index it starts at. *)
Abbreviation scanned A := (scan_error + (A * pystr * N))%type (only parsing).

Definition is_whitespace (c : pychar) : bool :=
  ((c =? 32) || (c =? 9) || (c =? 10) || (c =? 13))%N.

Definition is_digit (c : pychar) : bool := ((48 <=? c) && (c <=? 57))%N.

Fixpoint skip_whitespace (s : pystr) (idx : N) : pystr * N :=
  match s with
  | c :: s' => if is_whitespace c then skip_whitespace s' (idx + 1)%N else (s, idx)
  | [] => (s, idx)
  end.

(** The digits [s] starts with, and what follows them. *)
Fixpoint span_digits (s : pystr) : pystr * pystr :=
  match s with
  | c :: s' =>
      if is_digit c then let (ds, rest) := span_digits s' in (c :: ds, rest)
      else ([], s)
  | [] => ([], [])
  end.

Definition digits_value (ds : pystr) : N :=
  fold_left (fun acc d => 10 * acc + (d - 48))%N ds 0%N.

Definition hex_value (c : pychar) : option N :=
  (if (48 <=? c) && (c <=? 57) then Some (c - 48)
   else if (97 <=? c) && (c <=? 102) then Some (c - 87)
   else if (65 <=? c) && (c <=? 70) then Some (c - 55)
   else None)%N.

Definition hex4_value (h1 h2 h3 h4 : pychar) : option N :=
  match hex_value h1, hex_value h2, hex_value h3, hex_value h4 with
  | Some a, Some b, Some c, Some d => Some (((a * 16 + b) * 16 + c) * 16 + d)%N
  | _, _, _, _ => None
  end.

(** The character a backslash escape other than [\u] stands for. *)
Definition simple_escape (c : pychar) : option pychar :=
  (if (c =? 34) || (c =? 92) || (c =? 47) then Some c
   else if c =? 98 then Some 8
   else if c =? 102 then Some 12
   else if c =? 110 then Some 10
   else if c =? 114 then Some 13
   else if c =? 116 then Some 9
   else None)%N.

Definition unterminated {A} (begin : N) : scanned A :=
  inl (DecodeError "Unterminated string starting at" begin).

Definition invalid_uXXXX {A} (pos : N) : scanned A :=
  inl (DecodeError "Invalid \uXXXX escape" pos).

(** [scanstring_unicode]: [s] starts after the opening quote, at [idx]. *)
Fixpoint scanstring (s : pystr) (idx begin : N) (chunks : pystr) : scanned pystr :=
  match s with
  | [] => unterminated begin
  | 34%N :: s' => inr (chunks, s', (idx + 1)%N)
  | 92%N :: [] => unterminated begin
  | 92%N :: 117%N :: h1 :: h2 :: h3 :: h4 :: ((_ :: _) as s4) =>
      match hex4_value h1 h2 h3 h4 with
      | None => invalid_uXXXX (idx + 1)%N
      | Some c =>
          let single := scanstring s4 (idx + 6)%N begin (chunks ++ [c]) in
          if ((55296 <=? c) && (c <=? 56319))%N then
            match s4 with
            | 92%N :: 117%N :: g1 :: g2 :: g3 :: g4 :: ((_ :: _) as s10) =>
                match hex4_value g1 g2 g3 g4 with
                | None => invalid_uXXXX (idx + 7)%N
                | Some c2 =>
                    if ((56320 <=? c2) && (c2 <=? 57343))%N then
                      scanstring s10 (idx + 12)%N begin
                        (chunks ++ [65536 + N.lor (N.shiftl (c - 55296) 10) (c2 - 56320)])%N
                    else single
                end
            | _ => single
            end
          else single
      end
  | 92%N :: 117%N :: _ => invalid_uXXXX (idx + 1)%N
  | 92%N :: esc :: s' =>
      match simple_escape esc with
      | Some c => scanstring s' (idx + 2)%N begin (chunks ++ [c])
      | None => inl (DecodeError "Invalid \escape" idx)
      end
  | c :: s' =>
      if (c <=? 31)%N then inl (DecodeError "Invalid control character at" idx)
      else scanstring s' (idx + 1)%N begin (chunks ++ [c])
  end.

(** [float(numstr)] for the decimal [m * 10^e10]: the nearest binary64,
    ties to even. *)
Definition float_of_decimal (neg : bool) (m : N) (e10 : Z) : spec_float :=
  match m with
  | N0 => S754_zero neg
  | Npos p =>
      if 0 <=? e10 then
        match Z.pow 10 e10 * Zpos p with
        | Zpos n => binary_round 53 1024 neg n 0
        | _ => S754_nan
        end
      else
        let d := Z.pow 10 (- e10) in
        let k := Z.max 0 (66 + Z.log2 d - Z.log2 (Zpos p)) in
        let n := Zpos p * Z.pow 2 k in
        let q := n / d in
        let r := n mod d in
        let loc := if r =? 0 then loc_Exact else loc_Inexact (2 * r ?= d) in
        binary_round_aux 53 1024 neg q (- k) loc
  end.

(** The integer part of a number: one [0], or a digit from 1 to 9 and the
    digits after it. *)
Definition integer_digits (s : pystr) : option (pystr * pystr) :=
  match s with
  | c :: s' =>
      if (c =? 48)%N then Some ([c], s')
      else if is_digit c then let (ds, rest) := span_digits s' in Some (c :: ds, rest)
      else None
  | [] => None
  end.

(** A fraction: a dot and at least one digit. *)
Definition fraction_digits (s : pystr) : pystr * pystr :=
  match s with
  | 46%N :: s' =>
      match span_digits s' with
      | ([], _) => ([], s)
      | (ds, rest) => (ds, rest)
      end
  | _ => ([], s)
  end.

(** An exponent: [e] or [E], a sign or none, and at least one digit. The
    result has the number of characters read. *)
Definition exponent (s : pystr) : option (Z * N) * pystr :=
  match s with
  | c :: s' =>
      if ((c =? 101) || (c =? 69))%N then
        let '(sign, signed, s'') :=
          match s' with
          | 45%N :: t => (-1, 1%N, t)
          | 43%N :: t => (1, 1%N, t)
          | _ => (1, 0%N, s')
          end in
        match span_digits s'' with
        | ([], _) => (None, s)
        | (ds, rest) =>
            (Some (sign * Z.of_N (digits_value ds),
                   (1 + signed + N.of_nat (length ds))%N),
             rest)
        end
      else (None, s)
  | [] => (None, s)
  end.

Definition int_max_str_digits : nat := 4300.

Definition decimal (n : N) : pystr := lit (NilEmpty.string_of_uint (N.to_uint n)).

(** [_match_number_unicode] *)
Definition match_number (s : pystr) (idx : N) : scanned pyval :=
  let '(neg, s1) := match s with 45%N :: s' => (true, s') | _ => (false, s) end in
  match integer_digits s1 with
  | None => inl (StopIteration idx)
  | Some (int_ds, s2) =>
      let '(frac_ds, s3) := fraction_digits s2 in
      let '(exp, s4) := exponent s3 in
      let int_end := (idx + (if neg then 1 else 0) + N.of_nat (length int_ds))%N in
      let frac_end :=
        (int_end + match frac_ds with [] => 0 | _ => 1 + N.of_nat (length frac_ds) end)%N in
      match frac_ds, exp with
      | [], None =>
          if (int_max_str_digits <? length int_ds)%nat then
            inl (ValueError
                   (lit "Exceeds the limit (4300 digits) for integer string conversion: value has "
                    ++ decimal (N.of_nat (length int_ds))
                    ++ lit " digits; use sys.set_int_max_str_digits() to increase the limit"))
          else
            let v := Z.of_N (digits_value int_ds) in
            inr (PInt (if neg then - v else v), s4, int_end)
      | _, _ =>
          let e := match exp with Some (e, _) => e | None => 0 end in
          let exp_len := match exp with Some (_, n) => n | None => 0%N end in
          inr (PFloat (float_of_decimal neg (digits_value (int_ds ++ frac_ds))
                         (e - Z.of_nat (length frac_ds))),
               s4, (frac_end + exp_len)%N)
      end
  end.

(** [PyDict_SetItem]: a key that is there keeps its place. *)
Fixpoint dict_set (items : list (pystr * pyval)) (key : pystr) (v : pyval)
  : list (pystr * pyval) :=
  match items with
  | [] => [(key, v)]
  | (k, v') :: items' =>
      if decide (k = key) then (k, v) :: items' else (k, v') :: dict_set items' key v
  end.

Definition expecting_property_name {A} (pos : N) : scanned A :=
  inl (DecodeError "Expecting property name enclosed in double quotes" pos).

Definition expecting_comma {A} (pos : N) : scanned A :=
  inl (DecodeError "Expecting ',' delimiter" pos).

(** [scan_once_unicode], with [_parse_object_unicode] and
    [_parse_array_unicode] from the first key and the first item on. Every
    level of nesting takes two units of fuel and at least one character. *)
Fixpoint scan_once (fuel : nat) (s : pystr) (idx : N) {struct fuel} : scanned pyval :=
  match fuel with
  | O => inl OutOfFuel
  | S fuel' =>
      match s with
      | [] => inl (StopIteration idx)
      | 34%N :: s' =>
          match scanstring s' (idx + 1)%N idx [] with
          | inl err => inl err
          | inr (str, rest, next) => inr (PStr str, rest, next)
          end
      | 123%N :: s' =>
          let (s1, i1) := skip_whitespace s' (idx + 1)%N in
          match s1 with
          | 125%N :: rest => inr (PDict [], rest, (i1 + 1)%N)
          | _ => parse_object fuel' s1 i1 []
          end
      | 91%N :: s' =>
          let (s1, i1) := skip_whitespace s' (idx + 1)%N in
          match s1 with
          | 93%N :: rest => inr (PList [], rest, (i1 + 1)%N)
          | _ => parse_array fuel' s1 i1 []
          end
      | _ =>
          if str_startswith s (lit "null") then inr (PNone, drop 4 s, (idx + 4)%N)
          else if str_startswith s (lit "true") then inr (PBool true, drop 4 s, (idx + 4)%N)
          else if str_startswith s (lit "false") then inr (PBool false, drop 5 s, (idx + 5)%N)
          else if str_startswith s (lit "NaN") then inr (PFloat S754_nan, drop 3 s, (idx + 3)%N)
          else if str_startswith s (lit "Infinity") then
            inr (PFloat (S754_infinity false), drop 8 s, (idx + 8)%N)
          else if str_startswith s (lit "-Infinity") then
            inr (PFloat (S754_infinity true), drop 9 s, (idx + 9)%N)
          else match_number s idx
      end
  end

with parse_object (fuel : nat) (s : pystr) (idx : N) (items : list (pystr * pyval))
       {struct fuel} : scanned pyval :=
  match fuel with
  | O => inl OutOfFuel
  | S fuel' =>
      match s with
      | 34%N :: s' =>
          match scanstring s' (idx + 1)%N idx [] with
          | inl err => inl err
          | inr (key, s1, i1) =>
              let (s2, i2) := skip_whitespace s1 i1 in
              match s2 with
              | 58%N :: s3 =>
                  let (s4, i4) := skip_whitespace s3 (i2 + 1)%N in
                  match scan_once fuel' s4 i4 with
                  | inl err => inl err
                  | inr (val, s5, i5) =>
                      let items' := dict_set items key val in
                      let (s6, i6) := skip_whitespace s5 i5 in
                      match s6 with
                      | 125%N :: rest => inr (PDict items', rest, (i6 + 1)%N)
                      | 44%N :: s7 =>
                          let (s8, i8) := skip_whitespace s7 (i6 + 1)%N in
                          parse_object fuel' s8 i8 items'
                      | _ => expecting_comma i6
                      end
                  end
              | _ => inl (DecodeError "Expecting ':' delimiter" i2)
              end
          end
      | _ => expecting_property_name idx
      end
  end

with parse_array (fuel : nat) (s : pystr) (idx : N) (values : list pyval)
       {struct fuel} : scanned pyval :=
  match fuel with
  | O => inl OutOfFuel
  | S fuel' =>
      match scan_once fuel' s idx with
      | inl err => inl err
      | inr (val, s1, i1) =>
          let values' := values ++ [val] in
          let (s2, i2) := skip_whitespace s1 i1 in
          match s2 with
          | 93%N :: rest => inr (PList values', rest, (i2 + 1)%N)
          | 44%N :: s3 =>
              let (s4, i4) := skip_whitespace s3 (i2 + 1)%N in
              parse_array fuel' s4 i4 values'
          | _ => expecting_comma i2
          end
      end
  end.

(** The line and the column after the characters [before], counted from
    [lineno] and [colno]. *)
Fixpoint line_column (before : pystr) (lineno colno : N) : N * N :=
  match before with
  | [] => (lineno, colno)
  | c :: s =>
      if (c =? 10)%N then line_column s (lineno + 1)%N 1%N
      else line_column s lineno (colno + 1)%N
  end.

(** [JSONDecodeError(msg, doc, pos)]: the message has the line and the
    column of [pos]. *)
Definition JSONDecodeError (msg : string) (doc : pystr) (pos : N) : exn :=
  let (lineno, colno) := line_column (take (N.to_nat pos) doc) 1 1 in
  Exn (lit "JSONDecodeError")
      (lit msg ++ lit ": line " ++ decimal lineno ++ lit " column " ++ decimal colno
         ++ lit " (char " ++ decimal pos ++ lit ")").

(** [json.loads(doc)] for a string [doc]: [JSONDecoder.decode]. *)
Definition decode (doc : pystr) : result pyval :=
  match doc with
  | 65279%N :: _ =>
      inl (JSONDecodeError "Unexpected UTF-8 BOM (decode using utf-8-sig)" doc 0)
  | _ =>
      let (s0, i0) := skip_whitespace doc 0 in
      match scan_once (2 * length doc + 2) s0 i0 with
      | inl (StopIteration idx) => inl (JSONDecodeError "Expecting value" doc idx)
      | inl (DecodeError msg pos) => inl (JSONDecodeError msg doc pos)
      | inl (ValueError msg) => inl (Exn (lit "ValueError") msg)
    | inl OutOfFuel =>
        inl (Exn (lit "RecursionError") (lit "maximum recursion depth exceeded"))
      | inr (obj, rest, end_) =>
          match skip_whitespace rest end_ with
          | ([], _) => inr obj
          | (_, pos) => inl (JSONDecodeError "Extra data" doc pos)
          end
      end
  end.

(** *** What the decoder reads back from [json.dumps]

    [json.dumps] writes a character above U+FFFF as a pair of surrogate
    escapes, and the decoder joins a high and a low surrogate escape that
    follow each other into one character. *)

Definition is_high_surrogate (c : pychar) : bool := ((55296 <=? c) && (c <=? 56319))%N.

Definition is_low_surrogate (c : pychar) : bool := ((56320 <=? c) && (c <=? 57343))%N.

(** The two surrogates [escape_ascii] writes for [c]. *)
Definition high_of (c : pychar) : pychar :=
  N.lor 55296 (N.land (N.shiftr (c - 65536) 10) 1023).

Definition low_of (c : pychar) : pychar := N.lor 56320 (N.land (c - 65536) 1023).

(** The character [scanstring] makes of a surrogate pair. *)
Definition join_pair (h l : pychar) : pychar :=
  (65536 + N.lor (N.shiftl (h - 55296) 10) (l - 56320))%N.

(** The [\u] escape [scanstring] looks for after a high surrogate. *)
Inductive lookahead :=
| NoEscape
| BadEscape
| Escape (c2 : pychar) (s10 : pystr).

Definition look (s : pystr) : lookahead :=
  match s with
  | 92%N :: 117%N :: g1 :: g2 :: g3 :: g4 :: ((_ :: _) as s10) =>
      match hex4_value g1 g2 g3 g4 with
      | None => BadEscape
      | Some c2 => Escape c2 s10
      end
  | _ => NoEscape
  end.

(** The string [decode] reads back from the escaped form of [v]. *)
Fixpoint reread (v : pystr) : pystr :=
  match v with
  | [] => []
  | c :: t =>
      if (c <? 65536)%N then
        match t with
        | l :: rest =>
            if is_high_surrogate c && is_low_surrogate l
            then join_pair c l :: reread rest
            else c :: reread t
        | [] => [c]
        end
      else join_pair (high_of c) (low_of c) :: reread t
  end.

(** A Unicode scalar value: a code point that is no surrogate. *)
Definition scalar (c : pychar) : Prop :=
  (c < 55296 \/ 57343 < c < 1114112)%N.

(** The four shapes of an escaped character. *)
Inductive escape_shape (c : pychar) : pystr -> Prop :=
| shape_simple e :
    e <> 117%N -> simple_escape e = Some c -> escape_shape c [92%N; e]
| shape_plain :
    c <> 34%N -> c <> 92%N -> (c <=? 31)%N = false -> (c <= 126)%N ->
    escape_shape c [c]
| shape_u :
    (c < 65536)%N -> escape_shape c (92%N :: 117%N :: hex4 c)
| shape_pair :
    (65536 <= c)%N ->
    escape_shape c
      (92%N :: 117%N :: hex4 (high_of c) ++ 92%N :: 117%N :: hex4 (low_of c)).

(** A scan that did not run out of fuel and, when it returned, left less
    of the document than the [s] it started on. *)
Definition runs_within {A} (r : scanned A) (s : pystr) : Prop :=
  match r with
  | inl OutOfFuel => False
  | inl _ => True
  | inr (_, rest, _) => (length rest < length s)%nat
  end.

End Json.

(** The reference decoder as the decoder of [json.loads]. *)
Definition reference_decoder : JsonDecoder := Json.decode.

(** ** Scripted services and sample requests *)

(** A world whose services answer from two scripts, whatever they are asked. *)
Module Scripted.

Record script := {
  scrape_replies : list (result ScrapeJobResponse);
  chat_replies : list (result ChatCompletionOutput)
}.

Definition no_reply : exn := Exn (lit "RuntimeError") (lit "no scripted reply left").

Definition next_scrape_reply (p : StartScrapeJobParams) (w : script)
  : result ScrapeJobResponse * script :=
  match scrape_replies w with
  | [] => (inl no_reply, w)
  | r :: rest => (r, {| scrape_replies := rest; chat_replies := chat_replies w |})
  end.

Definition next_chat_reply (model : pystr) (messages : list ChatMessage)
    (w : script) : result ChatCompletionOutput * script :=
  match chat_replies w with
  | [] => (inl no_reply, w)
  | r :: rest => (r, {| scrape_replies := scrape_replies w; chat_replies := rest |})
  end.

(** The scripted library refuses a [url] that is no string with one
    validation error, whatever the value. *)
Definition url_refused : exn :=
  Exn (lit "ValidationError") (lit "url: Input should be a valid string").

Definition services : Services script :=
  {| start_and_wait := next_scrape_reply;
     chat_completions_create := next_chat_reply;
     invalid_url := fun _ => url_refused |}.

(** The handler on the reference decoder and the scripted services. *)
Definition handler (event : pyval) (w : script) : Response * state script :=
  lambda_handler (decoder := Json.decode) (services := services) event PNone
    {| world := w; trace := [] |}.

Definition links_reply (ls : list pystr) : result ScrapeJobResponse :=
  inr {| data := Some {| links := Some ls; markdown := None |} |}.

Definition page_reply (md : option pystr) : result ScrapeJobResponse :=
  inr {| data := Some {| links := None; markdown := md |} |}.

Definition chat_reply (text : pystr) : result ChatCompletionOutput :=
  inr {| choices := [Some text] |}.

Definition silent : script := {| scrape_replies := []; chat_replies := [] |}.

End Scripted.

(** The API Gateway event with the request body [raw]. *)
Definition request (raw : pystr) : pyval := PDict [(lit "body", PStr raw)].

(** The JSON text of an object with the one field [website]. *)
Definition website_json (value : pystr) : pystr :=
  lit "{" ++ dq ++ lit "website" ++ dq ++ lit ": " ++ value ++ lit "}".

Definition acme : pystr := lit "https://acme.test".

Definition acme_request : pyval := request (website_json (dq ++ acme ++ dq)).

Definition acme_links : list pystr :=
  [acme ++ lit "/about"; lit "https://other.test/x"; acme ++ lit "/products"].

(** The end-to-end scenario: three links found, two of them on the site, the
    second page without markdown, and three answers of the model. *)
Definition acme_world : Scripted.script :=
  {| Scripted.scrape_replies :=
       [Scripted.links_reply acme_links;
        Scripted.page_reply (Some (lit "About Acme"));
        Scripted.page_reply None];
     Scripted.chat_replies :=
       [Scripted.chat_reply (lit "  structured" ++ nl);
        Scripted.chat_reply (lit "relevant ");
        Scripted.chat_reply (nl ++ lit " final document " ++ nl)] |}.

(** A site whose links all lead elsewhere. *)
Definition elsewhere_world : Scripted.script :=
  {| Scripted.scrape_replies := [Scripted.links_reply [lit "https://other.test/x"]];
     Scripted.chat_replies := Scripted.chat_replies acme_world |}.

(** Requests the validation does not let through, or should not. *)
Definition empty_website_request : pyval := request (website_json (dq ++ dq)).
Definition array_request : pyval := request (lit "[]").
Definition malformed_request : pyval := request (lit "not json").
Definition number_request : pyval := request (website_json (lit "5")).

(** The same site when the scrape of the second page fails. *)
Definition quota_exceeded : exn := Exn (lit "HyperbrowserError") (lit "quota exceeded").

Definition failing_world : Scripted.script :=
  {| Scripted.scrape_replies :=
       [Scripted.links_reply acme_links;
        Scripted.page_reply (Some (lit "About Acme"));
        inl quota_exceeded];
     Scripted.chat_replies := [] |}.

(** Requests with a falsy website that is no string, and with a body that
    is no string. *)
Definition zero_request : pyval := request (website_json (lit "0")).
Definition null_body_request : pyval := PDict [(lit "body", PNone)].

(** Replies that lack what the handler reads: a scrape job without data, a
    link scrape without a list of links, answers of the model without
    choices and without content, and a blank final answer. *)
Definition no_data_world : Scripted.script :=
  {| Scripted.scrape_replies := [inr {| data := None |}];
     Scripted.chat_replies := [] |}.

Definition no_links_world : Scripted.script :=
  {| Scripted.scrape_replies := [Scripted.page_reply None];
     Scripted.chat_replies := [] |}.

Definition no_choices_world : Scripted.script :=
  {| Scripted.scrape_replies := [Scripted.links_reply []];
     Scripted.chat_replies := [inr {| choices := [] |}] |}.

Definition no_content_world : Scripted.script :=
  {| Scripted.scrape_replies := [Scripted.links_reply []];
     Scripted.chat_replies := [inr {| choices := [None] |}] |}.

Definition blank_world : Scripted.script :=
  {| Scripted.scrape_replies := [Scripted.links_reply []];
     Scripted.chat_replies :=
       [Scripted.chat_reply (lit "structured");
        Scripted.chat_reply (lit "relevant");
        Scripted.chat_reply (lit "  " ++ nl)] |}.

(** ** The vocabulary of the properties *)

Definition links_params (website : pyval) : StartScrapeJobParams :=
  {| url := website; formats := [FormatLinks]; only_main_content := true |}.

Definition markdown_params (link : pystr) : StartScrapeJobParams :=
  {| url := PStr link; formats := [FormatMarkdown]; only_main_content := true |}.

Definition user_message (prompt : pystr) : ChatMessage :=
  {| role := lit "user"; content := prompt |}.

(** The successful link scrape, page scrape and model call in a trace. *)
Definition links_event (website : pyval) (d : ScrapeJobData) : io_event :=
  ScrapeEvent (links_params website) (inr {| data := Some d |}).

Definition page_event (page : pystr * ScrapeJobData) : io_event :=
  ScrapeEvent (markdown_params page.1) (inr {| data := Some page.2 |}).

Definition llm_event (prompt : pystr) (o : ChatCompletionOutput) : io_event :=
  ChatEvent model_id [user_message prompt] (inr o).

(** What a page contributes: its markdown, the empty string when it has none. *)
Definition page_body (d : ScrapeJobData) : pystr :=
  match markdown d with
  | Some text => text
  | None => []
  end.

(** The concatenation of one segment per page, in the order of the pages. *)
Definition aggregated (pages : list (pystr * ScrapeJobData)) : pystr :=
  concat (map (fun page => page_segment page.1 (page_body page.2)) pages).

Definition whitespace (s : pystr) : Prop := Forall (fun c => isspace c = true) s.

(** [t] is [text] without its leading and trailing whitespace. *)
Definition stripped_of (text t : pystr) : Prop :=
  exists l r,
    text = l ++ t ++ r /\ whitespace l /\ whitespace r /\
    (forall c t', t = c :: t' -> isspace c = false) /\
    (forall c t', t = t' ++ [c] -> isspace c = false).

(** [t] is the stripped content of the first choice of [o]. *)
Definition reply_stripped (o : ChatCompletionOutput) (t : pystr) : Prop :=
  exists text rest,
    choices o = Some text :: rest /\ t = str_strip text /\ stripped_of text t.

(** [body] is the JSON text of an object with the one key [key]. *)
Definition object_with_key (key : string) (body : pystr) : Prop :=
  exists value, body = json_dumps_object1 (lit key) value.

(** The request has a body that [json.loads] parses to [parsed]. *)
Definition request_body {decoder : JsonDecoder} (event parsed : pyval) : Prop :=
  exists raw,
    py_get event (lit "body") (PStr (lit "{}")) = inr raw /\
    json_loads raw = inr parsed.

(** The request has a string for a body and decoding it raises [e]. *)
Definition malformed_body {decoder : JsonDecoder} (event : pyval) (e : exn) : Prop :=
  exists raw,
    py_get event (lit "body") (PStr (lit "{}")) = inr (PStr raw) /\
    json_decode raw = inl e.

(** A parsed body without the field [website]: a value that is no object has
    no fields. *)
Definition lacks_website (parsed : pyval) : Prop :=
  match parsed with
  | PDict items => dict_lookup items (lit "website") = None
  | _ => True
  end.

(** Whatever an outbound call of [m] raises is what [m] raises, and [m] only
    adds to the trace. *)
Definition surfaces_failures {W A} (m : M (state W) A) : Prop :=
  forall st r st',
    m st = (r, st') ->
    exists new,
      trace st' = trace st ++ new /\
      forall ev e, ev ∈ new -> raised ev = Some e -> r = inl e.

(** The pages the scraping service returns for [links], one after the other,
    from the world [w] to the world [w']. *)
Inductive fetched {W : Type} {services : Services W}
  : list pystr -> W -> list (pystr * ScrapeJobData) -> W -> Prop :=
| fetched_nil w : fetched [] w [] w
| fetched_cons link links w d w1 pages w' :
    start_and_wait (markdown_params link) w = (inr {| data := Some d |}, w1) ->
    fetched links w1 pages w' ->
    fetched (link :: links) w ((link, d) :: pages) w'.

(** ** The traces of a run *)

(** The outbound calls made between the states [st] and [st']. *)
Definition calls_made {W} (st st' : state W) : list io_event :=
  drop (length (trace st)) (trace st').

(** An outbound call that came back without an exception. *)
Definition returned (ev : io_event) : Prop := raised ev = None.

(** What [scrape_links] and the link filter make of the reply to the link
    scrape, what [scrape_page_content] makes of the reply to a page scrape,
    and what [llm_calling] makes of the reply of the model. *)
Definition links_outcome (website : pyval) (r : result ScrapeJobResponse)
  : result (list pystr) :=
  match r with
  | inl e => inl e
  | inr response =>
      match data_attr response "links" links with
      | inl e => inl e
      | inr ls => filter_links ls website
      end
  end.

Definition page_outcome (r : result ScrapeJobResponse) : result pystr :=
  match r with
  | inl e => inl e
  | inr response =>
      match data_attr response "markdown" markdown with
      | inl e => inl e
      | inr md => inr (or_empty md)
      end
  end.

Definition chat_outcome (r : result ChatCompletionOutput) : result pystr :=
  match r with
  | inl e => inl e
  | inr response => first_content_stripped response
  end.

(** The calls of the content loop over [links] from the content [acc], with
    the content or the exception the loop ends in: one page scrape per link,
    in order, up to the first one that fails. *)
Inductive pages_trace : list pystr -> pystr -> list io_event -> result pystr -> Prop :=
| pages_done acc : pages_trace [] acc [] (inr acc)
| pages_fail link rest acc r e :
    page_outcome r = inl e ->
    pages_trace (link :: rest) acc [ScrapeEvent (markdown_params link) r] (inl e)
| pages_step link rest acc r text evs out :
    page_outcome r = inr text ->
    pages_trace rest (acc ++ page_segment link text) evs out ->
    pages_trace (link :: rest) acc (ScrapeEvent (markdown_params link) r :: evs) out.

(** The calls of a chain of model calls, each on the template [build] around
    the output of the one before, up to the first one that fails. *)
Inductive chat_trace : list (pystr -> pystr) -> pystr -> list io_event -> result pystr -> Prop :=
| chat_done input : chat_trace [] input [] (inr input)
| chat_fail build rest input r e :
    chat_outcome r = inl e ->
    chat_trace (build :: rest) input [ChatEvent model_id [user_message (build input)] r]
      (inl e)
| chat_step build rest input r t evs out :
    chat_outcome r = inr t ->
    chat_trace rest t evs out ->
    chat_trace (build :: rest) input
      (ChatEvent model_id [user_message (build input)] r :: evs) out.

(** The calls of steps 1 to 5 for a [website] that is a string, with their
    result: the link scrape, then the page scrapes of the filtered links,
    then the three model calls. *)
Definition pipeline_trace (website : pyval) (calls : list io_event)
    (r : result Response) : Prop :=
  exists r0 pages chats,
    calls = ScrapeEvent (links_params website) r0 :: pages ++ chats /\
    match links_outcome website r0 with
    | inl e => pages = [] /\ chats = [] /\ r = inl e
    | inr kept =>
        exists content,
          pages_trace kept [] pages content /\
          match content with
          | inl e => chats = [] /\ r = inl e
          | inr all_content =>
              exists out,
                chat_trace [prompt_structuring; prompt_relevancy; prompt_finalized]
                  all_content chats out /\
                r = match out with
                    | inl e => inl e
                    | inr finalized_output => inr (response_success finalized_output)
                    end
          end
    end.

(** The calls of the handler for [event], with its response: none when the
    request is refused, be it by the validation of the handler or by the
    constructor of the parameters of the link scrape. *)
Definition handler_trace {decoder : JsonDecoder} {W : Type} {services : Services W}
    (event : pyval) (calls : list io_event) (resp : Response) : Prop :=
  match request_website event with
  | inl e => calls = [] /\ resp = response_error e
  | inr website =>
      if truthy website then
        match StartScrapeJobParams_init website [FormatLinks] with
        | inl e => calls = [] /\ resp = response_error e
        | inr _ =>
            exists r,
              pipeline_trace website calls r /\
              resp = match r with inl e => response_error e | inr resp0 => resp0 end
        end
      else calls = [] /\ resp = response_missing_website
  end.

(** The requests a scrape event and a chat event carry. *)
Definition scrape_request (ev : io_event) : option StartScrapeJobParams :=
  match ev with
  | ScrapeEvent p _ => Some p
  | ChatEvent _ _ _ => None
  end.

Definition chat_request (ev : io_event) : option (pystr * list ChatMessage) :=
  match ev with
  | ChatEvent model messages _ => Some (model, messages)
  | ScrapeEvent _ _ => None
  end.

(** A printable ASCII character. *)
Definition printable (c : pychar) : Prop := (32 <= c <= 126)%N.

(** The exception in a result, if it is one. *)
Definition failure {A} (r : result A) : option exn :=
  match r with
  | inl e => Some e
  | inr _ => None
  end.

(** The exception the handler raises on the reply of a call for [website]:
    the exception of the call itself, or the one that reading the reply
    raises. *)
Definition reply_error (website : pyval) (ev : io_event) : option exn :=
  match ev with
  | ScrapeEvent p r =>
      match formats p with
      | [FormatLinks] => failure (links_outcome website r)
      | _ => failure (page_outcome r)
      end
  | ChatEvent _ _ r => failure (chat_outcome r)
  end.

(** * Properties *)

(** ** Strings *)

Lemma str_startswith_prefix (s p : pystr) :
  str_startswith s p = true <-> p `prefix_of` s.
Proof.
  revert s. induction p as [|a p IH]; intros [|c s]; simpl.
  - split; [intros _; apply prefix_nil | done].
  - split; [intros _; apply prefix_nil | done].
  - split; [done | intros H; by apply prefix_nil_not in H].
  - rewrite andb_true_iff, N.eqb_eq, IH. split.
    + intros [-> H]. by apply prefix_cons.
    + intros H. split; [symmetry; by apply prefix_cons_inv_1 in H
                       | by apply prefix_cons_inv_2 in H].
Qed.

Lemma str_startswith_decide (s p : pystr) :
  str_startswith s p = bool_decide (p `prefix_of` s).
Proof.
  destruct (str_startswith s p) eqn:E; symmetry.
  - apply bool_decide_eq_true, str_startswith_prefix, E.
  - apply bool_decide_eq_false. intros H%str_startswith_prefix. congruence.
Qed.

Lemma str_lstrip_decomp (s : pystr) :
  exists l, s = l ++ str_lstrip s /\ whitespace l.
Proof.
  induction s as [|c s (l & Hs & Hl)]; simpl.
  - exists []. split; [done | constructor].
  - destruct (isspace c) eqn:E.
    + exists (c :: l). split; [simpl; congruence | by constructor].
    + exists []. split; [done | constructor].
Qed.

Lemma str_lstrip_head (s : pystr) c t :
  str_lstrip s = c :: t -> isspace c = false.
Proof.
  induction s as [|a s IH]; simpl; [done |].
  destruct (isspace a) eqn:E; [done |]. by intros [= <- _].
Qed.

Lemma str_rstrip_decomp (s : pystr) :
  exists r, s = str_rstrip s ++ r /\ whitespace r.
Proof.
  induction s as [|c s (r & Hs & Hr)]; simpl.
  - exists []. split; [done | constructor].
  - destruct (str_rstrip s) as [|x t] eqn:Et.
    + simpl in Hs. subst r. destruct (isspace c) eqn:E.
      * exists (c :: s). split; [done | by constructor].
      * by exists s.
    + exists r. split; [simpl; by rewrite Hs at 1 | done].
Qed.

Lemma str_rstrip_last (s : pystr) c t :
  str_rstrip s = t ++ [c] -> isspace c = false.
Proof.
  revert t. induction s as [|a s IH]; intros t; simpl.
  - by destruct t.
  - destruct (str_rstrip s) as [|x u] eqn:Eu.
    + destruct (isspace a) eqn:E; [by destruct t |].
      destruct t as [|b [|? ?]]; [by intros [= <-] | done | done].
    + destruct t as [|b t]; [done |]. simpl. intros [= _ H]. by eapply IH.
Qed.

(** [str.strip] removes whitespace, all of it, from both ends and nothing
    else. *)
Lemma str_strip_stripped (text : pystr) : stripped_of text (str_strip text).
Proof.
  unfold str_strip.
  destruct (str_lstrip_decomp text) as (l & Hl & Wl).
  destruct (str_rstrip_decomp (str_lstrip text)) as (r & Hr & Wr).
  exists l, r. repeat split; [congruence | done | done | |].
  - intros c t E. rewrite E in Hr. simpl in Hr. by eapply str_lstrip_head.
  - intros c t E. by eapply str_rstrip_last.
Qed.

Lemma or_empty_page_body (d : ScrapeJobData) : or_empty (markdown d) = page_body d.
Proof. unfold page_body. by destruct (markdown d) as [[|? ?]|]. Qed.

(** ** The link filter *)

Lemma filter_loop_filter (links : list pystr) (root : pystr) (kept : list pystr) :
  filter_loop links (PStr root) kept
  = inr (kept ++ filter (fun l => root `prefix_of` l) links).
Proof.
  revert kept. induction links as [|link rest IH]; intros kept; simpl.
  - by rewrite app_nil_r.
  - rewrite str_startswith_decide, filter_cons.
    destruct (decide (root `prefix_of` link)) as [H|H].
    + rewrite bool_decide_eq_true_2 by done. rewrite IH. by rewrite <- app_assoc.
    + rewrite bool_decide_eq_false_2 by done. apply IH.
Qed.

Lemma filter_filter_eq (P : pystr -> Prop) `{forall x, Decision (P x)}
    (l : pystr) (links : list pystr) :
  P l -> filter (fun x => x = l) (filter P links) = filter (fun x => x = l) links.
Proof.
  intros Hl. induction links as [|x links IH]; [done |].
  rewrite !filter_cons. destruct (decide (P x)) as [Hx|Hx].
  - rewrite filter_cons. destruct (decide (x = l)); by rewrite IH.
  - destruct (decide (x = l)) as [->|]; [done | apply IH].
Qed.

Lemma filter_links_none (links : list pystr) (root : pystr) :
  (forall l, l ∈ links -> ~ root `prefix_of` l) ->
  filter_links (Some links) (PStr root) = inr [].
Proof.
  intros Hnone. unfold filter_links. rewrite filter_loop_filter. f_equal. simpl.
  induction links as [|l links IH]; [done |].
  rewrite filter_cons_False by (apply Hnone; left).
  apply IH. intros l' Hl'. apply Hnone. by right.
Qed.

(** C4. The link filter is the textual prefix test
    [[l for l in links if l.startswith(root)]]: it keeps the links [root]
    is a prefix of as strings, all of them and only them, in their order and
    as often as they occur, and compares the strings as they are. *)
Theorem link_filter_is_prefix_test (links : list pystr) (root : pystr) :
  let kept := filter (fun l => root `prefix_of` l) links in
  filter_links (Some links) (PStr root) = inr kept /\
  kept `sublist_of` links /\
  (forall l, l ∈ kept <-> l ∈ links /\ exists rest, l = root ++ rest) /\
  (forall l, root `prefix_of` l ->
     length (filter (fun x => x = l) kept) = length (filter (fun x => x = l) links)).
Proof.
  intros kept. split; [| split; [| split]].
  - unfold filter_links. by rewrite filter_loop_filter.
  - apply sublist_filter.
  - intros l. unfold kept. rewrite list_elem_of_filter. unfold prefix. tauto.
  - intros l Hl. unfold kept. by rewrite filter_filter_eq.
Qed.

(** ** The reference decoder has fuel enough *)

Module JsonFacts.

Import Json.
#[local] Open Scope nat_scope.

Lemma skip_whitespace_length s idx :
  length (skip_whitespace s idx).1 <= length s.
Proof.
  revert idx. induction s as [|c s IH]; intros idx; simpl; [lia |].
  destruct (is_whitespace c); simpl; [| lia]. specialize (IH (idx + 1)%N). lia.
Qed.

Lemma runs_within_mono {A} (r : scanned A) s s' :
  runs_within r s -> length s <= length s' -> runs_within r s'.
Proof. destruct r as [[]|[[? ?] ?]]; simpl; try done. lia. Qed.

Lemma scanstring_runs s idx begin chunks :
  runs_within (scanstring s idx begin chunks) s.
Proof.
  remember (length s) as n eqn:Hn. revert s Hn idx chunks.
  induction (lt_wf n) as [n _ IH]. intros s -> idx chunks.
  destruct s as [|c s]; [exact I |]. cbn [scanstring].
  repeat first
    [ exact I
    | progress (cbn [runs_within length]); lia
    | match goal with
      | |- runs_within (scanstring ?s' ?i _ ?c) _ =>
          apply (runs_within_mono _ s');
          [ apply (IH (length s') ltac:(cbn [length]; lia) s' eq_refl i c)
          | cbn [length]; lia ]
      end
    | case_match ].
Qed.

Lemma span_digits_length s : length (span_digits s).2 <= length s.
Proof.
  induction s as [|c s IH]; simpl; [lia |].
  destruct (is_digit c); [| simpl; lia].
  destruct (span_digits s) as [ds rest]. simpl in *. lia.
Qed.

Lemma integer_digits_shorter s ds rest :
  integer_digits s = Some (ds, rest) -> length rest < length s.
Proof.
  unfold integer_digits. destruct s as [|c s]; [done |].
  destruct (c =? 48)%N.
  - intros [= <- <-]. simpl. lia.
  - destruct (is_digit c); [| done].
    pose proof (span_digits_length s) as L.
    destruct (span_digits s) as [ds' rest']. intros [= <- <-]. simpl in *. lia.
Qed.

Lemma fraction_digits_length s : length (fraction_digits s).2 <= length s.
Proof.
  unfold fraction_digits. destruct s as [|c s]; [done |].
  repeat case_match; subst; cbn [snd length]; try lia.
  match goal with H : span_digits s = _ |- _ =>
    pose proof (span_digits_length s) as L; rewrite H in L end.
  simpl in L. lia.
Qed.

Lemma exponent_length s : length (exponent s).2 <= length s.
Proof.
  unfold exponent. destruct s as [|c s]; [done |].
  destruct ((c =? 101) || (c =? 69))%N; [| done].
  repeat case_match; simplify_eq; cbn [snd length]; try lia;
    match goal with H : span_digits ?t = _ |- _ =>
      pose proof (span_digits_length t) as L; rewrite H in L end;
    cbn [snd length] in L; lia.
Qed.

Lemma match_number_runs s idx : runs_within (match_number s idx) s.
Proof.
  unfold match_number.
  set (s1 := match s with 45%N :: s' => (true, s') | _ => (false, s) end).
  assert (length s1.2 <= length s) as L1.
  { subst s1. repeat case_match; cbn [snd length]; lia. }
  destruct s1 as [neg s1]. cbn [snd] in L1.
  destruct (integer_digits s1) as [[int_ds s2]|] eqn:E2; [| exact I].
  apply integer_digits_shorter in E2.
  pose proof (fraction_digits_length s2) as L3.
  destruct (fraction_digits s2) as [frac_ds s3]. cbn [snd] in L3.
  pose proof (exponent_length s3) as L4.
  destruct (exponent s3) as [exp s4]. cbn [snd] in L4.
  destruct frac_ds, exp; try destruct (_ <? _)%nat; try exact I;
    cbn [runs_within]; lia.
Qed.

Lemma drop_shorter (n : nat) (s : pystr) :
  0 < n -> s <> [] -> length (drop n s) < length s.
Proof. intros Hn Hs. rewrite length_drop. destruct s; [done |]. simpl. lia. Qed.

Ltac scan_step IHs IHo IHa :=
  match goal with
  | R : False |- _ => destruct R
  | |- runs_within (inl _) _ => exact I
  | |- runs_within (inr _) _ => cbn [runs_within length] in *; lia
  | |- runs_within (expecting_comma _) _ => exact I
  | |- runs_within (expecting_property_name _) _ => exact I
  | |- runs_within (parse_object _ ?s _ _) _ =>
      apply (runs_within_mono _ s); [apply IHo |]; cbn [length] in *; lia
  | |- runs_within (parse_array _ ?s _ _) _ =>
      apply (runs_within_mono _ s); [apply IHa |]; cbn [length] in *; lia
  | |- context [skip_whitespace ?s ?i] =>
      let L := fresh "L" in
      pose proof (skip_whitespace_length s i) as L;
      destruct (skip_whitespace s i) as [? ?]; cbn [fst] in L
  | |- context [scanstring ?s ?i ?b ?c] =>
      let R := fresh "R" in
      pose proof (scanstring_runs s i b c) as R;
      destruct (scanstring s i b c) as [[]|[[? ?] ?]]; cbn [runs_within] in R
  | |- context [scan_once ?f ?s ?i] =>
      let R := fresh "R" in
      assert (runs_within (scan_once f s i) s) as R
        by (apply IHs; cbn [length] in *; lia);
      destruct (scan_once f s i) as [[]|[[? ?] ?]]; cbn [runs_within] in R
  | |- runs_within (match ?x with _ => _ end) _ => destruct x
  end.

Lemma scan_default (s : pystr) idx :
  s <> [] ->
  runs_within
    (if str_startswith s (lit "null") then inr (PNone, drop 4 s, (idx + 4)%N)
     else if str_startswith s (lit "true") then inr (PBool true, drop 4 s, (idx + 4)%N)
     else if str_startswith s (lit "false") then inr (PBool false, drop 5 s, (idx + 5)%N)
     else if str_startswith s (lit "NaN") then inr (PFloat S754_nan, drop 3 s, (idx + 3)%N)
     else if str_startswith s (lit "Infinity") then
       inr (PFloat (S754_infinity false), drop 8 s, (idx + 8)%N)
     else if str_startswith s (lit "-Infinity") then
       inr (PFloat (S754_infinity true), drop 9 s, (idx + 9)%N)
     else match_number s idx) s.
Proof.
  intros Hs. repeat case_match; try apply match_number_runs;
    cbn [runs_within]; apply drop_shorter; (lia || done).
Qed.

(** With two units of fuel per character and one more, a scan does not run
    out of fuel, and what it returns is shorter than what it was given. *)
Lemma scan_fuel fuel :
  (forall s idx, 2 * length s < fuel -> runs_within (scan_once fuel s idx) s) /\
  (forall s idx items,
     2 * length s + 1 < fuel -> runs_within (parse_object fuel s idx items) s) /\
  (forall s idx values,
     2 * length s + 1 < fuel -> runs_within (parse_array fuel s idx values) s).
Proof.
  induction fuel as [|f (IHs & IHo & IHa)]; [repeat split; intros; lia |].
  split; [| split].
  - intros s idx Hf. destruct s as [|c s']; [exact I |]. cbn [scan_once].
    pose proof (scan_default (c :: s') idx ltac:(done)) as Default.
    repeat first
      [ match goal with
        | |- runs_within (if _ then _ else _) _ => exact Default
        end
      | scan_step IHs IHo IHa ].
  - intros s idx items Hf. cbn [parse_object].
    repeat scan_step IHs IHo IHa.
  - intros s idx values Hf. cbn [parse_array].
    repeat scan_step IHs IHo IHa.
Qed.

(** The fuel [decode] gives to the scan of a document is enough for it. *)
Lemma decode_fuel (doc : pystr) :
  let (s0, i0) := skip_whitespace doc 0 in
  scan_once (2 * length doc + 2) s0 i0 <> inl OutOfFuel.
Proof.
  pose proof (skip_whitespace_length doc 0) as L.
  destruct (skip_whitespace doc 0) as [s0 i0]. cbn [fst] in L.
  pose proof (proj1 (scan_fuel (2 * length doc + 2)) s0 i0 ltac:(lia)) as R.
  intros E. by rewrite E in R.
Qed.

End JsonFacts.

(** ** The reference decoder reads what [json.dumps] writes *)

Module EscapeFacts.

Import Json.
#[local] Open Scope N_scope.
#[local] Ltac Zify.zify_post_hook ::= Z.to_euclidean_division_equations.

Lemma hex_value_hex_digit d : d < 16 -> hex_value (hex_digit d) = Some d.
Proof.
  intros Hd.
  assert (d = 0 \/ d = 1 \/ d = 2 \/ d = 3 \/ d = 4 \/ d = 5 \/ d = 6 \/ d = 7 \/
          d = 8 \/ d = 9 \/ d = 10 \/ d = 11 \/ d = 12 \/ d = 13 \/ d = 14 \/ d = 15)
    as H by lia.
  repeat (destruct H as [->|H]; [reflexivity |]). by subst.
Qed.

Lemma hex4_value_hex4 n :
  n < 65536 ->
  hex4_value (hex_digit (N.shiftr n 12 mod 16)) (hex_digit (N.shiftr n 8 mod 16))
    (hex_digit (N.shiftr n 4 mod 16)) (hex_digit (n mod 16))
  = Some n.
Proof.
  intros Hn. unfold hex4_value.
  rewrite !hex_value_hex_digit by (apply N.mod_lt; lia).
  f_equal. rewrite !N.shiftr_div_pow2.
  change (2 ^ 12) with 4096. change (2 ^ 8) with 256. change (2 ^ 4) with 16.
  lia.
Qed.

Lemma lor_disjoint a b : N.land a b = 0 -> N.lor a b = a + b.
Proof. intros H. by rewrite N.add_nocarry_lxor, N.lxor_lor. Qed.

Lemma land_1023 x : N.land x 1023 = x mod 1024.
Proof. change 1023 with (N.ones 10). by rewrite N.land_ones. Qed.

Lemma lor_base base x :
  N.land base 1023 = 0 -> N.lor base (N.land x 1023) = base + x mod 1024.
Proof.
  intros H. rewrite lor_disjoint; [by rewrite land_1023 |].
  by rewrite (N.land_comm x), N.land_assoc, H, N.land_0_l.
Qed.

Lemma high_of_eq c : high_of c = 55296 + ((c - 65536) / 1024) mod 1024.
Proof. unfold high_of. rewrite lor_base by done. by rewrite N.shiftr_div_pow2. Qed.

Lemma low_of_eq c : low_of c = 56320 + (c - 65536) mod 1024.
Proof. unfold low_of. by rewrite lor_base. Qed.

Lemma high_of_surrogate c : is_high_surrogate (high_of c) = true.
Proof.
  rewrite high_of_eq. unfold is_high_surrogate.
  pose proof (N.mod_lt ((c - 65536) / 1024) 1024 ltac:(done)).
  apply andb_true_iff. split; apply N.leb_le; lia.
Qed.

Lemma low_of_surrogate c : is_low_surrogate (low_of c) = true.
Proof.
  rewrite low_of_eq. unfold is_low_surrogate.
  pose proof (N.mod_lt (c - 65536) 1024 ltac:(done)).
  apply andb_true_iff. split; apply N.leb_le; lia.
Qed.

Lemma land_shifted_low a b : N.land (a * 1024) (b mod 1024) = 0.
Proof.
  change 1024 with (2 ^ 10). rewrite <- N.shiftl_mul_pow2.
  apply N.bits_inj. intros k. rewrite N.land_spec, N.bits_0.
  destruct (decide (k < 10)) as [Hk|Hk].
  - by rewrite N.shiftl_spec_low.
  - rewrite N.mod_pow2_bits_high by lia. apply andb_false_r.
Qed.

Lemma join_pair_of c :
  65536 <= c < 1114112 -> join_pair (high_of c) (low_of c) = c.
Proof.
  intros Hc. unfold join_pair. rewrite high_of_eq, low_of_eq.
  replace (55296 + ((c - 65536) / 1024) mod 1024 - 55296)
    with (((c - 65536) / 1024) mod 1024) by lia.
  replace (56320 + (c - 65536) mod 1024 - 56320) with ((c - 65536) mod 1024) by lia.
  rewrite N.shiftl_mul_pow2. change (2 ^ 10) with 1024.
  rewrite lor_disjoint by apply land_shifted_low.
  lia.
Qed.

Lemma escape_ascii_shape c : escape_shape c (escape_ascii c).
Proof.
  unfold escape_ascii.
  repeat match goal with
    | |- context [if (c =? ?k) then _ else _] =>
        destruct (N.eqb_spec c k) as [->|?]; [by apply (shape_simple _ _) |]
    end.
  destruct ((32 <=? c) && (c <=? 126)) eqn:E.
  - apply andb_true_iff in E as [E1%N.leb_le E2%N.leb_le].
    apply shape_plain; try done. apply N.leb_gt. lia.
  - destruct (N.ltb_spec c 65536); [by apply shape_u | by apply shape_pair].
Qed.

Lemma encoded_cons v tail :
  exists x l, concat (map escape_ascii v) ++ dq ++ tail = x :: l.
Proof.
  destruct v as [|c v]; [by eexists _, _ |]. cbn [map concat].
  destruct (escape_ascii_shape c); by eexists _, _.
Qed.

Lemma scanstring_plain c rest idx begin chunks :
  c <> 34 -> c <> 92 -> (c <=? 31) = false ->
  scanstring (c :: rest) idx begin chunks
  = scanstring rest (idx + 1) begin (chunks ++ [c]).
Proof.
  intros H34 H92 H31. cbn [scanstring].
  destruct c as [|p]; [done |].
  repeat (destruct p as [p|p|]; try done; try (by rewrite H31)).
Qed.

Lemma look_not_u (s : pystr) :
  (forall t, s <> 92 :: 117 :: t) -> look s = NoEscape.
Proof.
  intros H. destruct s as [|a s]; [done |].
  destruct (decide (a = 92)) as [->|Ha].
  - destruct s as [|b s]; [done |].
    destruct (decide (b = 117)) as [->|Hb]; [by destruct (H _ eq_refl) |].
    unfold look. destruct b as [|p]; [done |].
    repeat (destruct p as [p|p|]; try done).
  - unfold look. destruct a as [|p]; [done |].
    repeat (destruct p as [p|p|]; try done).
Qed.

Lemma scanstring_u h1 h2 h3 h4 x l idx begin chunks c :
  hex4_value h1 h2 h3 h4 = Some c ->
  scanstring (92 :: 117 :: h1 :: h2 :: h3 :: h4 :: x :: l) idx begin chunks
  = let single := scanstring (x :: l) (idx + 6) begin (chunks ++ [c]) in
    if is_high_surrogate c then
      match look (x :: l) with
      | NoEscape => single
      | BadEscape => invalid_uXXXX (idx + 7)
      | Escape c2 s10 =>
          if is_low_surrogate c2 then
            scanstring s10 (idx + 12) begin (chunks ++ [join_pair c c2])
          else single
      end
    else single.
Proof.
  intros H. cbn [scanstring]. rewrite H. cbv zeta.
  change ((55296 <=? c) && (c <=? 56319)) with (is_high_surrogate c).
  destruct (is_high_surrogate c); [| done].
  unfold look, is_low_surrogate, join_pair.
  repeat first
    [ reflexivity
    | match goal with
      | |- context [match ?v with _ => _ end] => is_var v; destruct v
      end
    | destruct (hex4_value _ _ _ _) ].
Qed.

Lemma scanstring_simple e c rest idx begin chunks :
  e <> 117 -> simple_escape e = Some c ->
  scanstring (92 :: e :: rest) idx begin chunks
  = scanstring rest (idx + 2) begin (chunks ++ [c]).
Proof.
  intros H117 He. cbn [scanstring].
  destruct e as [|p]; [done |].
  repeat (destruct p as [p|p|]; try done; try (by rewrite He)).
Qed.

Lemma simple_escape_small e c : simple_escape e = Some c -> c < 128.
Proof.
  unfold simple_escape.
  repeat match goal with
    | |- context [if ?b then _ else _] => destruct b eqn:?
    end; intros [= <-]; try lia.
  repeat match goal with
    | H : _ || _ = true |- _ => apply orb_true_iff in H as [H|H]
    | H : (_ =? _) = true |- _ => apply N.eqb_eq in H
    end; lia.
Qed.

Lemma reread_cons c v :
  c < 65536 ->
  is_high_surrogate c = false \/
    match v with l :: _ => is_low_surrogate l = false | [] => True end ->
  reread (c :: v) = c :: reread v.
Proof.
  intros Hc H. cbn [reread]. apply N.ltb_lt in Hc. rewrite Hc.
  destruct v as [|l rest]; [done |].
  destruct H as [-> | ->]; [done | by rewrite andb_false_r].
Qed.

Lemma reread_joined c l v :
  c < 65536 -> is_high_surrogate c = true -> is_low_surrogate l = true ->
  reread (c :: l :: v) = join_pair c l :: reread v.
Proof. intros Hc%N.ltb_lt Hh Hl. cbn [reread]. by rewrite Hc, Hh, Hl. Qed.

Lemma reread_pair c v :
  65536 <= c -> reread (c :: v) = join_pair (high_of c) (low_of c) :: reread v.
Proof. intros Hc. cbn [reread]. by rewrite (proj2 (N.ltb_ge c 65536) Hc). Qed.

Lemma small_not_high c : c < 55296 -> is_high_surrogate c = false.
Proof. intros H. unfold is_high_surrogate. rewrite (proj2 (N.leb_gt _ _)); [done | lia]. Qed.

Lemma small_not_low c : c < 56320 -> is_low_surrogate c = false.
Proof. intros H. unfold is_low_surrogate. rewrite (proj2 (N.leb_gt _ _)); [done | lia]. Qed.

Lemma large_not_low c : 57343 < c -> is_low_surrogate c = false.
Proof.
  intros H. unfold is_low_surrogate. rewrite (proj2 (N.leb_gt c 57343)); [| lia].
  apply andb_false_r.
Qed.

Lemma high_surrogate_range c : is_high_surrogate c = true -> 55296 <= c <= 56319.
Proof. intros [?%N.leb_le ?%N.leb_le]%andb_true_iff. lia. Qed.

Lemma low_surrogate_range c : is_low_surrogate c = true -> 56320 <= c <= 57343.
Proof. intros [?%N.leb_le ?%N.leb_le]%andb_true_iff. lia. Qed.

(** Scanning the escaped form of [v] up to the closing quote reads [v]
    back, surrogate pairs joined. *)
Lemma scanstring_encoded v tail idx begin chunks :
  exists next,
    scanstring (concat (map escape_ascii v) ++ dq ++ tail) idx begin chunks
    = inr (chunks ++ reread v, tail, next).
Proof.
  remember (length v) as n eqn:Hn. revert v Hn idx chunks.
  induction (lt_wf n) as [n _ IH]. intros v -> idx chunks.
  assert (forall v' idx' c',
            (length v' < length v)%nat ->
            exists next,
              scanstring (concat (map escape_ascii v') ++ dq ++ tail) idx' begin
                (chunks ++ [c'])
              = inr (chunks ++ c' :: reread v', tail, next)) as Next.
  { intros v' idx' c' Hv'.
    destruct (IH _ Hv' v' eq_refl idx' (chunks ++ [c'])) as [next ->].
    exists next. by rewrite <- app_assoc. }
  clear IH. destruct v as [|c v2].
  { exists (idx + 1). cbn. by rewrite app_nil_r. }
  cbn [map concat]. rewrite <- app_assoc.
  destruct (escape_ascii_shape c) as [e He Hs|H34 H92 H31 H126|Hc|Hc].
  - pose proof (simple_escape_small _ _ Hs).
    cbn [app]. rewrite (scanstring_simple _ _ _ _ _ _ He Hs).
    rewrite reread_cons by (try lia; left; apply small_not_high; lia).
    apply Next. simpl. lia.
  - cbn [app]. rewrite scanstring_plain by done.
    rewrite reread_cons by (try lia; left; apply small_not_high; lia).
    apply Next. simpl. lia.
  - destruct (encoded_cons v2 tail) as (x & l & ER). rewrite ER.
    unfold hex4. cbn [app].
    rewrite (scanstring_u _ _ _ _ _ _ _ _ _ c (hex4_value_hex4 c Hc)). cbv zeta.
    destruct (is_high_surrogate c) eqn:Eh; cycle 1.
    { rewrite <- ER, reread_cons by auto. apply Next. simpl. lia. }
    assert (forall next',
              (match v2 with c2 :: _ => is_low_surrogate c2 = false | [] => True end) ->
              exists next,
                scanstring (x :: l) next' begin (chunks ++ [c])
                = inr (chunks ++ reread (c :: v2), tail, next)) as Single.
    { intros next' Hl. rewrite <- ER, reread_cons by auto. apply Next. simpl. lia. }
    destruct v2 as [|c2 v3].
    { cbn in ER. injection ER as <- <-. by apply Single. }
    cbn [map concat] in ER. rewrite <- app_assoc in ER.
    destruct (escape_ascii_shape c2) as [e He Hs|H34 H92 H31 H126|Hc2|Hc2].
    + pose proof (simple_escape_small _ _ Hs).
      rewrite look_not_u by (intros t Ht; rewrite <- ER in Ht; by injection Ht).
      apply Single, small_not_low. lia.
    + rewrite look_not_u by (intros t Ht; rewrite <- ER in Ht; by injection Ht).
      apply Single, small_not_low. lia.
    + destruct (encoded_cons v3 tail) as (y & l' & ER3).
      rewrite ER3 in ER. unfold hex4 in ER. cbn [app] in ER. rewrite <- ER.
      cbn [look]. rewrite (hex4_value_hex4 c2 Hc2).
      destruct (is_low_surrogate c2) eqn:El.
      * rewrite reread_joined by done. rewrite <- ER3. apply Next. simpl. lia.
      * rewrite ER. by apply Single.
    + destruct (encoded_cons v3 tail) as (y & l' & ER3).
      rewrite ER3 in ER. unfold hex4 in ER. cbn [app] in ER. rewrite <- ER.
      cbn [look].
      pose proof (high_surrogate_range _ (high_of_surrogate c2)).
      rewrite (hex4_value_hex4 (high_of c2)) by lia.
      rewrite small_not_low by lia. rewrite ER.
      apply Single, large_not_low. lia.
  - destruct (encoded_cons v2 tail) as (x & l & ER).
    unfold hex4. cbn [app]. rewrite ER.
    pose proof (high_surrogate_range _ (high_of_surrogate c)).
    pose proof (low_surrogate_range _ (low_of_surrogate c)).
    rewrite (scanstring_u _ _ _ _ _ _ _ _ _ (high_of c))
      by (apply hex4_value_hex4; lia).
    cbv zeta. rewrite high_of_surrogate. cbn [look].
    rewrite (hex4_value_hex4 (low_of c)) by lia.
    rewrite low_of_surrogate, reread_pair by done.
    rewrite <- ER. apply Next. simpl. lia.
Qed.

Lemma json_dumps_object1_cons key value :
  json_dumps_object1 key value
  = 123 :: 34 :: concat (map escape_ascii key) ++ dq
      ++ 58 :: 32 :: 34 :: concat (map escape_ascii value) ++ dq ++ [125].
Proof.
  unfold json_dumps_object1, encode_basestring_ascii. cbn [lit app N_of_ascii N_of_digits].
  by rewrite <- !app_assoc.
Qed.

(** [json.loads(json.dumps({key: value}))] is a dict with one item. *)
Lemma decode_dumps key value :
  decode (json_dumps_object1 key value)
  = inr (PDict [(reread key, PStr (reread value))]).
Proof.
  rewrite json_dumps_object1_cons. unfold decode.
  set (tail1 := 58 :: 32 :: 34 :: concat (map escape_ascii value) ++ dq ++ [125]).
  set (doc := 123 :: 34 :: concat (map escape_ascii key) ++ dq ++ tail1).
  assert (exists f, (2 * length doc + 2)%nat = S (S (S f))) as [f ->].
  { exists (2 * length doc - 1)%nat. subst doc. cbn [length]. lia. }
  subst doc. cbn [skip_whitespace is_whitespace N.eqb Pos.eqb orb scan_once].
  cbn [parse_object].
  destruct (scanstring_encoded key tail1 (0 + 1 + 1) (0 + 1) []) as [next1 ->].
  subst tail1. cbn [skip_whitespace is_whitespace N.eqb Pos.eqb orb scan_once].
  destruct (scanstring_encoded value [125] (next1 + 1 + 1 + 1) (next1 + 1 + 1) [])
    as [next2 ->].
  reflexivity.
Qed.

Lemma reread_scalar (v : pystr) : Forall scalar v -> reread v = v.
Proof.
  induction 1 as [|c v Hc _ IH]; [done |].
  destruct (N.ltb_spec c 65536) as [Hlt|Hge].
  - rewrite reread_cons, IH; [done | done |]. left.
    unfold is_high_surrogate. destruct Hc as [Hc|Hc].
    + rewrite (proj2 (N.leb_gt 55296 c)); [done | lia].
    + rewrite (proj2 (N.leb_gt c 56319)); [apply andb_false_r | lia].
  - rewrite reread_pair, IH, join_pair_of; [done | | done].
    unfold scalar in Hc. lia.
Qed.

(** It is [{key: value}] when the two strings have no surrogates. *)
Lemma decode_dumps_scalar key value :
  Forall scalar key -> Forall scalar value ->
  decode (json_dumps_object1 key value) = inr (PDict [(key, PStr value)]).
Proof. intros Hk Hv. by rewrite decode_dumps, !reread_scalar. Qed.

End EscapeFacts.

(** ** Runs of the monad *)

Lemma bind_inr {S A B} (m : M S A) (k : A -> M S B) st b st' :
  bind m k st = (inr b, st') ->
  exists a st1, m st = (inr a, st1) /\ k a st1 = (inr b, st').
Proof.
  unfold bind. destruct (m st) as [[e|a] st1]; [done |]. intros H. by exists a, st1.
Qed.

Lemma bind_returns {S A B} (m : M S A) (k : A -> M S B) st a st1 :
  m st = (inr a, st1) -> bind m k st = k a st1.
Proof. unfold bind. by intros ->. Qed.

Lemma bind_raises {S A B} (m : M S A) (k : A -> M S B) st e st1 :
  m st = (inl e, st1) -> bind m k st = (inl e, st1).
Proof. unfold bind. by intros ->. Qed.

Lemma lift_inv {S A} (r : result A) (st : S) x st' :
  lift r st = (x, st') -> x = r /\ st' = st.
Proof. unfold lift. by intros [= <- <-]. Qed.

Lemma surfaces_ret {W A} (a : A) : surfaces_failures (W := W) (ret a).
Proof.
  intros st r st' [= <- <-]. exists []. split; [by rewrite app_nil_r |].
  intros ev e H. by apply elem_of_nil in H.
Qed.

Lemma surfaces_lift {W A} (x : result A) : surfaces_failures (W := W) (lift x).
Proof.
  intros st r st' [= <- <-]. exists []. split; [by rewrite app_nil_r |].
  intros ev e H. by apply elem_of_nil in H.
Qed.

Lemma surfaces_bind {W A B} (m : M (state W) A) (k : A -> M (state W) B) :
  surfaces_failures m -> (forall a, surfaces_failures (k a)) ->
  surfaces_failures (bind m k).
Proof.
  intros Hm Hk st r st' Hrun. unfold bind in Hrun.
  destruct (m st) as [[e|a] st1] eqn:E.
  - injection Hrun as <- <-. destruct (Hm _ _ _ E) as (new & T & P).
    exists new. split; [done |]. intros ev e' H R.
    specialize (P _ _ H R). congruence.
  - destruct (Hm _ _ _ E) as (new1 & T1 & P1).
    destruct (Hk a _ _ _ Hrun) as (new2 & T2 & P2).
    exists (new1 ++ new2). split; [by rewrite T2, T1, app_assoc |].
    intros ev e [H|H]%elem_of_app R.
    + by specialize (P1 _ _ H R).
    + eauto.
Qed.

(** ** Runs of the handler's steps *)

Section Runs.

Context {decoder : JsonDecoder} {W : Type} {services : Services W}.

Implicit Types (st : state W) (e : exn) (website : pyval) (link : pystr).

(** *** What a step does when the service answers *)

Lemma scrape_call_run p st r w :
  start_and_wait p (world st) = (r, w) ->
  scrape_call p st = (r, {| world := w; trace := trace st ++ [ScrapeEvent p r] |}).
Proof. unfold scrape_call. by intros ->. Qed.

Lemma chat_call_run model messages st r w :
  chat_completions_create model messages (world st) = (r, w) ->
  chat_call model messages st
  = (r, {| world := w; trace := trace st ++ [ChatEvent model messages r] |}).
Proof. unfold chat_call. by intros ->. Qed.

(** The constructor of the parameters lets a string through and nothing
    else. *)
Lemma scrape_links_str root st :
  scrape_links (PStr root) st
  = bind (scrape_call (links_params (PStr root)))
      (fun result => lift (data_attr result "links" links)) st.
Proof. reflexivity. Qed.

Lemma scrape_links_invalid website st :
  (forall s, website <> PStr s) ->
  scrape_links website st = (inl (invalid_url website), st).
Proof.
  intros Hn. unfold scrape_links, StartScrapeJobParams_init.
  destruct website as [| | | |s| |]; try done. by destruct (Hn s).
Qed.

Lemma scrape_links_inv website st r st' :
  scrape_links website st = (r, st') ->
  (exists root, website = PStr root) \/
  r = inl (invalid_url website) /\ st' = st.
Proof.
  destruct website as [| | | |s| |]; try (intros [= <- <-]; by right).
  intros _. left. by exists s.
Qed.

Lemma scrape_page_content_eq link st :
  scrape_page_content link st
  = bind (scrape_call (markdown_params link))
      (fun result =>
         bind (lift (data_attr result "markdown" markdown))
           (fun markdown => ret (or_empty markdown))) st.
Proof. reflexivity. Qed.

Lemma scrape_links_run root st d w :
  start_and_wait (links_params (PStr root)) (world st) = (inr {| data := Some d |}, w) ->
  scrape_links (PStr root) st
  = (inr (links d),
     {| world := w; trace := trace st ++ [links_event (PStr root) d] |}).
Proof.
  intros E. rewrite scrape_links_str.
  by rewrite (bind_returns _ _ _ _ _ (scrape_call_run _ _ _ _ E)).
Qed.

Lemma scrape_page_content_run link st d w :
  start_and_wait (markdown_params link) (world st) = (inr {| data := Some d |}, w) ->
  scrape_page_content link st
  = (inr (page_body d),
     {| world := w; trace := trace st ++ [page_event (link, d)] |}).
Proof.
  intros E. rewrite scrape_page_content_eq.
  rewrite (bind_returns _ _ _ _ _ (scrape_call_run _ _ _ _ E)).
  unfold bind, lift, ret, data_attr; simpl. by rewrite or_empty_page_body.
Qed.

Lemma llm_calling_run prompt st o text rest w :
  chat_completions_create model_id [user_message prompt] (world st) = (inr o, w) ->
  choices o = Some text :: rest ->
  llm_calling prompt st
  = (inr (str_strip text),
     {| world := w; trace := trace st ++ [llm_event prompt o] |}).
Proof.
  intros E Ho. unfold llm_calling.
  rewrite (bind_returns _ _ _ _ _ (chat_call_run _ _ _ _ _ E)).
  unfold lift, first_content_stripped. by rewrite Ho.
Qed.

Lemma aggregated_cons page pages :
  aggregated (page :: pages) = page_segment page.1 (page_body page.2) ++ aggregated pages.
Proof. done. Qed.

Lemma content_loop_run links st all_content pages w' :
  fetched links (world st) pages w' ->
  content_loop links all_content st
  = (inr (all_content ++ aggregated pages),
     {| world := w'; trace := trace st ++ map page_event pages |}).
Proof.
  intros F. revert st all_content pages F.
  induction links as [|link links IH]; intros st all_content pages F;
    inversion F; subst.
  - simpl. unfold ret, aggregated. simpl. rewrite !app_nil_r. by destruct st.
  - cbn [content_loop].
    erewrite bind_returns by (by apply scrape_page_content_run).
    erewrite IH by (cbn [world]; eassumption). cbn [trace world map].
    by rewrite aggregated_cons, <- !app_assoc.
Qed.

(** *** What a step did when it returned *)

Lemma scrape_call_inv p st r st' :
  scrape_call p st = (r, st') ->
  start_and_wait p (world st) = (r, world st') /\
  trace st' = trace st ++ [ScrapeEvent p r].
Proof.
  unfold scrape_call. destruct (start_and_wait p (world st)) as [r0 w].
  by intros [= <- <-].
Qed.

Lemma chat_call_inv model messages st r st' :
  chat_call model messages st = (r, st') ->
  chat_completions_create model messages (world st) = (r, world st') /\
  trace st' = trace st ++ [ChatEvent model messages r].
Proof.
  unfold chat_call.
  destruct (chat_completions_create model messages (world st)) as [r0 w].
  by intros [= <- <-].
Qed.

Lemma scrape_links_inr website st ls st' :
  scrape_links website st = (inr ls, st') ->
  exists d,
    ls = links d /\
    start_and_wait (links_params website) (world st)
    = (inr {| data := Some d |}, world st') /\
    trace st' = trace st ++ [links_event website d].
Proof.
  intros E. destruct (scrape_links_inv _ _ _ _ E) as [[root ->]|[[=] _]].
  rewrite scrape_links_str in E. apply bind_inr in E as (r & st1 & E1 & E2).
  apply scrape_call_inv in E1 as [E1 T]. apply lift_inv in E2 as [E2 ->].
  destruct r as [[d|]]; [| done]. injection E2 as ->. by exists d.
Qed.

Lemma scrape_page_content_inr link st text st' :
  scrape_page_content link st = (inr text, st') ->
  exists d,
    text = page_body d /\
    start_and_wait (markdown_params link) (world st)
    = (inr {| data := Some d |}, world st') /\
    trace st' = trace st ++ [page_event (link, d)].
Proof.
  rewrite scrape_page_content_eq. intros (r & st1 & E1 & E2)%bind_inr.
  apply scrape_call_inv in E1 as [E1 T].
  apply bind_inr in E2 as (md & st2 & E2 & E3).
  apply lift_inv in E2 as [E2 ->]. injection E3 as <- <-.
  destruct r as [[d|]]; [| done]. injection E2 as ->.
  exists d. by rewrite or_empty_page_body.
Qed.

Lemma llm_calling_inr prompt st t st' :
  llm_calling prompt st = (inr t, st') ->
  exists o,
    reply_stripped o t /\
    chat_completions_create model_id [user_message prompt] (world st)
    = (inr o, world st') /\
    trace st' = trace st ++ [llm_event prompt o].
Proof.
  intros (o & st1 & E1 & E2)%bind_inr.
  apply chat_call_inv in E1 as [E1 T]. apply lift_inv in E2 as [E2 ->].
  exists o. split; [| done].
  unfold first_content_stripped in E2.
  destruct (choices o) as [|[text|] rest] eqn:Ec; [done | | done].
  injection E2 as ->. exists text, rest. auto using str_strip_stripped.
Qed.

Lemma content_loop_inr links st all_content out st' :
  content_loop links all_content st = (inr out, st') ->
  exists pages,
    pages.*1 = links /\
    fetched links (world st) pages (world st') /\
    out = all_content ++ aggregated pages /\
    trace st' = trace st ++ map page_event pages.
Proof.
  revert st all_content. induction links as [|link links IH]; intros st all_content.
  - intros [= <- <-]. exists []. unfold aggregated. simpl. rewrite !app_nil_r.
    repeat split. constructor.
  - cbn [content_loop]. intros (text & st1 & E1 & E2)%bind_inr.
    apply scrape_page_content_inr in E1 as (d & -> & E1 & T1).
    apply IH in E2 as (pages & <- & F & -> & T2).
    exists ((link, d) :: pages). split; [done |]. split; [by econstructor |].
    rewrite aggregated_cons, T2, T1, <- !app_assoc. done.
Qed.

Lemma run_pipeline_inr website st resp st' :
  run_pipeline website st = (inr resp, st') ->
  exists d pages o1 o2 o3 t1 t2 t3,
    filter_links (links d) website = inr pages.*1 /\
    trace st' = trace st ++ links_event website d :: map page_event pages
                  ++ [llm_event (prompt_structuring (aggregated pages)) o1;
                      llm_event (prompt_relevancy t1) o2;
                      llm_event (prompt_finalized t2) o3] /\
    reply_stripped o1 t1 /\ reply_stripped o2 t2 /\ reply_stripped o3 t3 /\
    resp = response_success t3.
Proof.
  unfold run_pipeline.
  intros (ls & s1 & E1 & E)%bind_inr.
  apply bind_inr in E as (kept & s2 & E2 & E).
  apply bind_inr in E as (all_content & s3 & E3 & E).
  apply bind_inr in E as (t1 & s4 & E4 & E).
  apply bind_inr in E as (t2 & s5 & E5 & E).
  apply bind_inr in E as (t3 & s6 & E6 & E).
  injection E as <- <-.
  apply scrape_links_inr in E1 as (d & -> & _ & T1).
  apply lift_inv in E2 as [E2 ->].
  apply content_loop_inr in E3 as (pages & <- & _ & -> & T3).
  apply llm_calling_inr in E4 as (o1 & R1 & _ & T4).
  apply llm_calling_inr in E5 as (o2 & R2 & _ & T5).
  apply llm_calling_inr in E6 as (o3 & R3 & _ & T6).
  exists d, pages, o1, o2, o3, t1, t2, t3. repeat split; try done.
  rewrite T6, T5, T4, T3, T1, <- !app_assoc. done.
Qed.

(** *** Failures of the services are not swallowed *)

Lemma surfaces_scrape_call p : surfaces_failures (scrape_call p).
Proof.
  intros st r st' [_ T]%scrape_call_inv. exists [ScrapeEvent p r]. split; [done |].
  intros ev e ->%list_elem_of_singleton R. destruct r; simpl in R; congruence.
Qed.

Lemma surfaces_chat_call model messages : surfaces_failures (chat_call model messages).
Proof.
  intros st r st' [_ T]%chat_call_inv. exists [ChatEvent model messages r].
  split; [done |].
  intros ev e ->%list_elem_of_singleton R. destruct r; simpl in R; congruence.
Qed.

Lemma surfaces_scrape_links website : surfaces_failures (scrape_links website).
Proof.
  apply surfaces_bind; [apply surfaces_lift | intros params].
  apply surfaces_bind; [apply surfaces_scrape_call | intros; apply surfaces_lift].
Qed.

Lemma surfaces_scrape_page_content link : surfaces_failures (scrape_page_content link).
Proof.
  apply surfaces_bind; [apply surfaces_lift | intros params].
  apply surfaces_bind; [apply surfaces_scrape_call |].
  intros r. apply surfaces_bind; [apply surfaces_lift | intros; apply surfaces_ret].
Qed.

Lemma surfaces_llm_calling prompt : surfaces_failures (llm_calling prompt).
Proof.
  apply surfaces_bind; [apply surfaces_chat_call | intros; apply surfaces_lift].
Qed.

Lemma surfaces_content_loop links all_content :
  surfaces_failures (content_loop links all_content).
Proof.
  revert all_content. induction links as [|link links IH]; intros all_content.
  - apply surfaces_ret.
  - apply surfaces_bind; [apply surfaces_scrape_page_content | intros; apply IH].
Qed.



(** *** The three ways out of the handler *)

Lemma handler_rejects event context st e :
  request_website event = inl e ->
  lambda_handler event context st = (response_error e, st).
Proof.
  intros E. unfold lambda_handler, try_except, handler_body, bind, lift. by rewrite E.
Qed.

Lemma handler_missing event context st website :
  request_website event = inr website -> truthy website = false ->
  lambda_handler event context st = (response_missing_website, st).
Proof.
  intros E T. unfold lambda_handler, try_except, handler_body, bind, lift.
  by rewrite E, T.
Qed.

Lemma handler_runs event context st website :
  request_website event = inr website -> truthy website = true ->
  lambda_handler event context st = try_except (run_pipeline website) response_error st.
Proof.
  intros E T. unfold lambda_handler, try_except, handler_body, bind, lift.
  by rewrite E, T.
Qed.

Lemma request_body_website event items :
  request_body event (PDict items) ->
  request_website event = inr (dict_get items (lit "website") PNone).
Proof. intros (raw & E1 & E2). unfold request_website. by rewrite E1, E2. Qed.

Lemma handler_body_inr event st resp st' :
  handler_body event st = (inr resp, st') ->
  exists website,
    request_website event = inr website /\
    (truthy website = false /\ resp = response_missing_website /\ st' = st \/
     truthy website = true /\ run_pipeline website st = (inr resp, st')).
Proof.
  intros (website & s1 & E1 & E2)%bind_inr. apply lift_inv in E1 as [E1 ->].
  exists website. split; [done |].
  destruct (truthy website); simpl in E2; [by right |].
  injection E2 as <- <-. by left.
Qed.

Lemma handler_response event context st :
  let resp := (lambda_handler event context st).1 in
  resp = response_missing_website \/
  (exists t, resp = response_success t) \/
  (exists e, resp = response_error e).
Proof.
  unfold lambda_handler, try_except.
  destruct (handler_body event st) as [[e|resp] st'] eqn:E; simpl; [by eauto |].
  apply handler_body_inr in E as (website & _ & [(_ & -> & _)|[_ E]]); [by left |].
  apply run_pipeline_inr in E as (d & pages & o1 & o2 & o3 & t1 & t2 & t3 & E).
  right; left. exists t3. apply E.
Qed.

Lemma bind_inv {S A B} (m : M S A) (k : A -> M S B) (s : S) r s' :
  bind m k s = (r, s') ->
  (exists e, m s = (inl e, s') /\ r = inl e) \/
  (exists a s1, m s = (inr a, s1) /\ k a s1 = (r, s')).
Proof.
  unfold bind. destruct (m s) as [[e|a] s1].
  - intros [= <- <-]. left. by exists e.
  - intros E. right. by exists a, s1.
Qed.

Ltac surfaces :=
  repeat first
    [ apply surfaces_ret | apply surfaces_lift | apply surfaces_scrape_links
    | apply surfaces_content_loop | apply surfaces_llm_calling
    | apply surfaces_bind; [| intros ?] ].

(** A website that is no string is refused by the constructor of the
    parameters of the link scrape, before any call. *)
Lemma run_pipeline_invalid website st :
  (forall s, website <> PStr s) ->
  run_pipeline website st = (inl (invalid_url website), st).
Proof.
  intros Hn. unfold run_pipeline, bind. by rewrite scrape_links_invalid.
Qed.

Lemma filter_is_chat_pages (pages : list (pystr * ScrapeJobData)) :
  filter (fun ev => is_chat ev = true) (map page_event pages) = [].
Proof.
  induction pages as [|page pages IH]; [done |].
  simpl. by rewrite filter_cons_False.
Qed.

Lemma fetched_links links w pages w' : fetched links w pages w' -> pages.*1 = links.
Proof. induction 1 as [|? ? ? ? ? ? ? _ _ IH]; csimpl; [done | by rewrite IH]. Qed.

(** ** The claims *)

(** [json.dumps] leaves a printable ASCII character other than the quote
    and the backslash as it is. *)
Lemma escape_ascii_plain (c : pychar) :
  (32 <= c <= 126)%N -> c <> 34%N -> c <> 92%N -> escape_ascii c = [c].
Proof.
  intros Hc H34 H92. unfold escape_ascii.
  repeat match goal with
    | |- context [if (c =? ?k)%N then _ else _] =>
        destruct (N.eqb_spec c k) as [->|?]; [lia |]
    end.
  by rewrite (proj2 (N.leb_le 32 c)), (proj2 (N.leb_le c 126)) by lia.
Qed.

Lemma escape_plain_text (t : pystr) :
  Forall (fun c => (32 <= c <= 126)%N /\ c <> 34%N /\ c <> 92%N) t ->
  concat (map escape_ascii t) = t.
Proof.
  induction 1 as [|c t (Hc & H34 & H92) _ IH]; [done |].
  cbn [map concat]. by rewrite escape_ascii_plain, IH.
Qed.

Lemma plain_text_check (t : pystr) :
  forallb (fun c => (32 <=? c)%N && (c <=? 126)%N && negb (c =? 34)%N && negb (c =? 92)%N) t
  = true ->
  Forall (fun c => (32 <= c <= 126)%N /\ c <> 34%N /\ c <> 92%N) t.
Proof.
  induction t as [|c t IH]; [constructor |]. cbn [forallb].
  intros [[[[H1 H2]%andb_prop H3]%andb_prop H4]%andb_prop H]%andb_prop.
  constructor; [| by apply IH].
  apply N.leb_le in H1. apply N.leb_le in H2.
  apply negb_true_iff, N.eqb_neq in H3. apply negb_true_iff, N.eqb_neq in H4. done.
Qed.

(** The text of [json.dumps({"structured_info": t})]. *)
Lemma structured_info_text (t : pystr) :
  json_dumps_object1 (lit "structured_info") t
  = lit "{" ++ dq ++ lit "structured_info" ++ dq ++ lit ": "
      ++ dq ++ concat (map escape_ascii t) ++ dq ++ lit "}".
Proof. by rewrite EscapeFacts.json_dumps_object1_cons. Qed.

(** C1. On the successful path the handler makes exactly three model calls,
    in the order structuring, relevancy extraction, finalization. Each call
    sends one message, of role user, whose content is the call's fixed
    template, spelled out below, around the full output of the stage
    before: the aggregated content of the scraped pages, then the stripped
    answer of the call before. Each answer is stripped of leading and
    trailing whitespace. The response is the 200 response whose body is the
    JSON text of the object with the key [structured_info] and the third
    stripped answer as its value: the text decodes to that object, and has
    the answer in it as it is when the answer needs no escape. *)
Theorem success_path_three_llm_calls event context st resp st' :
  lambda_handler event context st = (resp, st') ->
  statusCode resp = 200 ->
  exists website d pages o1 o2 o3 t1 t2 t3,
    let all_content :=
      concat (map (fun page => nl ++ nl ++ lit "--- Page: " ++ page.1 ++ lit " ---"
                                  ++ nl ++ page_body page.2) pages) in
    let the_headings :=
      lit "Objective:" ++ nl ++
      lit "Mission:" ++ nl ++
      lit "Vision:" ++ nl ++
      lit "Business Concept:" ++ nl ++
      lit "Target Market:" ++ nl ++
      lit "Value Proposition:" ++ nl ++
      lit "Business Name:" ++ nl ++
      lit "Products or Services they offer:" ++ nl ++
      lit "Who they currently sell to:" ++ nl ++
      lit "Top Business Goals:" ++ nl ++
      lit "Challenges:" ++ nl in
    let structuring :=
      lit "You are an expert information architect." ++ nl ++
      lit "Convert the unstructured data below into structured information." ++ nl ++
      lit "Do not remove any information, just present it in a structured format."
        ++ nl ++ nl ++
      all_content in
    let relevancy :=
      lit "You are an expert business and marketing analyst specializing in B2B strategy."
        ++ nl ++
      lit "Review the following structured company information:" ++ nl ++ t1 ++ nl ++ nl ++
      lit "Extract only the information that is highly relevant for developing a B2B marketing strategy."
        ++ nl ++
      lit "Discard irrelevant or redundant details." ++ nl ++ nl ++
      lit "Return the answer in the exact format below:" ++ nl ++ nl ++
      the_headings in
    let finalized :=
      lit "You are a professional business document formatter." ++ nl ++
      lit "Take the following input data:" ++ nl ++ t2 ++ nl ++ nl ++
      lit "Remove any content between <think> and </think>." ++ nl ++
      lit "Present the information in a clean, professional document format."
        ++ nl ++ nl ++
      lit "Required headings (exactly as written, in this order):" ++ nl ++
      the_headings ++ nl ++
      lit "Notes:" ++ nl ++
      lit "- Include only these headings and their corresponding information." ++ nl ++
      lit "- If no information is available for a heading, write 'Not specified'." ++ nl ++
      lit "- Do not use symbols like #, **, or bullet points." ++ nl ++
      lit "- Do not add any extra commentary outside the headings." ++ nl ++
      lit "- Maintain proper spacing and readability." in
    let scrapes := links_event website d :: map page_event pages in
    let calls := [ChatEvent (lit "openai/gpt-oss-120b")
                    [{| role := lit "user"; content := structuring |}] (inr o1);
                  ChatEvent (lit "openai/gpt-oss-120b")
                    [{| role := lit "user"; content := relevancy |}] (inr o2);
                  ChatEvent (lit "openai/gpt-oss-120b")
                    [{| role := lit "user"; content := finalized |}] (inr o3)] in
    filter_links (links d) website = inr pages.*1 /\
    trace st' = trace st ++ scrapes ++ calls /\
    filter (fun ev => is_chat ev = true) (scrapes ++ calls) = calls /\
    reply_stripped o1 t1 /\ reply_stripped o2 t2 /\ reply_stripped o3 t3 /\
    resp = {| statusCode := 200;
              headers := [(lit "Content-Type", lit "application/json")];
              body := lit "{" ++ dq ++ lit "structured_info" ++ dq ++ lit ": "
                        ++ dq ++ concat (map escape_ascii t3) ++ dq ++ lit "}" |} /\
    Json.decode (body resp)
    = inr (PDict [(lit "structured_info", PStr (Json.reread t3))]) /\
    (Forall Json.scalar t3 ->
     Json.decode (body resp) = inr (PDict [(lit "structured_info", PStr t3)])) /\
    (Forall (fun c => (32 <= c <= 126)%N /\ c <> 34%N /\ c <> 92%N) t3 ->
     body resp = lit "{" ++ dq ++ lit "structured_info" ++ dq ++ lit ": "
                   ++ dq ++ t3 ++ dq ++ lit "}").
Proof.
  unfold lambda_handler, try_except.
  destruct (handler_body event st) as [[e|resp0] st0] eqn:E;
    intros [= <- <-] Hcode; [done |].
  apply handler_body_inr in E as (website & _ & [(_ & -> & _)|[_ E]]); [done |].
  apply run_pipeline_inr in E
    as (d & pages & o1 & o2 & o3 & t1 & t2 & t3 & F & T & R1 & R2 & R3 & ->).
  exists website, d, pages, o1, o2, o3, t1, t2, t3. cbv zeta.
  split; [done |]. split; [exact T |]. split.
  { rewrite filter_app, filter_cons_False by done.
    by rewrite filter_is_chat_pages. }
  split; [done |]. split; [done |]. split; [done |].
  unfold response_success. cbn [body]. rewrite structured_info_text.
  split; [done |]. rewrite <- structured_info_text. split; [| split].
  - by rewrite EscapeFacts.decode_dumps.
  - intros Hs. apply EscapeFacts.decode_dumps_scalar; [| done].
    repeat constructor; left; by compute.
  - intros Hp. rewrite structured_info_text. by rewrite escape_plain_text.
Qed.

(** C2 (amended). When the parsed JSON body is an object that lacks the
    field [website], or has it empty or null, the handler returns the 400
    response with the body [{"error": "Missing 'website' in request body"}]
    and makes no outbound call: the world and the trace are as they were. *)
Theorem missing_website_is_400 event context st items :
  request_body event (PDict items) ->
  dict_lookup items (lit "website") = None \/
  dict_lookup items (lit "website") = Some PNone \/
  dict_lookup items (lit "website") = Some (PStr []) ->
  lambda_handler event context st
  = ({| statusCode := 400;
        headers := json_headers;
        body := json_dumps_object1 (lit "error")
                  (lit "Missing 'website' in request body") |}, st).
Proof.
  intros B%request_body_website Hw.
  apply (handler_missing _ _ _ _ B).
  unfold dict_get. by destruct Hw as [->|[->| ->]].
Qed.

(** C3 (amended). When the body of the request is a string that is not
    parseable as JSON, the handler fails at once: it returns the 500
    response whose error field is the string of the decoder's exception, and
    makes no outbound call. *)
Theorem malformed_body_is_500 event context st e :
  malformed_body event e ->
  lambda_handler event context st
  = ({| statusCode := 500;
        headers := json_headers;
        body := json_dumps_object1 (lit "error") (exc_str e) |}, st).
Proof.
  intros (raw & E1 & E2). apply handler_rejects.
  unfold request_website. rewrite E1. simpl. by rewrite E2.
Qed.

(** C5. The aggregated content is the concatenation, in the order of the
    filtered links, of one segment [\n\n--- Page: {link} ---\n{content}] per
    link. A page whose markdown is null or empty contributes the empty
    string as its content, and its segment, the boundary header, is there
    all the same. *)
Theorem aggregated_content_is_concatenation links st pages w' :
  fetched links (world st) pages w' ->
  content_loop links [] st
  = (inr (concat (map (fun page => nl ++ nl ++ lit "--- Page: " ++ page.1 ++ lit " ---"
                                      ++ nl ++ page_body page.2) pages)),
     {| world := w'; trace := trace st ++ map page_event pages |}) /\
  pages.*1 = links /\
  forall link d,
    (link, d) ∈ pages -> markdown d = None \/ markdown d = Some [] ->
    page_body d = [] /\
    page_segment link (page_body d) = nl ++ nl ++ lit "--- Page: " ++ link ++ lit " ---" ++ nl.
Proof.
  intros F. split; [| split].
  - by rewrite (content_loop_run _ _ [] _ _ F).
  - by eapply fetched_links.
  - intros link d _ Hd. unfold page_segment, page_body.
    destruct Hd as [->| ->]; by rewrite !app_nil_r.
Qed.


(** C7. For every event, the body of the response is one JSON object with
    the key [structured_info] or with the key [error], and not with both:
    it is the JSON text of such an object, and it decodes to a dict with
    that one key. *)
Theorem response_has_one_of_two_shapes event context st :
  let resp := (lambda_handler event context st).1 in
  (object_with_key "structured_info" (body resp) \/
   object_with_key "error" (body resp)) /\
  ~ (object_with_key "structured_info" (body resp) /\
     object_with_key "error" (body resp)) /\
  exists key value,
    (key = "structured_info"%string \/ key = "error"%string) /\
    Json.decode (body resp) = inr (PDict [(lit key, PStr value)]).
Proof.
  intros resp.
  assert (forall key value,
            Json.decode (json_dumps_object1 (lit key) value)
            = inr (PDict [(Json.reread (lit key), PStr (Json.reread value))])) as D
    by (intros; apply EscapeFacts.decode_dumps).
  split; [| split].
  - destruct (handler_response event context st) as [E|[[t E]|[e E]]];
      fold resp in E; rewrite E; [right | left | right]; by eexists.
  - by intros [[v1 ->] [v2 [=]]].
  - destruct (handler_response event context st) as [E|[[t E]|[e E]]];
      fold resp in E; rewrite E; cbn [body response_missing_website response_success
                                        response_error].
    + exists "error"%string, (lit "Missing 'website' in request body").
      split; [by right |]. by rewrite D.
    + exists "structured_info"%string, (Json.reread t). split; [by left |]. by rewrite D.
    + exists "error"%string, (Json.reread (exc_str e)). split; [by right |]. by rewrite D.
Qed.

(** C8. For an event dict without the key [body], the handler takes the
    empty JSON object [{}] as the body and returns the 400 response for a
    missing website; it does not raise and does not return a 500. *)
Theorem no_body_key_is_400 event_items context st :
  dict_lookup event_items (lit "body") = None ->
  json_decode (lit "{}") = inr (PDict []) ->
  py_get (PDict event_items) (lit "body") (PStr (lit "{}")) = inr (PStr (lit "{}")) /\
  lambda_handler (PDict event_items) context st = (response_missing_website, st) /\
  statusCode response_missing_website = 400.
Proof.
  intros Hb Hd.
  assert (py_get (PDict event_items) (lit "body") (PStr (lit "{}"))
          = inr (PStr (lit "{}"))) as G.
  { unfold py_get, dict_get. by rewrite Hb. }
  split; [done |]. split; [| done].
  apply (handler_missing _ _ _ PNone); [| done].
  unfold request_website. rewrite G. cbn [json_loads]. by rewrite Hd.
Qed.

(** C9. When no discovered link passes the prefix filter, the aggregated
    content is the empty string and the pipeline goes on: the three model
    calls run, the first on the structuring prompt around the empty content,
    and when they succeed the handler returns the 200 response. *)
Theorem no_filtered_links_still_runs event context st items root d ls
    w1 o1 text1 rest1 w2 o2 text2 rest2 w3 o3 text3 rest3 w4 :
  request_body event (PDict items) ->
  dict_lookup items (lit "website") = Some (PStr root) ->
  root <> [] ->
  start_and_wait (links_params (PStr root)) (world st)
  = (inr {| data := Some d |}, w1) ->
  links d = Some ls ->
  (forall l, l ∈ ls -> ~ root `prefix_of` l) ->
  chat_completions_create model_id [user_message (prompt_structuring [])] w1
  = (inr o1, w2) ->
  choices o1 = Some text1 :: rest1 ->
  chat_completions_create model_id
    [user_message (prompt_relevancy (str_strip text1))] w2 = (inr o2, w3) ->
  choices o2 = Some text2 :: rest2 ->
  chat_completions_create model_id
    [user_message (prompt_finalized (str_strip text2))] w3 = (inr o3, w4) ->
  choices o3 = Some text3 :: rest3 ->
  content_loop [] [] st = (inr [], st) /\
  lambda_handler event context st
  = ({| statusCode := 200;
        headers := json_headers;
        body := json_dumps_object1 (lit "structured_info") (str_strip text3) |},
     {| world := w4;
        trace := trace st ++
          [links_event (PStr root) d;
           llm_event (prompt_structuring []) o1;
           llm_event (prompt_relevancy (str_strip text1)) o2;
           llm_event (prompt_finalized (str_strip text2)) o3] |}).
Proof.
  intros B%request_body_website Hw Hroot E0 Hls Hnone E1 C1 E2 C2 E3 C3.
  split; [done |].
  unfold dict_get in B. rewrite Hw in B.
  rewrite (handler_runs _ _ _ _ B) by (by destruct root).
  unfold try_except, run_pipeline.
  rewrite (bind_returns _ _ _ _ _ (scrape_links_run _ _ _ _ E0)).
  assert (filter_links (links d) (PStr root) = inr []) as ->.
  { rewrite Hls. by apply filter_links_none. }
  unfold bind at 1. unfold lift at 1. unfold bind at 1. cbn [content_loop ret].
  erewrite bind_returns by (eapply llm_calling_run; [exact E1 | exact C1]).
  erewrite bind_returns by (eapply llm_calling_run; [exact E2 | exact C2]).
  erewrite bind_returns by (eapply llm_calling_run; [exact E3 | exact C3]).
  unfold ret, response_success. cbn [trace world]. by rewrite <- !app_assoc.
Qed.

(** C10. The validation tests the truthiness of the field [website] and not
    its type. When the value is there, truthy and not a string, the
    validation passes and the handler goes on to step 1, the link scrape of
    that value. The step fails before it calls the service: the constructor
    of the parameters of the scrape refuses a [url] that is no string. The
    response is the 500 response with the string of that error, not the 400
    response for a missing website, and no outbound call is made. *)
Theorem truthy_non_string_website_is_not_400 event context st items website :
  request_body event (PDict items) ->
  dict_lookup items (lit "website") = Some website ->
  truthy website = true ->
  (forall s, website <> PStr s) ->
  handler_body event st = run_pipeline website st /\
  scrape_links website st = (inl (invalid_url website), st) /\
  lambda_handler event context st
  = ({| statusCode := 500;
        headers := json_headers;
        body := json_dumps_object1 (lit "error") (exc_str (invalid_url website)) |},
     st) /\
  statusCode (lambda_handler event context st).1 <> 400 /\
  (lambda_handler event context st).1 <> response_missing_website.
Proof.
  intros B%request_body_website Hw Ht Hns.
  unfold dict_get in B. rewrite Hw in B.
  assert (lambda_handler event context st
          = (response_error (invalid_url website), st)) as E.
  { rewrite (handler_runs _ _ _ _ B Ht). unfold try_except.
    by rewrite run_pipeline_invalid. }
  split.
  { unfold handler_body, bind, lift. by rewrite B, Ht. }
  split; [by apply scrape_links_invalid |].
  split; [exact E |]. rewrite E. by split.
Qed.

End Runs.

(** ** The claims on the scripted services *)

Section Examples.

#[local] Existing Instance Scripted.services.
#[local] Existing Instance reference_decoder.

Example acme_filter :
  filter_links (Some acme_links) (PStr acme)
  = inr [acme ++ lit "/about"; acme ++ lit "/products"].
Proof. reflexivity. Qed.

Lemma success_path_witness :
  let the_headings :=
    lit "Objective:" ++ nl ++
    lit "Mission:" ++ nl ++
    lit "Vision:" ++ nl ++
    lit "Business Concept:" ++ nl ++
    lit "Target Market:" ++ nl ++
    lit "Value Proposition:" ++ nl ++
    lit "Business Name:" ++ nl ++
    lit "Products or Services they offer:" ++ nl ++
    lit "Who they currently sell to:" ++ nl ++
    lit "Top Business Goals:" ++ nl ++
    lit "Challenges:" ++ nl in
  statusCode (Scripted.handler acme_request acme_world).1 = 200 /\
  body (Scripted.handler acme_request acme_world).1
  = lit "{" ++ dq ++ lit "structured_info" ++ dq ++ lit ": "
      ++ dq ++ lit "final document" ++ dq ++ lit "}" /\
  filter (fun ev => is_chat ev = true)
    (trace (Scripted.handler acme_request acme_world).2)
  = [ChatEvent (lit "openai/gpt-oss-120b")
       [{| role := lit "user";
           content :=
             lit "You are an expert information architect." ++ nl ++
             lit "Convert the unstructured data below into structured information."
               ++ nl ++
             lit "Do not remove any information, just present it in a structured format."
               ++ nl ++ nl ++
             nl ++ nl ++ lit "--- Page: https://acme.test/about ---" ++ nl ++
             lit "About Acme" ++
             nl ++ nl ++ lit "--- Page: https://acme.test/products ---" ++ nl |}]
       (inr {| choices := [Some (lit "  structured" ++ nl)] |});
     ChatEvent (lit "openai/gpt-oss-120b")
       [{| role := lit "user";
           content :=
             lit "You are an expert business and marketing analyst specializing in B2B strategy."
               ++ nl ++
             lit "Review the following structured company information:" ++ nl ++
             lit "structured" ++ nl ++ nl ++
             lit "Extract only the information that is highly relevant for developing a B2B marketing strategy."
               ++ nl ++
             lit "Discard irrelevant or redundant details." ++ nl ++ nl ++
             lit "Return the answer in the exact format below:" ++ nl ++ nl ++
             the_headings |}]
       (inr {| choices := [Some (lit "relevant ")] |});
     ChatEvent (lit "openai/gpt-oss-120b")
       [{| role := lit "user";
           content :=
             lit "You are a professional business document formatter." ++ nl ++
             lit "Take the following input data:" ++ nl ++
             lit "relevant" ++ nl ++ nl ++
             lit "Remove any content between <think> and </think>." ++ nl ++
             lit "Present the information in a clean, professional document format."
               ++ nl ++ nl ++
             lit "Required headings (exactly as written, in this order):" ++ nl ++
             the_headings ++ nl ++
             lit "Notes:" ++ nl ++
             lit "- Include only these headings and their corresponding information."
               ++ nl ++
             lit "- If no information is available for a heading, write 'Not specified'."
               ++ nl ++
             lit "- Do not use symbols like #, **, or bullet points." ++ nl ++
             lit "- Do not add any extra commentary outside the headings." ++ nl ++
             lit "- Maintain proper spacing and readability." |}]
       (inr {| choices := [Some (nl ++ lit " final document " ++ nl)] |})].
Proof.
  cbv zeta. split; [reflexivity |]. split; [| reflexivity].
  destruct (success_path_three_llm_calls acme_request PNone
              {| world := acme_world; trace := [] |}
              (Scripted.handler acme_request acme_world).1
              (Scripted.handler acme_request acme_world).2)
    as (website & d & pages & o1 & o2 & o3 & t1 & t2 & t3
        & _ & T & _ & _ & _ & R3 & _ & _ & _ & Hplain).
  - apply surjective_pairing.
  - reflexivity.
  - apply (f_equal last) in T. cbv zeta in T.
    rewrite !last_app in T. cbn [last] in T.
    assert (last (trace (Scripted.handler acme_request acme_world).2)
            = Some (ChatEvent model_id [user_message (prompt_finalized (lit "relevant"))]
                      (inr {| choices := [Some (nl ++ lit " final document " ++ nl)] |})))
      as L by reflexivity.
    rewrite L in T. injection T as _ <-.
    destruct R3 as (text & rest & [= <- <-] & -> & _).
    apply Hplain, plain_text_check. reflexivity.
Defined.

Lemma missing_website_witness :
  Scripted.handler empty_website_request acme_world
  = (response_missing_website, {| world := acme_world; trace := [] |}).
Proof.
  apply (missing_website_is_400 empty_website_request PNone _
           [(lit "website", PStr [])]).
  - exists (PStr (website_json (dq ++ dq))). split; reflexivity.
  - right; right. reflexivity.
Defined.

(** C2, as stated, fails: a body that parses to a JSON array has no field
    [website], and the handler answers it with the 500 response for the
    attribute error of [body.get]. *)
Lemma array_body_counterexample :
  request_body array_request (PList []) /\
  lacks_website (PList []) /\
  (Scripted.handler array_request Scripted.silent).1
  = response_error (AttributeError (lit "list") "get") /\
  (Scripted.handler array_request Scripted.silent).1 <> response_missing_website.
Proof.
  split; [| split; [| split]].
  - exists (PStr (lit "[]")). split; reflexivity.
  - exact I.
  - reflexivity.
  - discriminate.
Qed.

Lemma malformed_body_witness :
  Scripted.handler malformed_request acme_world
  = (response_error (Json.JSONDecodeError "Expecting value" (lit "not json") 0),
     {| world := acme_world; trace := [] |}).
Proof.
  apply (malformed_body_is_500 malformed_request PNone).
  exists (lit "not json"). split; reflexivity.
Defined.

(** C3, as stated, fails: the body [not json] is no JSON, and the handler
    answers it with the 500 response for the decoder's exception, not with
    the 400 response for a missing website. *)
Lemma malformed_body_counterexample :
  malformed_body malformed_request
    (Json.JSONDecodeError "Expecting value" (lit "not json") 0) /\
  statusCode (Scripted.handler malformed_request Scripted.silent).1 = 500 /\
  body (Scripted.handler malformed_request Scripted.silent).1
  = json_dumps_object1 (lit "error") (lit "Expecting value: line 1 column 1 (char 0)") /\
  (Scripted.handler malformed_request Scripted.silent).1 <> response_missing_website.
Proof.
  split; [| split; [| split]].
  - exists (lit "not json"). split; reflexivity.
  - reflexivity.
  - reflexivity.
  - discriminate.
Qed.

Lemma aggregated_content_witness :
  content_loop [acme ++ lit "/about"; acme ++ lit "/products"] []
    {| world := {| Scripted.scrape_replies :=
                     [Scripted.page_reply (Some (lit "About Acme"));
                      Scripted.page_reply None];
                   Scripted.chat_replies := [] |};
       trace := [] |}
  = (inr (nl ++ nl ++ lit "--- Page: https://acme.test/about ---" ++ nl
             ++ lit "About Acme"
             ++ nl ++ nl ++ lit "--- Page: https://acme.test/products ---" ++ nl),
     {| world := Scripted.silent;
        trace := [page_event (acme ++ lit "/about",
                              {| links := None; markdown := Some (lit "About Acme") |});
                  page_event (acme ++ lit "/products",
                              {| links := None; markdown := None |})] |}).
Proof.
  refine (proj1 (aggregated_content_is_concatenation _ _
                   [(acme ++ lit "/about",
                     {| links := None; markdown := Some (lit "About Acme") |});
                    (acme ++ lit "/products", {| links := None; markdown := None |})]
                   Scripted.silent _)).
  eapply fetched_cons; [reflexivity |].
  eapply fetched_cons; [reflexivity |].
  apply fetched_nil.
Defined.


Lemma no_body_key_witness :
  py_get (PDict []) (lit "body") (PStr (lit "{}")) = inr (PStr (lit "{}")) /\
  Scripted.handler (PDict []) acme_world
  = (response_missing_website, {| world := acme_world; trace := [] |}) /\
  statusCode response_missing_website = 400.
Proof.
  apply (no_body_key_is_400 [] PNone {| world := acme_world; trace := [] |});
    reflexivity.
Defined.

Lemma no_filtered_links_witness :
  content_loop [] [] {| world := elsewhere_world; trace := [] |}
  = (inr [], {| world := elsewhere_world; trace := [] |}) /\
  Scripted.handler acme_request elsewhere_world
  = (response_success (lit "final document"),
     {| world := Scripted.silent;
        trace :=
          [links_event (PStr acme)
             {| links := Some [lit "https://other.test/x"]; markdown := None |};
           llm_event (prompt_structuring [])
             {| choices := [Some (lit "  structured" ++ nl)] |};
           llm_event (prompt_relevancy (lit "structured"))
             {| choices := [Some (lit "relevant ")] |};
           llm_event (prompt_finalized (lit "relevant"))
             {| choices := [Some (nl ++ lit " final document " ++ nl)] |}] |}).
Proof.
  refine (no_filtered_links_still_runs acme_request PNone
            {| world := elsewhere_world; trace := [] |}
            [(lit "website", PStr acme)] acme
            {| links := Some [lit "https://other.test/x"]; markdown := None |}
            [lit "https://other.test/x"]
            _ _ (lit "  structured" ++ nl) [] _ _ (lit "relevant ") []
            _ _ (nl ++ lit " final document " ++ nl) [] Scripted.silent
            _ _ _ _ _ _ _ _ _ _ _ _).
  - exists (PStr (website_json (dq ++ acme ++ dq))). split; reflexivity.
  - reflexivity.
  - discriminate.
  - reflexivity.
  - reflexivity.
  - intros l ->%list_elem_of_singleton P%str_startswith_prefix. discriminate P.
  - reflexivity.
  - reflexivity.
  - reflexivity.
  - reflexivity.
  - reflexivity.
  - reflexivity.
Defined.

Lemma non_string_website_witness :
  Scripted.handler number_request acme_world
  = (response_error Scripted.url_refused, {| world := acme_world; trace := [] |}) /\
  statusCode (Scripted.handler number_request acme_world).1 <> 400.
Proof.
  destruct (truthy_non_string_website_is_not_400 number_request PNone
              {| world := acme_world; trace := [] |}
              [(lit "website", PInt 5)] (PInt 5))
    as (_ & _ & E & N & _).
  - exists (PStr (website_json (lit "5"))). split; reflexivity.
  - reflexivity.
  - reflexivity.
  - intros s. discriminate.
  - split; [exact E | exact N].
Defined.

End Examples.


(** ** The calls of a run *)

Lemma calls_made_app {W} (st st' : state W) new :
  trace st' = trace st ++ new -> calls_made st st' = new.
Proof. intros T. unfold calls_made. by rewrite T, drop_app_length. Qed.

Section Traces.

Context {decoder : JsonDecoder} {W : Type} {services : Services W}.

Implicit Types (st : state W) (e : exn) (website : pyval) (link : pystr).

Lemma scrape_links_filter_run root st r st' :
  bind (scrape_links (PStr root)) (fun ls => lift (filter_links ls (PStr root))) st
  = (r, st') ->
  exists r0,
    trace st' = trace st ++ [ScrapeEvent (links_params (PStr root)) r0] /\
    r = links_outcome (PStr root) r0.
Proof.
  change (scrape_links (PStr root))
    with (bind (scrape_call (links_params (PStr root)))
            (fun result => lift (data_attr result "links" links))).
  intros [(e & E & ->)|(ls & s1 & E & K)]%bind_inv.
  - apply bind_inv in E as [(e' & E & [= <-])|(r1 & s1 & E & L)].
    + apply scrape_call_inv in E as [_ T]. by exists (inl e).
    + apply scrape_call_inv in E as [_ T]. apply lift_inv in L as [L ->].
      exists (inr r1). split; [done |]. unfold links_outcome. by rewrite <- L.
  - apply bind_inv in E as [(e' & E & [=])|(r1 & s0 & E & L)].
    apply scrape_call_inv in E as [_ T]. apply lift_inv in L as [L ->].
    apply lift_inv in K as [-> ->].
    exists (inr r1). split; [done |]. unfold links_outcome. by rewrite <- L.
Qed.

Lemma scrape_page_content_run_any link st r st' :
  scrape_page_content link st = (r, st') ->
  exists r0,
    trace st' = trace st ++ [ScrapeEvent (markdown_params link) r0] /\
    r = page_outcome r0.
Proof.
  rewrite scrape_page_content_eq.
  intros [(e & E & ->)|(r1 & s1 & E & K)]%bind_inv.
  - apply scrape_call_inv in E as [_ T]. by exists (inl e).
  - apply scrape_call_inv in E as [_ T]. exists (inr r1). split.
    + apply bind_inv in K as [(e & K & ->)|(md & s2 & K & R)].
      * by apply lift_inv in K as [_ ->].
      * apply lift_inv in K as [_ ->]. by injection R as _ <-.
    + unfold page_outcome.
      apply bind_inv in K as [(e & K & ->)|(md & s2 & K & R)];
        apply lift_inv in K as [K _]; rewrite <- K; [done |].
      by injection R as <- _.
Qed.

Lemma llm_calling_run_any prompt st r st' :
  llm_calling prompt st = (r, st') ->
  exists r0,
    trace st' = trace st ++ [ChatEvent model_id [user_message prompt] r0] /\
    r = chat_outcome r0.
Proof.
  unfold llm_calling.
  intros [(e & E & ->)|(o & s1 & E & K)]%bind_inv.
  - apply chat_call_inv in E as [_ T]. by exists (inl e).
  - apply chat_call_inv in E as [_ T]. apply lift_inv in K as [-> ->].
    by exists (inr o).
Qed.

Lemma content_loop_trace links st all_content r st' :
  content_loop links all_content st = (r, st') ->
  exists calls,
    trace st' = trace st ++ calls /\ pages_trace links all_content calls r.
Proof.
  revert st all_content. induction links as [|link links IH]; intros st all_content.
  - intros [= <- <-]. exists []. split; [by rewrite app_nil_r | constructor].
  - cbn [content_loop]. intros [(e & E & ->)|(text & s1 & E & K)]%bind_inv.
    + apply scrape_page_content_run_any in E as (r0 & T & Hr).
      exists [ScrapeEvent (markdown_params link) r0]. split; [done |].
      by apply pages_fail.
    + apply scrape_page_content_run_any in E as (r0 & T & Hr).
      apply IH in K as (calls & T' & P).
      exists (ScrapeEvent (markdown_params link) r0 :: calls).
      split; [by rewrite T', T, <- app_assoc |]. by eapply pages_step.
Qed.

Lemma llm_chain_trace all_content st r st' :
  bind (llm_calling (prompt_structuring all_content)) (fun structured_info =>
    bind (llm_calling (prompt_relevancy structured_info)) (fun relevant_info =>
      bind (llm_calling (prompt_finalized relevant_info)) (fun finalized_output =>
        ret (response_success finalized_output)))) st = (r, st') ->
  exists calls out,
    trace st' = trace st ++ calls /\
    chat_trace [prompt_structuring; prompt_relevancy; prompt_finalized]
      all_content calls out /\
    r = match out with
        | inl e => inl e
        | inr finalized_output => inr (response_success finalized_output)
        end.
Proof.
  intros [(e & E & ->)|(t1 & s1 & E1 & K)]%bind_inv.
  { apply llm_calling_run_any in E as (r0 & T & Hr).
    eexists _, (inl e). split; [done |]. split; [by apply chat_fail | done]. }
  apply llm_calling_run_any in E1 as (r1 & T1 & Hr1).
  apply bind_inv in K as [(e & E & ->)|(t2 & s2 & E2 & K)].
  { apply llm_calling_run_any in E as (r0 & T & Hr).
    eexists _, (inl e). split; [by rewrite T, T1, <- app_assoc |].
    split; [| done]. eapply chat_step; [done |]. by apply chat_fail. }
  apply llm_calling_run_any in E2 as (r2 & T2 & Hr2).
  apply bind_inv in K as [(e & E & ->)|(t3 & s3 & E3 & K)].
  { apply llm_calling_run_any in E as (r0 & T & Hr).
    eexists _, (inl e). split; [by rewrite T, T2, T1, <- !app_assoc |].
    split; [| done]. eapply chat_step; [done |]. eapply chat_step; [done |].
    by apply chat_fail. }
  apply llm_calling_run_any in E3 as (r3 & T3 & Hr3). injection K as <- <-.
  eexists _, (inr t3). split; [by rewrite T3, T2, T1, <- !app_assoc |].
  split; [| done]. do 3 (eapply chat_step; [done |]). constructor.
Qed.

(** Every run of steps 1 to 5 makes the calls of a pipeline trace. *)
Lemma run_pipeline_trace root st r st' :
  run_pipeline (PStr root) st = (r, st') ->
  exists calls,
    trace st' = trace st ++ calls /\ pipeline_trace (PStr root) calls r.
Proof.
  unfold run_pipeline. intros E.
  assert (forall {A B C} (m : M (state W) A) (f : A -> M (state W) B)
                 (g : B -> M (state W) C) s,
            bind m (fun a => bind (f a) g) s = bind (bind m f) g s) as Assoc.
  { intros A B C m f g s. unfold bind. by destruct (m s) as [[?|?] ?]. }
  rewrite Assoc in E.
  apply bind_inv in E as [(e & E & ->)|(kept & s1 & E & K)].
  - apply scrape_links_filter_run in E as (r0 & T & Hr).
    exists [ScrapeEvent (links_params (PStr root)) r0]. split; [done |].
    exists r0, [], []. split; [done |]. by rewrite <- Hr.
  - apply scrape_links_filter_run in E as (r0 & T & Hr).
    apply bind_inv in K as [(e & K & ->)|(all_content & s2 & K & L)].
    + apply content_loop_trace in K as (pages & T' & P).
      exists (ScrapeEvent (links_params (PStr root)) r0 :: pages).
      split; [by rewrite T', T, <- app_assoc |].
      exists r0, pages, []. split; [by rewrite app_nil_r |].
      rewrite <- Hr. by exists (inl e).
    + apply content_loop_trace in K as (pages & T' & P).
      apply llm_chain_trace in L as (chats & out & T'' & C & ->).
      exists (ScrapeEvent (links_params (PStr root)) r0 :: pages ++ chats).
      split; [by rewrite T'', T', T, <- !app_assoc |].
      exists r0, pages, chats. split; [done |].
      rewrite <- Hr. exists (inr all_content). split; [done |]. by exists out.
Qed.

(** Every run of the handler makes the calls of a handler trace, and no
    others. *)
Lemma lambda_handler_trace event context st :
  trace (lambda_handler event context st).2
  = trace st ++ calls_made st (lambda_handler event context st).2 /\
  handler_trace event (calls_made st (lambda_handler event context st).2)
    (lambda_handler event context st).1.
Proof.
  unfold handler_trace.
  destruct (request_website event) as [e|website] eqn:E.
  - rewrite (handler_rejects _ _ _ _ E). cbn [fst snd].
    rewrite (calls_made_app st st []) by (by rewrite app_nil_r).
    by rewrite app_nil_r.
  - destruct (truthy website) eqn:Ht.
    + rewrite (handler_runs _ _ _ _ E Ht). unfold try_except.
      destruct (StartScrapeJobParams_init website [FormatLinks]) as [e|params] eqn:V.
      { assert (forall s, website <> PStr s) as Hn by (intros s ->; discriminate V).
        rewrite (run_pipeline_invalid _ _ Hn). cbn [fst snd].
        rewrite (calls_made_app st st []) by (by rewrite app_nil_r).
        rewrite app_nil_r. split; [done |]. split; [done |].
        destruct website; try done; by injection V as <-. }
      assert (exists root, website = PStr root) as [root ->]
        by (destruct website; try done; by eexists).
      destruct (run_pipeline (PStr root) st) as [r s] eqn:R.
      apply run_pipeline_trace in R as (calls & T & P).
      assert ((match r with
               | inl e => (response_error e, s)
               | inr a => (a, s)
               end).2 = s) as -> by (by destruct r).
      rewrite (calls_made_app _ _ _ T). split; [done |].
      exists r. split; [done |]. by destruct r.
    + rewrite (handler_missing _ _ _ _ E Ht). cbn [fst snd].
      rewrite (calls_made_app st st []) by (by rewrite app_nil_r).
      by rewrite app_nil_r.
Qed.

(** *** What the traces show *)

Lemma page_outcome_returned r text :
  page_outcome r = inr text -> exists response, r = inr response.
Proof. destruct r; [done | by eexists]. Qed.

Lemma chat_outcome_returned r t :
  chat_outcome r = inr t -> exists response, r = inr response.
Proof. destruct r; [done | by eexists]. Qed.

Lemma pages_trace_scrapes links acc calls out :
  pages_trace links acc calls out ->
  Forall (fun ev => is_chat ev = false) calls /\
  Forall2 (fun ev link => scrape_request ev = Some (markdown_params link))
    calls (take (length calls) links) /\
  (forall text, out = inr text ->
     Forall returned calls /\ length calls = length links).
Proof.
  induction 1 as [acc|link rest acc r e Hr|link rest acc r text evs out Hr _ IH].
  - split; [constructor | split; [constructor | done]].
  - split; [by repeat constructor | split; [by repeat constructor | done]].
  - destruct IH as (C & F & R). split; [by constructor |]. split.
    + cbn [length take]. by constructor.
    + intros t ->. destruct (R t eq_refl) as [Hret Hlen].
      apply page_outcome_returned in Hr as [response ->].
      split; [by constructor | simpl; by rewrite Hlen].
Qed.

Lemma pages_trace_settled links acc calls out i ev :
  pages_trace links acc calls out ->
  calls !! i = Some ev ->
  (S i < length calls)%nat -> returned ev.
Proof.
  intros P. revert i.
  induction P as [acc|link rest acc r e Hr|link rest acc r text evs out Hr _ IH];
    intros i Hi Hlt.
  - done.
  - simpl in Hlt. lia.
  - destruct i as [|i].
    + injection Hi as <-. by apply page_outcome_returned in Hr as [response ->].
    + apply (IH i); [done | simpl in Hlt; lia].
Qed.

Lemma pages_trace_link links acc calls out p r :
  pages_trace links acc calls out ->
  ScrapeEvent p r ∈ calls ->
  exists link, link ∈ links /\ p = markdown_params link /\
    forall e, page_outcome r = inl e -> out = inl e.
Proof.
  induction 1 as [acc|link rest acc r0 e Hr|link rest acc r0 text evs out Hr _ IH].
  - by intros ?%elem_of_nil.
  - intros [= -> ->]%list_elem_of_singleton. exists link.
    split; [left | split; [done |]]. intros e' He'. congruence.
  - intros [[= -> ->]|Hin]%elem_of_cons.
    + exists link. split; [left | split; [done |]]. intros e' He'. congruence.
    + destruct (IH Hin) as (l & Hl & Hp & He). exists l. split; [by right | done].
Qed.

Lemma chat_trace_chats builds input calls out :
  chat_trace builds input calls out ->
  Forall (fun ev => is_chat ev = true) calls /\
  (length calls <= length builds)%nat /\
  Forall (fun ev =>
            exists build payload r,
              build ∈ builds /\
              ev = ChatEvent model_id [user_message (build payload)] r /\
              forall e, chat_outcome r = inl e -> out = inl e) calls /\
  (forall t, out = inr t -> Forall returned calls /\ length calls = length builds).
Proof.
  induction 1 as [input|build rest input r e Hr|build rest input r t evs out Hr _ IH].
  - split; [constructor | split; [done | split; [constructor | done]]].
  - split; [by repeat constructor | split; [simpl; lia | split; [| done]]].
    repeat constructor.
    exists build, input, r. split; [left | split; [done |]]. intros e' He'. congruence.
  - destruct IH as (C & L & F & R). split; [by constructor |].
    split; [simpl; lia |]. split; [constructor |].
    + exists build, input, r. split; [left | split; [done |]].
      intros e' He'. congruence.
    + eapply Forall_impl; [exact F |].
      intros ev (b & payload & r' & Hb & -> & He). exists b, payload, r'.
      split; [by right | done].
    + intros t' ->. destruct (R t' eq_refl) as [Hret Hlen].
      apply chat_outcome_returned in Hr as [response ->].
      split; [by constructor | simpl; by rewrite Hlen].
Qed.

Lemma chat_trace_settled builds input calls out i ev :
  chat_trace builds input calls out ->
  calls !! i = Some ev ->
  (S i < length calls)%nat -> returned ev.
Proof.
  intros C. revert i.
  induction C as [input|build rest input r e Hr|build rest input r t evs out Hr _ IH];
    intros i Hi Hlt.
  - done.
  - simpl in Hlt. lia.
  - destruct i as [|i].
    + injection Hi as <-. by apply chat_outcome_returned in Hr as [response ->].
    + apply (IH i); [done | simpl in Hlt; lia].
Qed.

Lemma links_outcome_returned website r kept :
  links_outcome website r = inr kept ->
  exists d, r = inr {| data := Some d |} /\ filter_links (links d) website = inr kept.
Proof.
  destruct r as [e|[[d|]]]; try done. intros E. by exists d.
Qed.

Lemma pipeline_trace_order website calls r :
  pipeline_trace website calls r ->
  exists scrapes chats,
    calls = scrapes ++ chats /\
    Forall (fun ev => is_chat ev = false) scrapes /\
    Forall (fun ev => is_chat ev = true) chats /\
    (length chats <= 3)%nat /\
    (chats <> [] -> Forall returned scrapes).
Proof.
  intros (r0 & pages & chats & -> & H).
  exists (ScrapeEvent (links_params website) r0 :: pages), chats.
  split; [done |].
  destruct (links_outcome website r0) as [e|kept] eqn:L.
  { destruct H as (-> & -> & _). repeat split; by repeat constructor. }
  apply links_outcome_returned in L as (d & -> & _).
  destruct H as (content & P & H).
  apply pages_trace_scrapes in P as (C & _ & R).
  split; [by constructor |].
  destruct content as [e|all_content].
  { destruct H as (-> & _). repeat split; [constructor | simpl; lia | done]. }
  destruct H as (out & Ch & _).
  apply chat_trace_chats in Ch as (Cc & Lc & _).
  split; [done |]. split; [done |]. intros _.
  constructor; [done |]. by apply (R all_content).
Qed.

(** X1. Every response has the JSON content type and one of the status
    codes 200, 400 and 500; the body has the key [structured_info] with
    200 and the key [error] with 400 and 500. *)
Theorem status_goes_with_body event context st :
  let resp := (lambda_handler event context st).1 in
  headers resp = [(lit "Content-Type", lit "application/json")] /\
  (statusCode resp = 200 /\ object_with_key "structured_info" (body resp) \/
   (statusCode resp = 400 \/ statusCode resp = 500) /\
   object_with_key "error" (body resp)).
Proof.
  intros resp.
  destruct (handler_response event context st) as [E|[[t E]|[e E]]];
    fold resp in E; rewrite E; (split; [done |]).
  - right. split; [by left | by eexists].
  - left. split; [done | by eexists].
  - right. split; [by right | by eexists].
Qed.

(** X2. A website that is there and falsy without being a string, the
    number zero, [false], an empty array or an empty object, is refused like
    a missing one: the 400 response, and no outbound call. *)
Theorem falsy_website_is_400 event context st items v :
  request_body event (PDict items) ->
  dict_lookup items (lit "website") = Some v ->
  v = PInt 0 \/ v = PBool false \/ (exists sign, v = PFloat (S754_zero sign)) \/
  v = PList [] \/ v = PDict [] ->
  lambda_handler event context st
  = ({| statusCode := 400;
        headers := json_headers;
        body := json_dumps_object1 (lit "error")
                  (lit "Missing 'website' in request body") |}, st).
Proof.
  intros B%request_body_website Hv Hf.
  apply (handler_missing _ _ _ _ B). unfold dict_get. rewrite Hv.
  by destruct Hf as [->|[->|[[sign ->]|[->| ->]]]].
Qed.

Lemma request_website_inv event website :
  request_website event = inr website ->
  exists items,
    request_body event (PDict items) /\
    website = dict_get items (lit "website") PNone.
Proof.
  unfold request_website, request_body.
  destruct (py_get event (lit "body") (PStr (lit "{}"))) as [e|raw] eqn:E1; [done |].
  destruct (json_loads raw) as [e|parsed] eqn:E2; [done |].
  destruct parsed; try done. intros [= <-]. eexists. split; [by exists raw | done].
Qed.

(** X3. The 400 response comes from the validation alone: whenever the
    handler answers 400, the body of the request parsed to an object whose
    website is missing or falsy, and no outbound call was made. *)
Theorem status_400_is_the_validation event context st resp st' :
  lambda_handler event context st = (resp, st') ->
  statusCode resp = 400 ->
  st' = st /\
  exists items,
    request_body event (PDict items) /\
    truthy (dict_get items (lit "website") PNone) = false.
Proof.
  intros E Hcode.
  destruct (request_website event) as [e|website] eqn:Q.
  { rewrite (handler_rejects _ _ _ _ Q) in E. by injection E as <- <-. }
  destruct (truthy website) eqn:Ht.
  - rewrite (handler_runs _ _ _ _ Q Ht) in E. unfold try_except in E.
    destruct (run_pipeline website st) as [[e|resp0] s] eqn:R.
    + by injection E as <- <-.
    + injection E as -> ->.
      apply run_pipeline_inr in R as (? & ? & ? & ? & ? & ? & ? & ? & R).
      by destruct R as (_ & _ & _ & _ & _ & ->).
  - rewrite (handler_missing _ _ _ _ Q Ht) in E. injection E as <- <-.
    split; [done |]. apply request_website_inv in Q as (items & B & ->).
    by exists items.
Qed.

(** X4. A request whose body is there and is no string, as the null body of
    a request without payload, gets the 500 response with the type error of
    [json.loads], and no outbound call. *)
Theorem non_string_body_is_500 event_items context st raw :
  dict_lookup event_items (lit "body") = Some raw ->
  (forall s, raw <> PStr s) ->
  lambda_handler (PDict event_items) context st
  = ({| statusCode := 500;
        headers := json_headers;
        body := json_dumps_object1 (lit "error")
                  (lit "the JSON object must be str, bytes or bytearray, not "
                     ++ type_name raw) |}, st).
Proof.
  intros Hb Hraw.
  rewrite (handler_rejects _ _ _
             (TypeError (lit "the JSON object must be str, bytes or bytearray, not "
                           ++ type_name raw))); [reflexivity |].
  unfold request_website, py_get, dict_get. rewrite Hb.
  destruct raw; try reflexivity. by destruct (Hraw s).
Qed.

(** X5. A body that parses to a JSON value that is no object gets the 500
    response with the attribute error of [body.get], and no outbound call. *)
Theorem non_object_body_is_500 event context st parsed :
  request_body event parsed ->
  (forall items, parsed <> PDict items) ->
  lambda_handler event context st
  = ({| statusCode := 500;
        headers := json_headers;
        body := json_dumps_object1 (lit "error")
                  (lit "'" ++ type_name parsed
                     ++ lit "' object has no attribute 'get'") |}, st).
Proof.
  intros (raw & E1 & E2) Hp.
  rewrite (handler_rejects _ _ _ (AttributeError (type_name parsed) "get")).
  - unfold response_error, AttributeError. cbn [exc_str]. do 3 f_equal.
  - unfold request_website. rewrite E1, E2.
    destruct parsed; try reflexivity. by destruct (Hp items).
Qed.

(** X6. In every run the scrape calls come before the model calls, there
    are at most three model calls, and the model is called only when every
    scrape returned. *)
Theorem scrapes_come_before_model_calls event context st :
  exists scrapes chats,
    calls_made st (lambda_handler event context st).2 = scrapes ++ chats /\
    Forall (fun ev => is_chat ev = false) scrapes /\
    Forall (fun ev => is_chat ev = true) chats /\
    (length chats <= 3)%nat /\
    (chats <> [] -> Forall returned scrapes).
Proof.
  destruct (lambda_handler_trace event context st) as [_ H].
  unfold handler_trace in H.
  assert (calls_made st (lambda_handler event context st).2 = [] ->
          exists scrapes chats,
            calls_made st (lambda_handler event context st).2 = scrapes ++ chats /\
            Forall (fun ev => is_chat ev = false) scrapes /\
            Forall (fun ev => is_chat ev = true) chats /\
            (length chats <= 3)%nat /\
            (chats <> [] -> Forall returned scrapes)) as Empty.
  { intros ->. exists [], []. repeat split; try constructor. simpl. lia. }
  destruct (request_website event) as [e|website]; [by apply Empty, H |].
  destruct (truthy website); [| by apply Empty, H].
  destruct (StartScrapeJobParams_init website [FormatLinks]); [by apply Empty, H |].
  destruct H as (r & P & _). by apply pipeline_trace_order in P.
Qed.

Lemma pipeline_trace_settled website calls r i ev :
  pipeline_trace website calls r ->
  calls !! i = Some ev ->
  (S i < length calls)%nat -> returned ev.
Proof.
  intros (r0 & pages & chats & -> & H) Hi Hlt.
  destruct (links_outcome website r0) as [e|kept] eqn:L.
  { destruct H as (-> & -> & _). simpl in Hlt. lia. }
  apply links_outcome_returned in L as (d & -> & _).
  destruct i as [|i]; [by injection Hi as <- |].
  change ((pages ++ chats) !! i = Some ev) in Hi.
  cbn [length] in Hlt. rewrite length_app in Hlt.
  destruct H as (content & P & H).
  destruct (decide (i < length pages)%nat) as [Hp|Hp].
  - rewrite lookup_app_l in Hi by done.
    destruct content as [e|all_content].
    + destruct H as (-> & _). simpl in Hlt.
      apply (pages_trace_settled _ _ _ _ _ _ P Hi). lia.
    + apply pages_trace_scrapes in P as (_ & _ & R).
      destruct (R all_content eq_refl) as [Hret _].
      by apply (proj1 (Forall_lookup _ _) Hret i).
  - rewrite lookup_app_r in Hi by lia.
    destruct content as [e|all_content].
    + destruct H as (-> & _). by rewrite lookup_nil in Hi.
    + destruct H as (out & C & _).
      apply (chat_trace_settled _ _ _ _ _ _ C Hi). lia.
Qed.

(** X7. There is no retry and nothing after a failure: an outbound call
    that raised is the last call of the run, and every call before it
    returned. *)
Theorem failing_call_is_last event context st pre ev post e :
  calls_made st (lambda_handler event context st).2 = pre ++ ev :: post ->
  raised ev = Some e ->
  post = [] /\ Forall returned pre.
Proof.
  intros Hc Hr.
  destruct (lambda_handler_trace event context st) as [_ H].
  unfold handler_trace in H. rewrite Hc in H.
  assert (exists website r, pipeline_trace website (pre ++ ev :: post) r)
    as (website & r & P).
  { destruct (request_website event) as [e'|website].
    - destruct H as [H _]. by destruct pre.
    - destruct (truthy website).
      + destruct (StartScrapeJobParams_init website [FormatLinks]).
        * destruct H as [H _]. by destruct pre.
        * destruct H as (r & P & _). by exists website, r.
      + destruct H as [H _]. by destruct pre. }
  split.
  - destruct post as [|ev' post]; [done |].
    assert (returned ev) as Hret.
    { apply (pipeline_trace_settled _ _ _ (length pre) _ P).
      - by rewrite list_lookup_middle.
      - rewrite length_app. simpl. lia. }
    unfold returned in Hret. congruence.
  - apply Forall_lookup. intros j x Hj.
    apply (pipeline_trace_settled _ _ _ j _ P).
    + by rewrite lookup_app_l by (by eapply lookup_lt_Some).
    + apply lookup_lt_Some in Hj. rewrite length_app. simpl. lia.
Qed.

Lemma pages_trace_requests links acc calls out :
  pages_trace links acc calls out ->
  Forall (fun ev => exists link r, link ∈ links /\ ev = ScrapeEvent (markdown_params link) r)
    calls.
Proof.
  induction 1 as [acc|link rest acc r e Hr|link rest acc r text evs out Hr _ IH].
  - constructor.
  - repeat constructor. exists link, r. split; [left | done].
  - constructor; [exists link, r; split; [left | done] |].
    eapply Forall_impl; [exact IH |].
    intros ev (l & r' & Hl & ->). exists l, r'. split; [by right | done].
Qed.

Lemma string_website_trace event context st items root :
  request_body event (PDict items) ->
  dict_lookup items (lit "website") = Some (PStr root) ->
  root <> [] ->
  exists r,
    pipeline_trace (PStr root) (calls_made st (lambda_handler event context st).2) r.
Proof.
  intros B%request_body_website Hw Hne.
  unfold dict_get in B. rewrite Hw in B.
  destruct (lambda_handler_trace event context st) as [_ H].
  unfold handler_trace in H. rewrite B in H.
  destruct root as [|c root]; [done |]. cbn [truthy StartScrapeJobParams_init] in H.
  destruct H as (r & P & _). by exists r.
Qed.

(** X8. When the website of the request is a non-empty string, the first
    outbound call is the link scrape of that string, with the format
    [links] and main content only, and no later call asks for links
    again. *)
Theorem link_scrape_is_first_and_only event context st items root :
  request_body event (PDict items) ->
  dict_lookup items (lit "website") = Some (PStr root) ->
  root <> [] ->
  exists r rest,
    calls_made st (lambda_handler event context st).2
    = ScrapeEvent {| url := PStr root; formats := [FormatLinks];
                     only_main_content := true |} r :: rest /\
    Forall (fun ev => forall p, scrape_request ev = Some p ->
                        formats p = [FormatMarkdown]) rest.
Proof.
  intros B Hw Hne.
  destruct (string_website_trace _ context st _ _ B Hw Hne)
    as (r & r0 & pages & chats & -> & H).
  exists r0, (pages ++ chats). split; [done |].
  destruct (links_outcome (PStr root) r0) as [e|kept].
  { destruct H as (-> & -> & _). constructor. }
  destruct H as (content & P & H). apply Forall_app. split.
  - apply pages_trace_requests in P. eapply Forall_impl; [exact P |].
    intros ev (l & r' & _ & ->) p [= <-]. done.
  - destruct content as [e|all_content]; [destruct H as (-> & _); constructor |].
    destruct H as (out & C & _). apply chat_trace_chats in C as (C & _).
    eapply Forall_impl; [exact C |]. by intros [] ? ?.
Qed.

Lemma filter_loop_non_string links website kept out :
  (forall s, website <> PStr s) ->
  filter_loop links website kept = inr out -> links = [] /\ out = kept.
Proof.
  intros Hns. destruct links as [|link rest]; [by intros [= ->] |].
  cbn [filter_loop]. destruct website; try done. by destruct (Hns s).
Qed.

Lemma filter_links_inr ls website kept link :
  filter_links ls website = inr kept -> link ∈ kept ->
  exists root links,
    website = PStr root /\ ls = Some links /\ link ∈ links /\ root `prefix_of` link.
Proof.
  destruct ls as [links|]; [| done]. cbn [filter_links]. intros F Hin.
  destruct website as [| | | |root| |];
    try (apply filter_loop_non_string in F as [_ ->]; [by apply elem_of_nil in Hin | done]).
  rewrite filter_loop_filter in F. injection F as <-.
  apply list_elem_of_filter in Hin as [Hp Hin]. by exists root, links.
Qed.

Lemma truthy_string_lookup items root :
  dict_get items (lit "website") PNone = PStr root ->
  dict_lookup items (lit "website") = Some (PStr root).
Proof.
  unfold dict_get. destruct (dict_lookup items (lit "website")) as [v|]; [by intros -> | done].
Qed.

(** X9. The handler never fetches a page off the site: every page scrape
    of a run is for a link that the link scrape returned and that starts
    with the website of the request, which is then a string. *)
Theorem page_scrapes_stay_on_site event context st p r :
  ScrapeEvent p r ∈ calls_made st (lambda_handler event context st).2 ->
  formats p = [FormatMarkdown] ->
  exists items root d found link rest,
    request_body event (PDict items) /\
    dict_lookup items (lit "website") = Some (PStr root) /\
    calls_made st (lambda_handler event context st).2
    = links_event (PStr root) d :: rest /\
    links d = Some found /\
    link ∈ found /\
    root `prefix_of` link /\
    p = {| url := PStr link; formats := [FormatMarkdown]; only_main_content := true |}.
Proof.
  intros Hin Hf.
  destruct (lambda_handler_trace event context st) as [_ H].
  unfold handler_trace in H.
  destruct (request_website event) as [e|website] eqn:Q.
  { destruct H as [H _]. rewrite H in Hin. by apply elem_of_nil in Hin. }
  destruct (truthy website) eqn:Ht; cycle 1.
  { destruct H as [H _]. rewrite H in Hin. by apply elem_of_nil in Hin. }
  destruct (StartScrapeJobParams_init website [FormatLinks]).
  { destruct H as [H _]. rewrite H in Hin. by apply elem_of_nil in Hin. }
  destruct H as (r1 & (r0 & pages & chats & Hc & H) & _).
  rewrite Hc in Hin. rewrite Hc.
  apply elem_of_cons in Hin as [[= -> ->]|Hin]; [done |].
  destruct (links_outcome website r0) as [e|kept] eqn:L.
  { destruct H as (-> & -> & _). by apply elem_of_nil in Hin. }
  apply links_outcome_returned in L as (d & -> & F).
  destruct H as (content & P & H).
  apply elem_of_app in Hin as [Hin|Hin]; cycle 1.
  { destruct content as [e|all_content].
    - destruct H as (-> & _). by apply elem_of_nil in Hin.
    - destruct H as (out & C & _). apply chat_trace_chats in C as (C & _).
      by apply (proj1 (Forall_forall _ _) C) in Hin. }
  destruct (pages_trace_link _ _ _ _ _ _ P Hin) as (link & Hl & -> & _).
  destruct (filter_links_inr _ _ _ _ F Hl) as (root & found & -> & Hd & Hfound & Hpre).
  apply request_website_inv in Q as (items & B & Hw).
  exists items, root, d, found, link, (pages ++ chats).
  split; [done |]. split; [by apply truthy_string_lookup |]. done.
Qed.


(** X11. Every model call of a run, whether the run succeeds or not, is
    for the model [openai/gpt-oss-120b] and sends one message, of role
    user, whose content is one of the three templates. *)
Theorem model_calls_have_one_shape event context st model messages r :
  ChatEvent model messages r ∈ calls_made st (lambda_handler event context st).2 ->
  model = lit "openai/gpt-oss-120b" /\
  exists prompt payload,
    messages = [{| role := lit "user"; content := prompt |}] /\
    (prompt = prompt_structuring payload \/
     prompt = prompt_relevancy payload \/
     prompt = prompt_finalized payload).
Proof.
  intros Hin.
  destruct (lambda_handler_trace event context st) as [_ H].
  unfold handler_trace in H.
  destruct (request_website event) as [e|website].
  { destruct H as [H _]. rewrite H in Hin. by apply elem_of_nil in Hin. }
  destruct (truthy website); cycle 1.
  { destruct H as [H _]. rewrite H in Hin. by apply elem_of_nil in Hin. }
  destruct (StartScrapeJobParams_init website [FormatLinks]).
  { destruct H as [H _]. rewrite H in Hin. by apply elem_of_nil in Hin. }
  destruct H as (r1 & (r0 & pages & chats & Hc & H) & _).
  rewrite Hc in Hin. apply elem_of_cons in Hin as [[=]|Hin].
  destruct (links_outcome website r0) as [e|kept].
  { destruct H as (-> & -> & _). by apply elem_of_nil in Hin. }
  destruct H as (content & P & H).
  apply elem_of_app in Hin as [Hin|Hin].
  { apply pages_trace_scrapes in P as (P & _).
    by apply (proj1 (Forall_forall _ _) P) in Hin. }
  destruct content as [e|all_content].
  { destruct H as (-> & _). by apply elem_of_nil in Hin. }
  destruct H as (out & C & _). apply chat_trace_chats in C as (_ & _ & C & _).
  apply (proj1 (Forall_forall _ _) C) in Hin
    as (build & payload & r' & Hb & [= -> -> ->] & _).
  split; [done |]. exists (build payload), payload. split; [done |].
  apply elem_of_cons in Hb as [->|Hb]; [by left |].
  apply elem_of_cons in Hb as [->|Hb]; [by right; left |].
  apply list_elem_of_singleton in Hb as ->. by right; right.
Qed.

(** X12. Every scrape call of a run asks for the main content only and
    for one format, [links] or [markdown]. *)
Theorem scrape_calls_have_one_shape event context st p r :
  ScrapeEvent p r ∈ calls_made st (lambda_handler event context st).2 ->
  only_main_content p = true /\
  (formats p = [FormatLinks] \/ formats p = [FormatMarkdown]).
Proof.
  intros Hin.
  destruct (lambda_handler_trace event context st) as [_ H].
  unfold handler_trace in H.
  destruct (request_website event) as [e|website].
  { destruct H as [H _]. rewrite H in Hin. by apply elem_of_nil in Hin. }
  destruct (truthy website); cycle 1.
  { destruct H as [H _]. rewrite H in Hin. by apply elem_of_nil in Hin. }
  destruct (StartScrapeJobParams_init website [FormatLinks]).
  { destruct H as [H _]. rewrite H in Hin. by apply elem_of_nil in Hin. }
  destruct H as (r1 & (r0 & pages & chats & Hc & H) & _).
  rewrite Hc in Hin. apply elem_of_cons in Hin as [[= -> ->]|Hin].
  { split; [done | by left]. }
  destruct (links_outcome website r0) as [e|kept].
  { destruct H as (-> & -> & _). by apply elem_of_nil in Hin. }
  destruct H as (content & P & H).
  apply elem_of_app in Hin as [Hin|Hin].
  { destruct (pages_trace_link _ _ _ _ _ _ P Hin) as (link & _ & -> & _).
    split; [done | by right]. }
  destruct content as [e|all_content].
  { destruct H as (-> & _). by apply elem_of_nil in Hin. }
  destruct H as (out & C & _). apply chat_trace_chats in C as (C & _).
  by apply (proj1 (Forall_forall _ _) C) in Hin.
Qed.

Lemma pages_trace_replies links acc calls out website i ev :
  pages_trace links acc calls out ->
  calls !! i = Some ev ->
  reply_error website ev = if decide (S i = length calls) then failure out else None.
Proof.
  intros P. revert i.
  induction P as [acc|link rest acc r e Hr|link rest acc r text evs out Hr P IH];
    intros i Hi.
  - done.
  - destruct i as [|i]; [| done]. injection Hi as <-. cbn. by rewrite Hr.
  - destruct i as [|i].
    + injection Hi as <-. cbn [reply_error markdown_params formats]. rewrite Hr.
      destruct evs as [|ev' evs]; [| done].
      inversion P; subst. done.
    + rewrite (IH i Hi). cbn [length]. by repeat case_decide; try lia.
Qed.

Lemma chat_trace_replies builds input calls out website i ev :
  chat_trace builds input calls out ->
  calls !! i = Some ev ->
  reply_error website ev = if decide (S i = length calls) then failure out else None.
Proof.
  intros C. revert i.
  induction C as [input|build rest input r e Hr|build rest input r t evs out Hr C IH];
    intros i Hi.
  - done.
  - destruct i as [|i]; [| done]. injection Hi as <-. cbn. by rewrite Hr.
  - destruct i as [|i].
    + injection Hi as <-. cbn [reply_error]. rewrite Hr.
      destruct evs as [|ev' evs]; [| done].
      inversion C; subst. done.
    + rewrite (IH i Hi). cbn [length]. by repeat case_decide; try lia.
Qed.

Lemma chat_trace_nonempty build builds input calls out :
  chat_trace (build :: builds) input calls out -> calls <> [].
Proof. by inversion 1. Qed.

Lemma pages_trace_failed links acc calls e :
  pages_trace links acc calls (inl e) -> calls <> [].
Proof. by inversion 1. Qed.

Lemma pipeline_trace_replies website calls r i ev :
  pipeline_trace website calls r ->
  calls !! i = Some ev ->
  reply_error website ev = if decide (S i = length calls) then failure r else None.
Proof.
  intros (r0 & pages & chats & -> & H) Hi.
  destruct (links_outcome website r0) as [e|kept] eqn:L.
  { destruct H as (-> & -> & ->). destruct i as [|i]; [| done].
    injection Hi as <-. cbn. by rewrite L. }
  destruct H as (content & P & H).
  assert (pages ++ chats <> []) as Hne.
  { destruct content as [e|all_content].
    - apply pages_trace_failed in P. by destruct pages.
    - destruct H as (out & C & _). apply chat_trace_nonempty in C.
      by destruct pages, chats. }
  destruct i as [|i].
  { injection Hi as <-. cbn [reply_error links_params formats]. rewrite L.
    cbn [length failure]. case_decide; [| done]. by destruct (pages ++ chats). }
  change ((pages ++ chats) !! i = Some ev) in Hi.
  cbn [length]. rewrite length_app.
  destruct (decide (i < length pages)%nat) as [Hp|Hp].
  - rewrite lookup_app_l in Hi by done.
    rewrite (pages_trace_replies _ _ _ _ website _ _ P Hi).
    destruct content as [e|all_content].
    + destruct H as (-> & ->). cbn [length failure]. by repeat case_decide; try lia.
    + cbn [failure]. destruct H as (out & C & _).
      apply chat_trace_nonempty in C.
      assert (length chats <> 0)%nat by by destruct chats.
      by repeat case_decide; try lia.
  - rewrite lookup_app_r in Hi by lia.
    destruct content as [e|all_content].
    + destruct H as (-> & _). by rewrite lookup_nil in Hi.
    + destruct H as (out & C & ->).
      rewrite (chat_trace_replies _ _ _ _ website _ _ C Hi).
      pose proof (lookup_lt_Some _ _ _ Hi).
      assert (failure (match out with
                       | inl e => inl e
                       | inr f => inr (response_success f)
                       end : result Response) = failure out) as -> by by destruct out.
      by repeat case_decide; try lia.
Qed.

Lemma handler_trace_pipeline event calls resp :
  handler_trace event calls resp -> calls <> [] ->
  exists website r,
    request_website event = inr website /\
    truthy website = true /\
    pipeline_trace website calls r /\
    resp = match r with inl e => response_error e | inr resp0 => resp0 end.
Proof.
  unfold handler_trace. intros H Hne.
  destruct (request_website event) as [e|website]; [by destruct H |].
  destruct (truthy website) eqn:Ht; [| by destruct H].
  destruct (StartScrapeJobParams_init website [FormatLinks]); [by destruct H |].
  destruct H as (r & P & ->). by exists website, r.
Qed.

Lemma pipeline_trace_failure website pre ev post r e :
  pipeline_trace website (pre ++ ev :: post) r ->
  reply_error website ev = Some e ->
  post = [] /\ r = inl e.
Proof.
  intros P He.
  rewrite (pipeline_trace_replies _ _ _ (length pre) _ P) in He
    by by rewrite list_lookup_middle.
  rewrite length_app in He. cbn [length] in He.
  case_decide as Hl; [| done]. split.
  - destruct post; [done | simpl in Hl; lia].
  - destruct r as [e'|]; cbn in He; [by injection He as -> | done].
Qed.

Lemma request_body_website_inv event items website :
  request_body event (PDict items) ->
  request_website event = inr website ->
  website = dict_get items (lit "website") PNone.
Proof.
  intros B Q. apply request_website_inv in Q as (items' & B' & ->).
  destruct B as (raw & E1 & E2), B' as (raw' & E1' & E2').
  rewrite E1 in E1'. injection E1' as <-. rewrite E2 in E2'. by injection E2' as <-.
Qed.

(** X13. Whatever the handler's code raises on a reply ends the run: be it
    the exception of the call or one raised on reading its reply, the call
    is the last one and the response is the 500 response with the string of
    that exception. *)
Theorem reply_failure_ends_the_run event context st items pre ev post e :
  request_body event (PDict items) ->
  calls_made st (lambda_handler event context st).2 = pre ++ ev :: post ->
  reply_error (dict_get items (lit "website") PNone) ev = Some e ->
  post = [] /\
  (lambda_handler event context st).1
  = {| statusCode := 500;
       headers := json_headers;
       body := json_dumps_object1 (lit "error") (exc_str e) |}.
Proof.
  intros B Hc He.
  destruct (lambda_handler_trace event context st) as [_ H].
  apply handler_trace_pipeline in H as (website & r & Q & _ & P & ->);
    [| rewrite Hc; by destruct pre].
  rewrite (request_body_website_inv _ _ _ B Q) in P. rewrite Hc in P.
  by destruct (pipeline_trace_failure _ _ _ _ _ _ P He) as [-> ->].
Qed.

(** X14. A 500 response after an outbound call comes from the reply of the
    last call: the handler raised on it, and the error field is the string
    of that exception. *)
Theorem status_500_is_the_last_reply event context st items pre ev :
  request_body event (PDict items) ->
  calls_made st (lambda_handler event context st).2 = pre ++ [ev] ->
  statusCode (lambda_handler event context st).1 = 500 ->
  exists e,
    reply_error (dict_get items (lit "website") PNone) ev = Some e /\
    body (lambda_handler event context st).1
    = json_dumps_object1 (lit "error") (exc_str e).
Proof.
  intros B Hc Hs.
  destruct (lambda_handler_trace event context st) as [_ H].
  apply handler_trace_pipeline in H as (website & r & Q & _ & P & Hr);
    [| rewrite Hc; by destruct pre].
  rewrite (request_body_website_inv _ _ _ B Q) in P. rewrite Hc in P.
  rewrite Hr in Hs |- *.
  pose proof (pipeline_trace_replies _ _ _ (length pre) ev P) as E.
  rewrite list_lookup_middle in E by done. specialize (E eq_refl).
  rewrite length_app in E. cbn [length] in E.
  case_decide; [| lia].
  destruct r as [e|resp0].
  - by exists e.
  - destruct P as (r0 & pages & chats & _ & P).
    destruct (links_outcome _ r0); [by destruct P as (_ & _ & ?) |].
    destruct P as (content & _ & P).
    destruct content; [by destruct P |].
    destruct P as (out & _ & P). destruct out; [done |].
    by injection P as ->.
Qed.

(** X15. A scrape job that comes back without data makes the handler raise
    on [result.data.links], respectively [result.data.markdown]: the call is
    the last one, and the response is the 500 response with the attribute
    error on [None]. *)
Theorem scrape_job_without_data_is_500 event context st pre p post :
  calls_made st (lambda_handler event context st).2
  = pre ++ ScrapeEvent p (inr {| data := None |}) :: post ->
  post = [] /\
  (lambda_handler event context st).1
  = {| statusCode := 500;
       headers := json_headers;
       body := json_dumps_object1 (lit "error")
                 (lit "'NoneType' object has no attribute '"
                    ++ match formats p with
                       | [FormatLinks] => lit "links"
                       | _ => lit "markdown"
                       end ++ lit "'") |}.
Proof.
  intros Hc.
  destruct (lambda_handler_trace event context st) as [_ H].
  apply handler_trace_pipeline in H as (website & r & _ & _ & P & ->);
    [| rewrite Hc; by destruct pre].
  rewrite Hc in P.
  assert (reply_error website (ScrapeEvent p (inr {| data := None |}))
          = Some (AttributeError (lit "NoneType")
                    match formats p with
                    | [FormatLinks] => "links"
                    | _ => "markdown"
                    end)) as He.
  { cbn [reply_error]. by destruct (formats p) as [|[] []]. }
  destruct (pipeline_trace_failure _ _ _ _ _ _ P He) as [-> ->].
  split; [done |]. unfold response_error. do 2 f_equal.
  by destruct (formats p) as [|[] []].
Qed.

(** X16. A link scrape that comes back with data and no list of links makes
    the comprehension raise: no page is scraped, the model is not called,
    and the response is the 500 response with the type error of iterating
    [None]. *)
Theorem link_scrape_without_links_is_500 event context st website d rest :
  calls_made st (lambda_handler event context st).2
  = links_event website d :: rest ->
  links d = None ->
  rest = [] /\
  (lambda_handler event context st).1
  = {| statusCode := 500;
       headers := json_headers;
       body := json_dumps_object1 (lit "error")
                 (lit "'NoneType' object is not iterable") |}.
Proof.
  intros Hc Hl.
  destruct (lambda_handler_trace event context st) as [_ H].
  apply handler_trace_pipeline in H as (website' & r & _ & _ & P & ->);
    [| by rewrite Hc].
  rewrite Hc in P.
  assert (reply_error website' (links_event website d)
          = Some (TypeError (lit "'NoneType' object is not iterable"))) as He.
  { cbn. by rewrite Hl. }
  by destruct (pipeline_trace_failure _ [] _ _ _ _ P He) as [-> ->].
Qed.

(** X17. A reply of the model without choices makes [choices[0]] raise:
    the call is the last one and the response is the 500 response with the
    index error. *)
Theorem model_reply_without_choices_is_500 event context st pre model messages o post :
  calls_made st (lambda_handler event context st).2
  = pre ++ ChatEvent model messages (inr o) :: post ->
  choices o = [] ->
  post = [] /\
  (lambda_handler event context st).1
  = {| statusCode := 500;
       headers := json_headers;
       body := json_dumps_object1 (lit "error") (lit "list index out of range") |}.
Proof.
  intros Hc Ho.
  destruct (lambda_handler_trace event context st) as [_ H].
  apply handler_trace_pipeline in H as (website & r & _ & _ & P & ->);
    [| rewrite Hc; by destruct pre].
  rewrite Hc in P.
  assert (reply_error website (ChatEvent model messages (inr o))
          = Some (IndexError (lit "list index out of range"))) as He.
  { cbn. unfold first_content_stripped. by rewrite Ho. }
  by destruct (pipeline_trace_failure _ _ _ _ _ _ P He) as [-> ->].
Qed.

(** X18. A reply of the model whose first message has no content makes
    [content.strip()] raise: the call is the last one and the response is
    the 500 response with the attribute error on [None]. *)
Theorem model_reply_without_content_is_500 event context st pre model messages o more post :
  calls_made st (lambda_handler event context st).2
  = pre ++ ChatEvent model messages (inr o) :: post ->
  choices o = None :: more ->
  post = [] /\
  (lambda_handler event context st).1
  = {| statusCode := 500;
       headers := json_headers;
       body := json_dumps_object1 (lit "error")
                 (lit "'NoneType' object has no attribute 'strip'") |}.
Proof.
  intros Hc Ho.
  destruct (lambda_handler_trace event context st) as [_ H].
  apply handler_trace_pipeline in H as (website & r & _ & _ & P & ->);
    [| rewrite Hc; by destruct pre].
  rewrite Hc in P.
  assert (reply_error website (ChatEvent model messages (inr o))
          = Some (AttributeError (lit "NoneType") "strip")) as He.
  { cbn. unfold first_content_stripped. by rewrite Ho. }
  by destruct (pipeline_trace_failure _ _ _ _ _ _ P He) as [-> ->].
Qed.

Lemma calls_made_same (st : state W) : calls_made st st = [].
Proof. unfold calls_made. by rewrite drop_all. Qed.

(** X19. The handler makes outbound calls exactly when the body of the
    request parses to an object whose website is a non-empty string; when
    it makes none, the state of the services is as it was. *)
Theorem outbound_calls_need_a_website event context st :
  (calls_made st (lambda_handler event context st).2 <> [] <->
   exists items root,
     request_body event (PDict items) /\
     dict_lookup items (lit "website") = Some (PStr root) /\
     root <> []) /\
  (calls_made st (lambda_handler event context st).2 = [] ->
   (lambda_handler event context st).2 = st).
Proof.
  destruct (lambda_handler_trace event context st) as [_ H].
  unfold handler_trace in H.
  destruct (request_website event) as [e|website] eqn:Q.
  { rewrite (handler_rejects _ _ _ e Q). cbn [snd]. rewrite calls_made_same.
    split; [| done]. split; [done |].
    intros (items & w & B & _). apply request_body_website in B. congruence. }
  destruct (truthy website) eqn:T; cycle 1.
  { rewrite (handler_missing _ _ _ _ Q T). cbn [snd]. rewrite calls_made_same.
    split; [| done]. split; [done |].
    intros (items & root & B & L & Hne). apply request_body_website in B.
    unfold dict_get in B. rewrite L in B.
    assert (website = PStr root) as -> by congruence. by destruct root. }
  destruct (StartScrapeJobParams_init website [FormatLinks]) as [e|params] eqn:V.
  - assert (forall s, website <> PStr s) as Hn by (intros s ->; discriminate V).
    rewrite (handler_runs _ _ _ _ Q T). unfold try_except.
    rewrite (run_pipeline_invalid _ _ Hn). cbn [snd]. rewrite calls_made_same.
    split; [| done]. split; [done |].
    intros (items & root & B & L & _). apply request_body_website in B.
    unfold dict_get in B. rewrite L in B.
    destruct (Hn root). congruence.
  - destruct H as (r & (r0 & pages & chats & -> & _) & _).
    split; [| done]. split; [intros _ | done].
    destruct website as [| | | |root| |]; try done.
    apply request_website_inv in Q as (items & B & Hw).
    exists items, root. split; [done |]. split; [| by destruct root].
    unfold dict_get in Hw. by destruct (dict_lookup items (lit "website")) as [v|]; subst.
Qed.

Lemma chat_trace_last builds input pre ev f :
  chat_trace builds input (pre ++ [ev]) (inr f) ->
  exists model messages r, ev = ChatEvent model messages r /\ chat_outcome r = inr f.
Proof.
  remember (pre ++ [ev]) as calls eqn:Hc. remember (inr f) as out eqn:Ho.
  intros C. revert pre Hc.
  induction C as [input|build rest input r e Hr|build rest input r t evs out Hr C IH];
    intros pre Hc.
  - by destruct pre.
  - done.
  - destruct pre as [|ev0 pre].
    + injection Hc as <- ->. subst out. inversion C; subst. by eexists _, _, _.
    + injection Hc as _ ->. by apply (IH Ho pre).
Qed.

Lemma pipeline_trace_success website pre ev resp :
  pipeline_trace website (pre ++ [ev]) (inr resp) ->
  exists model messages r f,
    ev = ChatEvent model messages r /\ chat_outcome r = inr f /\
    resp = response_success f.
Proof.
  intros (r0 & pages & chats & Hc & P).
  destruct (links_outcome website r0); [by destruct P as (_ & _ & ?) |].
  destruct P as (content & _ & P). destruct content; [by destruct P |].
  destruct P as (out & C & P). destruct out as [|f]; [done |]. injection P as ->.
  destruct chats as [|c chats _] using rev_ind.
  { by apply chat_trace_nonempty in C. }
  rewrite app_assoc, app_comm_cons in Hc. apply app_inj_tail in Hc as [_ ->].
  apply chat_trace_last in C as (model & messages & r & -> & Hr).
  by exists model, messages, r, f.
Qed.

Lemma pipeline_trace_answer website pre model messages o text more r :
  pipeline_trace website (pre ++ [ChatEvent model messages (inr o)]) r ->
  choices o = Some text :: more ->
  r = inr (response_success (str_strip text)).
Proof.
  intros P Ho.
  pose proof (pipeline_trace_replies _ _ _ (length pre) _ P
                ltac:(by rewrite list_lookup_middle)) as E.
  rewrite length_app in E. cbn [length] in E. case_decide; [| lia].
  cbn in E. unfold first_content_stripped in E. rewrite Ho in E.
  destruct r as [e|resp]; [done |].
  apply pipeline_trace_success in P as (m & ms & r & f & [= _ _ <-] & Hr & ->).
  cbn in Hr. unfold first_content_stripped in Hr. rewrite Ho in Hr.
  by injection Hr as <-.
Qed.

Lemma str_lstrip_whitespace s : whitespace s -> str_lstrip s = [].
Proof. induction 1 as [|c s Hc _ IH]; [done |]. cbn. by rewrite Hc. Qed.

Lemma str_strip_whitespace s : whitespace s -> str_strip s = [].
Proof. intros H. unfold str_strip. by rewrite str_lstrip_whitespace. Qed.

Lemma str_strip_Forall (P : pychar -> Prop) s : Forall P s -> Forall P (str_strip s).
Proof.
  intros H. destruct (str_strip_stripped s) as (l & r & E & _).
  rewrite E in H. by apply Forall_app in H as [_ [H _]%Forall_app].
Qed.

(** X20. The answer of the model is not validated: when the last call of a
    run is a model call whose reply is blank, the response is the 200
    response with the empty string as [structured_info]. *)
Theorem blank_final_answer_is_200 event context st pre model messages o text more :
  calls_made st (lambda_handler event context st).2
  = pre ++ [ChatEvent model messages (inr o)] ->
  choices o = Some text :: more ->
  whitespace text ->
  (lambda_handler event context st).1
  = {| statusCode := 200;
       headers := json_headers;
       body := json_dumps_object1 (lit "structured_info") [] |}.
Proof.
  intros Hc Ho Hw.
  destruct (lambda_handler_trace event context st) as [_ H].
  apply handler_trace_pipeline in H as (website & r & _ & _ & P & ->);
    [| rewrite Hc; by destruct pre].
  rewrite Hc in P. rewrite (pipeline_trace_answer _ _ _ _ _ _ _ _ P Ho).
  unfold response_success. by rewrite str_strip_whitespace.
Qed.

Lemma scalar_structured_info : Forall Json.scalar (lit "structured_info").
Proof. repeat constructor; unfold Json.scalar; lia. Qed.

Lemma scalar_error : Forall Json.scalar (lit "error").
Proof. repeat constructor; unfold Json.scalar; lia. Qed.

(** X21. A client reads the answer back as it was: when the last call of a
    run is a model call that returned a text without surrogates, the
    response has the status 200 and its body decodes to the object with the
    one key [structured_info] and the stripped text as its value. *)
Theorem success_body_round_trip event context st pre model messages o text more :
  calls_made st (lambda_handler event context st).2
  = pre ++ [ChatEvent model messages (inr o)] ->
  choices o = Some text :: more ->
  Forall Json.scalar text ->
  statusCode (lambda_handler event context st).1 = 200 /\
  Json.decode (body (lambda_handler event context st).1)
  = inr (PDict [(lit "structured_info", PStr (str_strip text))]).
Proof.
  intros Hc Ho Hs.
  destruct (lambda_handler_trace event context st) as [_ H].
  apply handler_trace_pipeline in H as (website & r & _ & _ & P & ->);
    [| rewrite Hc; by destruct pre].
  rewrite Hc in P. rewrite (pipeline_trace_answer _ _ _ _ _ _ _ _ P Ho).
  split; [done |]. cbn [response_success body].
  apply EscapeFacts.decode_dumps_scalar;
    [apply scalar_structured_info | by apply str_strip_Forall].
Qed.

Lemma raised_reply_error website ev e :
  raised ev = Some e -> reply_error website ev = Some e.
Proof.
  destruct ev as [p [e'|r]|model messages [e'|r]]; try done.
  intros [= ->]. cbn. by destruct (formats p) as [|[] []].
Qed.

(** X22. A client reads the failure back as it was: when an outbound call
    raised an exception whose string has no surrogates, the body of the
    response decodes to the object with the one key [error] and that string
    as its value. *)
Theorem failure_body_round_trip event context st pre ev post e :
  calls_made st (lambda_handler event context st).2 = pre ++ ev :: post ->
  raised ev = Some e ->
  Forall Json.scalar (exc_str e) ->
  Json.decode (body (lambda_handler event context st).1)
  = inr (PDict [(lit "error", PStr (exc_str e))]).
Proof.
  intros Hc Hr Hs.
  destruct (lambda_handler_trace event context st) as [_ H].
  apply handler_trace_pipeline in H as (website & r & _ & _ & P & ->);
    [| rewrite Hc; by destruct pre].
  rewrite Hc in P.
  destruct (pipeline_trace_failure _ _ _ _ _ _ P (raised_reply_error website _ _ Hr))
    as [_ ->].
  cbn [response_error body].
  by apply EscapeFacts.decode_dumps_scalar; [apply scalar_error |].
Qed.

Lemma hex_digit_printable n : (n < 16)%N -> printable (hex_digit n).
Proof. unfold printable, hex_digit. intros H. case_match; lia. Qed.

Lemma hex4_printable n : Forall printable (hex4 n).
Proof.
  unfold hex4.
  repeat (apply Forall_cons; split; [apply hex_digit_printable; by apply N.mod_lt |]).
  apply Forall_nil_2.
Qed.

Lemma escape_ascii_printable c : Forall printable (escape_ascii c).
Proof.
  unfold escape_ascii.
  repeat match goal with
    | |- context [if (c =? ?k)%N then _ else _] =>
        destruct (N.eqb_spec c k) as [->|?];
        [repeat constructor; by compute |]
    end.
  destruct ((32 <=? c)%N && (c <=? 126)%N) eqn:Hp.
  { apply andb_prop in Hp as [H1 H2]. apply N.leb_le in H1. apply N.leb_le in H2.
    constructor; [| constructor]. unfold printable. lia. }
  assert (Forall printable (bs ++ lit "u")) as Hu
    by (repeat constructor; by compute).
  case_match.
  - rewrite app_assoc. apply Forall_app. split; [done | apply hex4_printable].
  - cbv zeta. rewrite app_assoc. apply Forall_app. split; [done |].
    apply Forall_app. split; [apply hex4_printable |].
    rewrite app_assoc. apply Forall_app. split; [done | apply hex4_printable].
Qed.

Lemma encode_basestring_ascii_printable s : Forall printable (encode_basestring_ascii s).
Proof.
  unfold encode_basestring_ascii. apply Forall_app. split.
  { repeat constructor; by compute. }
  apply Forall_app. split; [| repeat constructor; by compute].
  induction s as [|c s IH]; [constructor |].
  cbn [map concat]. apply Forall_app. split; [apply escape_ascii_printable | done].
Qed.

Lemma json_dumps_object1_printable key value :
  Forall printable (json_dumps_object1 key value).
Proof.
  unfold json_dumps_object1. rewrite !Forall_app.
  split_and!; try apply encode_basestring_ascii_printable.
  all: repeat (apply Forall_cons; split; [by compute |]).
  all: apply Forall_nil_2.
Qed.

(** X23. Every body the handler returns is printable ASCII, whatever
    characters the answer of the model or the string of the exception has:
    [json.dumps] escapes the rest. *)
Theorem body_is_printable_ascii event context st :
  Forall printable (body (lambda_handler event context st).1).
Proof.
  destruct (handler_response event context st) as [->|[[t ->]|[e ->]]];
    apply json_dumps_object1_printable.
Qed.

(** X24. An event that is no dict has no [get]: the handler answers it
    with the 500 response for the attribute error, and makes no outbound
    call. *)
Theorem non_dict_event_is_500 event context st :
  (forall items, event <> PDict items) ->
  lambda_handler event context st
  = ({| statusCode := 500;
        headers := json_headers;
        body := json_dumps_object1 (lit "error")
                  (lit "'" ++ type_name event
                     ++ lit "' object has no attribute 'get'") |}, st).
Proof.
  intros Hn.
  rewrite (handler_rejects _ _ _ (AttributeError (type_name event) "get")).
  - unfold response_error, AttributeError. cbn [exc_str]. do 3 f_equal.
  - unfold request_website. destruct event as [| | | | | |items]; try done.
    by destruct (Hn items).
Qed.

End Traces.

(** X25. The stage of a model call and the text it was given can be read
    off its prompt: each template determines its payload, and no prompt of
    one stage is a prompt of another. *)
Theorem prompts_tell_stage_and_payload :
  (forall a b, prompt_structuring a = prompt_structuring b -> a = b) /\
  (forall a b, prompt_relevancy a = prompt_relevancy b -> a = b) /\
  (forall a b, prompt_finalized a = prompt_finalized b -> a = b) /\
  (forall a b, prompt_structuring a <> prompt_relevancy b) /\
  (forall a b, prompt_structuring a <> prompt_finalized b) /\
  (forall a b, prompt_relevancy a <> prompt_finalized b).
Proof.
  split; [| split; [| split; [| split; [| split]]]].
  - intros a b H. unfold prompt_structuring in H.
    by do 7 apply app_inv_head in H.
  - intros a b H. unfold prompt_relevancy in H.
    do 4 apply app_inv_head in H. by apply app_inv_tail in H.
  - intros a b H. unfold prompt_finalized in H.
    do 4 apply app_inv_head in H. by apply app_inv_tail in H.
  - intros a b H. by apply (f_equal (fun s => s !! 18%nat)) in H.
  - intros a b H. by apply (f_equal (fun s => s !! 9%nat)) in H.
  - intros a b H. by apply (f_equal (fun s => s !! 9%nat)) in H.
Qed.

Section Reference.

Context {W : Type} {services : Services W}.

#[local] Existing Instance reference_decoder.

Lemma dumped_request_body url :
  Forall Json.scalar url ->
  request_body (request (json_dumps_object1 (lit "website") url))
    (PDict [(lit "website", PStr url)]).
Proof.
  intros Hs. exists (PStr (json_dumps_object1 (lit "website") url)).
  split; [done |]. cbn [json_loads]. unfold json_decode, reference_decoder.
  apply EscapeFacts.decode_dumps_scalar; [| done].
  repeat constructor; left; by compute.
Qed.

(** X26. With the decoder of the standard library, a client that sends
    [json.dumps({"website": url})] for a non-empty URL without surrogates
    gets the link scrape of that very URL as the first outbound call. *)
Theorem dumped_request_starts_the_link_scrape (url : pystr) context (st : state W) :
  url <> [] ->
  Forall Json.scalar url ->
  exists r rest,
    calls_made st
      (lambda_handler (request (json_dumps_object1 (lit "website") url)) context st).2
    = ScrapeEvent {| url := PStr url; formats := [FormatLinks];
                     only_main_content := true |} r :: rest.
Proof.
  intros Hne Hs.
  destruct (string_website_trace _ context st _ url (dumped_request_body url Hs))
    as (r & r0 & pages & chats & Hc & _); [done | done |].
  exists r0, (pages ++ chats). exact Hc.
Qed.

End Reference.

(** ** The properties of the traces on the scripted services *)

Section TraceExamples.

#[local] Existing Instance Scripted.services.
#[local] Existing Instance reference_decoder.

Lemma acme_request_body :
  request_body acme_request (PDict [(lit "website", PStr acme)]).
Proof. exists (PStr (website_json (dq ++ acme ++ dq))). split; reflexivity. Qed.

Lemma falsy_website_witness :
  Scripted.handler zero_request acme_world
  = (response_missing_website, {| world := acme_world; trace := [] |}).
Proof.
  apply (falsy_website_is_400 zero_request PNone _ [(lit "website", PInt 0)] (PInt 0)).
  - exists (PStr (website_json (lit "0"))). split; reflexivity.
  - reflexivity.
  - left. reflexivity.
Defined.

Lemma status_400_witness :
  (Scripted.handler empty_website_request acme_world).2
  = {| world := acme_world; trace := [] |} /\
  exists items,
    request_body empty_website_request (PDict items) /\
    truthy (dict_get items (lit "website") PNone) = false.
Proof.
  apply (status_400_is_the_validation empty_website_request PNone
           {| world := acme_world; trace := [] |}
           (Scripted.handler empty_website_request acme_world).1).
  - apply surjective_pairing.
  - reflexivity.
Defined.

Lemma non_string_body_witness :
  Scripted.handler null_body_request Scripted.silent
  = (response_error
       (TypeError (lit "the JSON object must be str, bytes or bytearray, not NoneType")),
     {| world := Scripted.silent; trace := [] |}).
Proof.
  apply (non_string_body_is_500 [(lit "body", PNone)] PNone
           {| world := Scripted.silent; trace := [] |} PNone).
  - reflexivity.
  - intros s. discriminate.
Defined.

Lemma non_object_body_witness :
  Scripted.handler array_request Scripted.silent
  = (response_error (AttributeError (lit "list") "get"),
     {| world := Scripted.silent; trace := [] |}).
Proof.
  apply (non_object_body_is_500 array_request PNone
           {| world := Scripted.silent; trace := [] |} (PList [])).
  - exists (PStr (lit "[]")). split; reflexivity.
  - intros items. discriminate.
Defined.

Lemma failing_call_witness :
  ([] : list io_event) = [] /\
  Forall returned
    [links_event (PStr acme) {| links := Some acme_links; markdown := None |};
     page_event (acme ++ lit "/about",
                 {| links := None; markdown := Some (lit "About Acme") |})].
Proof.
  apply (failing_call_is_last acme_request PNone
           {| world := failing_world; trace := [] |} _
           (ScrapeEvent (markdown_params (acme ++ lit "/products")) (inl quota_exceeded))
           _ quota_exceeded); reflexivity.
Defined.

Lemma link_scrape_witness :
  exists r rest,
    calls_made {| world := acme_world; trace := [] |}
      (Scripted.handler acme_request acme_world).2
    = ScrapeEvent {| url := PStr acme; formats := [FormatLinks];
                     only_main_content := true |} r :: rest /\
    Forall (fun ev => forall p, scrape_request ev = Some p ->
                        formats p = [FormatMarkdown]) rest.
Proof.
  apply (link_scrape_is_first_and_only acme_request PNone
           {| world := acme_world; trace := [] |} [(lit "website", PStr acme)] acme).
  - apply acme_request_body.
  - reflexivity.
  - discriminate.
Defined.

Lemma page_scrape_witness :
  exists items root d found link rest,
    request_body acme_request (PDict items) /\
    dict_lookup items (lit "website") = Some (PStr root) /\
    calls_made {| world := acme_world; trace := [] |}
      (Scripted.handler acme_request acme_world).2
    = links_event (PStr root) d :: rest /\
    links d = Some found /\
    link ∈ found /\
    root `prefix_of` link /\
    markdown_params (acme ++ lit "/about")
    = {| url := PStr link; formats := [FormatMarkdown]; only_main_content := true |}.
Proof.
  apply (page_scrapes_stay_on_site acme_request PNone
           {| world := acme_world; trace := [] |}
           (markdown_params (acme ++ lit "/about"))
           (Scripted.page_reply (Some (lit "About Acme")))).
  - vm_compute. apply list_elem_of_further, list_elem_of_here.
  - reflexivity.
Defined.


Lemma model_call_witness :
  model_id = lit "openai/gpt-oss-120b" /\
  exists prompt payload,
    [user_message (prompt_finalized (lit "relevant"))]
    = [{| role := lit "user"; content := prompt |}] /\
    (prompt = prompt_structuring payload \/
     prompt = prompt_relevancy payload \/
     prompt = prompt_finalized payload).
Proof.
  apply (model_calls_have_one_shape acme_request PNone
           {| world := acme_world; trace := [] |} model_id
           [user_message (prompt_finalized (lit "relevant"))]
           (Scripted.chat_reply (nl ++ lit " final document " ++ nl))).
  vm_compute. do 5 apply list_elem_of_further. apply list_elem_of_here.
Defined.

Lemma scrape_call_witness :
  only_main_content (links_params (PStr acme)) = true /\
  (formats (links_params (PStr acme)) = [FormatLinks] \/
   formats (links_params (PStr acme)) = [FormatMarkdown]).
Proof.
  apply (scrape_calls_have_one_shape acme_request PNone
           {| world := acme_world; trace := [] |} (links_params (PStr acme))
           (Scripted.links_reply acme_links)).
  vm_compute. apply list_elem_of_here.
Defined.

Lemma reply_failure_witness :
  ([] : list io_event) = [] /\
  (Scripted.handler acme_request failing_world).1 = response_error quota_exceeded.
Proof.
  apply (reply_failure_ends_the_run acme_request PNone
           {| world := failing_world; trace := [] |} [(lit "website", PStr acme)]
           [links_event (PStr acme) {| links := Some acme_links; markdown := None |};
            page_event (acme ++ lit "/about",
                        {| links := None; markdown := Some (lit "About Acme") |})]
           (ScrapeEvent (markdown_params (acme ++ lit "/products")) (inl quota_exceeded))
           [] quota_exceeded).
  - apply acme_request_body.
  - reflexivity.
  - reflexivity.
Defined.

Lemma status_500_witness :
  exists e,
    reply_error (PStr acme)
      (ScrapeEvent (markdown_params (acme ++ lit "/products")) (inl quota_exceeded))
    = Some e /\
    body (Scripted.handler acme_request failing_world).1
    = json_dumps_object1 (lit "error") (exc_str e).
Proof.
  apply (status_500_is_the_last_reply acme_request PNone
           {| world := failing_world; trace := [] |} [(lit "website", PStr acme)]
           [links_event (PStr acme) {| links := Some acme_links; markdown := None |};
            page_event (acme ++ lit "/about",
                        {| links := None; markdown := Some (lit "About Acme") |})]
           (ScrapeEvent (markdown_params (acme ++ lit "/products")) (inl quota_exceeded))).
  - apply acme_request_body.
  - reflexivity.
  - reflexivity.
Defined.

Lemma no_data_witness :
  ([] : list io_event) = [] /\
  (Scripted.handler acme_request no_data_world).1
  = response_error (AttributeError (lit "NoneType") "links").
Proof.
  apply (scrape_job_without_data_is_500 acme_request PNone
           {| world := no_data_world; trace := [] |} [] (links_params (PStr acme)) []).
  reflexivity.
Defined.

Lemma no_links_witness :
  ([] : list io_event) = [] /\
  (Scripted.handler acme_request no_links_world).1
  = response_error (TypeError (lit "'NoneType' object is not iterable")).
Proof.
  apply (link_scrape_without_links_is_500 acme_request PNone
           {| world := no_links_world; trace := [] |} (PStr acme)
           {| links := None; markdown := None |} []); reflexivity.
Defined.

Lemma no_choices_witness :
  ([] : list io_event) = [] /\
  (Scripted.handler acme_request no_choices_world).1
  = response_error (IndexError (lit "list index out of range")).
Proof.
  apply (model_reply_without_choices_is_500 acme_request PNone
           {| world := no_choices_world; trace := [] |}
           [links_event (PStr acme) {| links := Some []; markdown := None |}]
           model_id [user_message (prompt_structuring [])] {| choices := [] |} []);
    reflexivity.
Defined.

Lemma no_content_witness :
  ([] : list io_event) = [] /\
  (Scripted.handler acme_request no_content_world).1
  = response_error (AttributeError (lit "NoneType") "strip").
Proof.
  apply (model_reply_without_content_is_500 acme_request PNone
           {| world := no_content_world; trace := [] |}
           [links_event (PStr acme) {| links := Some []; markdown := None |}]
           model_id [user_message (prompt_structuring [])] {| choices := [None] |} [] []);
    reflexivity.
Defined.

Lemma blank_answer_witness :
  (Scripted.handler acme_request blank_world).1 = response_success [].
Proof.
  apply (blank_final_answer_is_200 acme_request PNone
           {| world := blank_world; trace := [] |}
           [links_event (PStr acme) {| links := Some []; markdown := None |};
            llm_event (prompt_structuring []) {| choices := [Some (lit "structured")] |};
            llm_event (prompt_relevancy (lit "structured"))
              {| choices := [Some (lit "relevant")] |}]
           model_id [user_message (prompt_finalized (lit "relevant"))]
           {| choices := [Some (lit "  " ++ nl)] |} (lit "  " ++ nl) []).
  - reflexivity.
  - reflexivity.
  - repeat constructor.
Defined.

Lemma success_round_trip_witness :
  statusCode (Scripted.handler acme_request acme_world).1 = 200 /\
  Json.decode (body (Scripted.handler acme_request acme_world).1)
  = inr (PDict [(lit "structured_info", PStr (lit "final document"))]).
Proof.
  apply (success_body_round_trip acme_request PNone
           {| world := acme_world; trace := [] |}
           (take 5 (trace (Scripted.handler acme_request acme_world).2))
           model_id [user_message (prompt_finalized (lit "relevant"))]
           {| choices := [Some (nl ++ lit " final document " ++ nl)] |}
           (nl ++ lit " final document " ++ nl) []).
  - reflexivity.
  - reflexivity.
  - repeat (apply Forall_cons; split; [left; reflexivity |]). apply Forall_nil_2.
Defined.

Lemma failure_round_trip_witness :
  Json.decode (body (Scripted.handler acme_request failing_world).1)
  = inr (PDict [(lit "error", PStr (lit "quota exceeded"))]).
Proof.
  apply (failure_body_round_trip acme_request PNone
           {| world := failing_world; trace := [] |}
           [links_event (PStr acme) {| links := Some acme_links; markdown := None |};
            page_event (acme ++ lit "/about",
                        {| links := None; markdown := Some (lit "About Acme") |})]
           (ScrapeEvent (markdown_params (acme ++ lit "/products")) (inl quota_exceeded))
           [] quota_exceeded).
  - reflexivity.
  - reflexivity.
  - repeat (apply Forall_cons; split; [left; reflexivity |]). apply Forall_nil_2.
Defined.

Lemma dumped_request_witness :
  exists r rest,
    calls_made {| world := acme_world; trace := [] |}
      (lambda_handler (request (json_dumps_object1 (lit "website") acme)) PNone
         {| world := acme_world; trace := [] |}).2
    = ScrapeEvent {| url := PStr acme; formats := [FormatLinks];
                     only_main_content := true |} r :: rest.
Proof.
  apply (dumped_request_starts_the_link_scrape acme PNone
           {| world := acme_world; trace := [] |}).
  - discriminate.
  - repeat (apply Forall_cons; split; [left; reflexivity |]). apply Forall_nil_2.
Defined.

Lemma non_dict_event_witness :
  Scripted.handler (PList []) Scripted.silent
  = (response_error (AttributeError (lit "list") "get"),
     {| world := Scripted.silent; trace := [] |}).
Proof.
  apply (non_dict_event_is_500 (PList []) PNone
           {| world := Scripted.silent; trace := [] |}).
  intros items. discriminate.
Defined.

End TraceExamples.
